(** * darktable: the ImageMagick loader and the lighttable layout tool

    A shallow embedding of two source files of darktable,

    - [src/imageio/imageio_im.c]: [dt_imageio_open_im], the loader that hands
      non-RAW bitmap files to ImageMagick and stores the decoded pixels as
      four-channel float data, and
    - [src/libs/tools/lighttable.c]: the lighttable tool module (layout
      buttons, zoom spin button, keyboard actions, Lua accessors),

    followed by the properties proved about them.  Definitions keep the names
    of the C functions they embed. *)

From stdpp Require Import base option list strings gmap.
From Stdlib Require Import ZArith Ascii String Lia.
From Stdlib.Strings Require Import Byte.

Local Open Scope string_scope.
Local Open Scope Z_scope.

(** ** Part I.  [imageio_im.c] *)

(** *** C strings and the two glib string routines the loader calls

    A [const char *] is a Rocq [string]: the characters before the
    terminating NUL.  Reading through the pointer at the end of the string
    yields the NUL character. *)

Definition NUL : ascii := Ascii.zero.

(** [*s] *)
Definition deref (s : string) : ascii :=
  match s with
  | EmptyString => NUL
  | String c _ => c
  end.

(** [s + 1], for a pointer that does not stand on the terminator *)
Definition next (s : string) : string :=
  match s with
  | EmptyString => EmptyString
  | String _ s' => s'
  end.

(** [(gint)(guchar)c] *)
Definition uchar (c : ascii) : Z := Z.of_nat (nat_of_ascii c).

(** glib's [TOLOWER]: [((c) >= 'A' && (c) <= 'Z') ? (c) - 'A' + 'a' : (c)] *)
Definition TOLOWER (c : ascii) : ascii :=
  let n := nat_of_ascii c in
  if ((65 <=? n)%nat && (n <=? 90)%nat)%bool then ascii_of_nat (n - 65 + 97) else c.

(** glib's [g_ascii_strncasecmp (s1, s2, n)]: while [n] is not exhausted and
    neither pointer stands on a NUL, the lower-cased characters are compared
    as unsigned chars and their difference is returned when they differ;
    after the loop the result is the difference of the two characters read
    through the pointers when [n] is left, and [0] when [n] ran out. *)
Fixpoint g_ascii_strncasecmp (s1 s2 : string) (n : nat) : Z :=
  match n with
  | O => 0
  | S n' =>
      if (negb (Ascii.eqb (deref s1) NUL) && negb (Ascii.eqb (deref s2) NUL))%bool then
        let c1 := uchar (TOLOWER (deref s1)) in
        let c2 := uchar (TOLOWER (deref s2)) in
        if negb (c1 =? c2) then c1 - c2
        else g_ascii_strncasecmp (next s1) (next s2) n'
      else uchar (deref s1) - uchar (deref s2)
  end.

(** The inner loop of [g_strrstr]: the characters of [needle] are found
    from [p] on. *)
Fixpoint found_at (p needle : string) {struct needle} : bool :=
  match needle with
  | EmptyString => true
  | String b needle' =>
      match p with
      | EmptyString => false
      | String a p' => (Ascii.eqb a b && found_at p' needle')%bool
      end
  end.

(** The rightmost position of [haystack] at which [needle] starts, as the
    suffix that begins there. *)
Fixpoint strrstr_scan (haystack needle : string) : option string :=
  match haystack with
  | EmptyString => None
  | String _ rest =>
      match strrstr_scan rest needle with
      | Some p => Some p
      | None => if found_at haystack needle then Some haystack else None
      end
  end.

(** glib's [g_strrstr]: a pointer to the last occurrence of [needle] in
    [haystack], [NULL] when there is none; an empty needle yields
    [haystack] itself. *)
Definition g_strrstr (haystack needle : string) : option string :=
  if (String.length needle =? 0)%nat then Some haystack
  else strrstr_scan haystack needle.

(** *** Build configuration: [#ifdef HAVE_IMAGEMAGICK7] *)

Class build_config := { HAVE_IMAGEMAGICK7 : bool }.

(** *** [_supported_image] *)

Definition extensions_whitelist : list string :=
  [ "tiff"; "tif";
    "pam"; "pbm"; "pgm"; "ppm"; "pnm";
    "jpc"; "jp2"; "jpf"; "jpx";
    "bmp"; "miff"; "dcm"; "jng"; "mng"; "gif";
    "fits"; "fit"; "fts";
    "cin"; "dpx";
    "jxl";
    "webp" ].

(** The [for] loop over the whitelist, with its [break] *)
Fixpoint whitelist_loop (ext : string) (i : list string) : bool :=
  match i with
  | [] => false
  | e :: i' =>
      if g_ascii_strncasecmp ext e (String.length e) =? 0 then true
      else whitelist_loop ext i'
  end.

Definition _supported_image `{build_config} (filename : string) : bool :=
  match g_strrstr filename "." with
  | None => false
  | Some ext =>
      let ext := next ext in
      let supported := whitelist_loop ext extensions_whitelist in
      if HAVE_IMAGEMAGICK7
      then (supported || (g_ascii_strncasecmp ext "qoi" 3 =? 0))%bool
      else supported
  end.

(** *** The data the loader works on *)

(** C [float] arithmetic, kept abstract: the loader only subtracts from
    [1.f] and multiplies, and everything proved below holds for whatever
    these operations compute. *)
Class float_ops (float : Type) := {
  f_1 : float;
  f_sub : float -> float -> float;
  f_mul : float -> float -> float }.

(** The bits of [img->flags] the loader touches.  Their values are fixed in
    [common/image.h], outside the two source files, and are taken as
    parameters. *)
Class image_flags := {
  DT_IMAGE_LDR : Z;
  DT_IMAGE_RAW : Z;
  DT_IMAGE_HDR : Z;
  DT_IMAGE_S_RAW : Z }.

Inductive dt_imageio_retval_t :=
| DT_IMAGEIO_OK
| DT_IMAGEIO_FILE_NOT_FOUND
| DT_IMAGEIO_LOAD_FAILED
| DT_IMAGEIO_CACHE_FULL.

(** Modelled from the spec: "the application's internal buffer format".  The
    enumerations of buffer data types, of pipeline colour spaces and of
    loaders are declared in headers outside the two source files; the
    enumerators the loader assigns are listed next to one that stands for
    every other value. *)
Inductive dt_iop_buffer_type_t := TYPE_UNKNOWN | TYPE_FLOAT.

Inductive dt_iop_colorspace_type_t := IOP_CS_NONE | IOP_CS_RGB.

Inductive dt_image_loader_t := LOADER_UNKNOWN | LOADER_IM.

(** ImageMagick's [ColorspaceType], as far as the loader tells its values
    apart *)
Inductive ColorspaceType :=
| UndefinedColorspace
| CMYColorspace
| CMYKColorspace
| GRAYColorspace
| sRGBColorspace
| OtherColorspace (n : nat).

Record dt_iop_buffer_dsc_t := {
  channels : Z;
  datatype : dt_iop_buffer_type_t;
  cst : dt_iop_colorspace_type_t;
  filters : Z }.

(** *** C integers

    [int] and [int32_t] have 32 bits, [size_t] has 64.  A value stored into
    a signed 32-bit integer, and the result of [int] arithmetic, is the two's
    complement representative of the mathematical value, [to_int] (for an
    out-of-range store C leaves the value to the implementation, and for
    overflow in signed arithmetic it defines none: the wrap-around is what
    the compilers darktable is built with produce).  A value converted to
    [size_t], and the result of [size_t] arithmetic, is taken modulo
    [2 ^ 64]. *)
Definition to_int (z : Z) : Z := (z + 2 ^ 31) mod 2 ^ 32 - 2 ^ 31.

Definition to_size_t (z : Z) : Z := z mod 2 ^ 64.

(** The fields of [dt_image_t] the loader reads or writes; the structure is
    declared in [common/image.h], outside the two source files.  [width]
    and [height] are [int32_t] fields.  [profile] is [None] for a [NULL]
    pointer. *)
Record dt_image_t := {
  exif_inited : bool;
  width : Z;
  height : Z;
  buf_dsc : dt_iop_buffer_dsc_t;
  flags : Z;
  loader : dt_image_loader_t;
  profile : option (list byte);
  profile_size : nat }.

Definition set_width (v : Z) (img : dt_image_t) : dt_image_t :=
  {| exif_inited := exif_inited img; width := v; height := height img;
     buf_dsc := buf_dsc img; flags := flags img; loader := loader img;
     profile := profile img; profile_size := profile_size img |}.

Definition set_height (v : Z) (img : dt_image_t) : dt_image_t :=
  {| exif_inited := exif_inited img; width := width img; height := v;
     buf_dsc := buf_dsc img; flags := flags img; loader := loader img;
     profile := profile img; profile_size := profile_size img |}.

Definition set_buf_dsc (v : dt_iop_buffer_dsc_t) (img : dt_image_t) : dt_image_t :=
  {| exif_inited := exif_inited img; width := width img; height := height img;
     buf_dsc := v; flags := flags img; loader := loader img;
     profile := profile img; profile_size := profile_size img |}.

Definition set_flags (v : Z) (img : dt_image_t) : dt_image_t :=
  {| exif_inited := exif_inited img; width := width img; height := height img;
     buf_dsc := buf_dsc img; flags := v; loader := loader img;
     profile := profile img; profile_size := profile_size img |}.

Definition set_loader (v : dt_image_loader_t) (img : dt_image_t) : dt_image_t :=
  {| exif_inited := exif_inited img; width := width img; height := height img;
     buf_dsc := buf_dsc img; flags := flags img; loader := v;
     profile := profile img; profile_size := profile_size img |}.

Definition set_profile (v : option (list byte)) (img : dt_image_t) : dt_image_t :=
  {| exif_inited := exif_inited img; width := width img; height := height img;
     buf_dsc := buf_dsc img; flags := flags img; loader := loader img;
     profile := v; profile_size := profile_size img |}.

Definition set_profile_size (v : nat) (img : dt_image_t) : dt_image_t :=
  {| exif_inited := exif_inited img; width := width img; height := height img;
     buf_dsc := buf_dsc img; flags := flags img; loader := loader img;
     profile := profile img; profile_size := v |}.

Definition set_channels (v : Z) (img : dt_image_t) : dt_image_t :=
  set_buf_dsc {| channels := v; datatype := datatype (buf_dsc img);
                 cst := cst (buf_dsc img); filters := filters (buf_dsc img) |} img.

Definition set_datatype (v : dt_iop_buffer_type_t) (img : dt_image_t) : dt_image_t :=
  set_buf_dsc {| channels := channels (buf_dsc img); datatype := v;
                 cst := cst (buf_dsc img); filters := filters (buf_dsc img) |} img.

Definition set_cst (v : dt_iop_colorspace_type_t) (img : dt_image_t) : dt_image_t :=
  set_buf_dsc {| channels := channels (buf_dsc img); datatype := datatype (buf_dsc img);
                 cst := v; filters := filters (buf_dsc img) |} img.

Definition set_filters (v : Z) (img : dt_image_t) : dt_image_t :=
  set_buf_dsc {| channels := channels (buf_dsc img); datatype := datatype (buf_dsc img);
                 cst := cst (buf_dsc img); filters := v |} img.

(** *** What lies outside the loader

    Everything the loader learns from ImageMagick, from the EXIF reader, from
    the mipmap cache and from the allocator is an answer of the
    [environment]; the loader is a function of these answers. *)


Section imageio_im.
Context {float : Type} {FO : float_ops float} {BC : build_config} {IF : image_flags}.

(** A C array of floats: the number of its elements and the float at each
    index.  An access at an index outside [0 .. fa_size - 1] has no defined
    result. *)
Record float_array := {
  fa_size : Z;
  fa_at : Z -> float }.

(** [a[i]], read *)
Definition fa_get (a : float_array) (i : Z) : option float :=
  if ((0 <=? i) && (i <? fa_size a))%bool then Some (fa_at a i) else None.

(** [a[i] = v] *)
Definition fa_set (a : float_array) (i : Z) (v : float) : option float_array :=
  if ((0 <=? i) && (i <? fa_size a))%bool
  then Some {| fa_size := fa_size a;
               fa_at := fun j => if j =? i then v else fa_at a j |}
  else None.

(** A wand on which [MagickReadImage] has succeeded.  Width and height are
    the [size_t] values the library returns.  The pixel export answers with
    the float it stores at each index of the destination, or with [None]
    when it fails; a profile is [None] when the library returns [NULL] for
    that name, and its length is the length of the byte list. *)
Record MagickWand := {
  MagickGetImageWidth : Z;
  MagickGetImageHeight : Z;
  MagickGetImageColorspace : ColorspaceType;
  MagickExportImagePixels :
    Z -> Z -> Z -> Z -> string -> option (Z -> float);
  MagickGetImageProfile : string -> option (list byte) }.

Record environment := {
  (** what [dt_exif_read (img, filename)] leaves in [*img] *)
  dt_exif_read : dt_image_t -> string -> dt_image_t;
  (** [NewMagickWand () != NULL] *)
  NewMagickWand : bool;
  (** [MagickReadImage]: the decoded image, [None] when it is not [MagickTrue] *)
  MagickReadImage : string -> option MagickWand;
  (** [dt_mipmap_cache_alloc (mbuf, img)]: the array the mipmap cache hands
      out for [*img], [None] for [NULL] *)
  dt_mipmap_cache_alloc : dt_image_t -> option float_array;
  (** [g_try_malloc0 (n) != NULL] *)
  g_try_malloc0 : nat -> bool }.

(** The effect of a successful [MagickExportImagePixels] on the destination
    array: one float per character of [map] for each of the [columns * rows]
    pixels, stored from index [0] on.  The library is given no length: when
    the array is shorter than that the result is [None]. *)
Definition export_into (pixels : Z -> float) (columns rows : Z) (map : string)
    (mipbuf : float_array) : option float_array :=
  let n := columns * rows * Z.of_nat (String.length map) in
  if n <=? fa_size mipbuf then
    Some {| fa_size := fa_size mipbuf;
            fa_at := fun i => if ((0 <=? i) && (i <? n))%bool then pixels i
                              else fa_at mipbuf i |}
  else None.

(** [memcpy (dst, src, n)] on byte arrays *)
Definition memcpy (dst src : list byte) (n : nat) : list byte :=
  take n src ++ drop n dst.

(** The calls the loader makes, in the order of their execution, and the
    CMYK conversion pass.  The [dt_print] diagnostics are left out. *)
Inductive step :=
| step_dt_exif_read (filename : string)
| step_NewMagickWand
| step_MagickReadImage (filename : string)
| step_MagickGetImageWidth
| step_MagickGetImageHeight
| step_dt_mipmap_cache_alloc
| step_MagickGetImageColorspace
| step_MagickExportImagePixels (x y columns rows : Z) (map : string)
| step_cmyk_to_rgb
| step_MagickGetImageProfile (name : string)
| step_g_try_malloc0 (n : nat)
| step_memcpy (n : nat)
| step_MagickRelinquishMemory
| step_DestroyMagickWand.

(** The state the loader threads: [*img], the float array behind [mipbuf]
    ([None] while there is none) and the steps taken so far. *)
Record loader_state := {
  ls_img : dt_image_t;
  ls_mipbuf : option float_array;
  ls_steps : list step }.

Definition did (e : step) (s : loader_state) : loader_state :=
  {| ls_img := ls_img s; ls_mipbuf := ls_mipbuf s; ls_steps := ls_steps s ++ [e] |}.

Definition with_img (f : dt_image_t -> dt_image_t) (s : loader_state) : loader_state :=
  {| ls_img := f (ls_img s); ls_mipbuf := ls_mipbuf s; ls_steps := ls_steps s |}.

Definition with_mipbuf (b : option float_array) (s : loader_state) : loader_state :=
  {| ls_img := ls_img s; ls_mipbuf := b; ls_steps := ls_steps s |}.

(** *** The CMYK to RGB conversion loop

    One iteration of the loop body at [index], a [size_t].  An access
    outside the array has no defined result in C: the body then yields
    [None]. *)
Definition cmyk_to_rgb (index : Z) (mipbuf : float_array) : option float_array :=
  black ← fa_get mipbuf (to_size_t (index + 3));
  c ← fa_get mipbuf index;
  mipbuf ← fa_set mipbuf index (f_mul (f_sub f_1 black) (f_sub f_1 c));
  m ← fa_get mipbuf (to_size_t (index + 1));
  mipbuf ← fa_set mipbuf (to_size_t (index + 1)) (f_mul (f_sub f_1 black) (f_sub f_1 m));
  y ← fa_get mipbuf (to_size_t (index + 2));
  fa_set mipbuf (to_size_t (index + 2)) (f_mul (f_sub f_1 black) (f_sub f_1 y)).

(** [for(index = ..; index < bound; index += 4)], with [bound] already
    converted to [size_t]; [fuel] bounds the number of iterations and [None]
    is also the answer when it runs out. *)
Fixpoint cmyk_loop (fuel : nat) (index bound : Z) (mipbuf : float_array)
  : option float_array :=
  if index <? bound then
    match fuel with
    | O => None
    | S fuel' =>
        mipbuf ← cmyk_to_rgb index mipbuf;
        cmyk_loop fuel' (to_size_t (index + 4)) bound mipbuf
    end
  else Some mipbuf.

(** [img->width * img->height * 4], an [int] expression, as the loop
    compares it with the [size_t] index *)
Definition loop_bound (img : dt_image_t) : Z :=
  to_size_t (to_int (to_int (width img * height img) * 4)).

Definition is_cmyk (colorspace : ColorspaceType) : bool :=
  match colorspace with
  | CMYColorspace | CMYKColorspace => true
  | _ => false
  end.

(** *** [dt_imageio_open_im] *)

(** [goto error]: destroy the wand and return [err] *)
Definition goto_error (err : dt_imageio_retval_t) (s : loader_state)
  : option (dt_imageio_retval_t * loader_state) :=
  Some (err, did step_DestroyMagickWand s).

(** The profile block: fetch "icc", else "icm"; when there is one, allocate
    [img->profile], copy into it when the allocation succeeded, and release
    the library's copy. *)
Definition copy_profile (env : environment) (image : MagickWand) (s : loader_state)
  : loader_state :=
  let s := did (step_MagickGetImageProfile "icc") s in
  let profile_data := MagickGetImageProfile image "icc" in
  let '(s, profile_data) :=
    match profile_data with
    | None => (did (step_MagickGetImageProfile "icm") s, MagickGetImageProfile image "icm")
    | Some _ => (s, profile_data)
    end in
  match profile_data with
  | Some data =>
      let profile_length := List.length data in
      let s := did (step_g_try_malloc0 profile_length) s in
      let s := with_img (set_profile (if g_try_malloc0 env profile_length
                                      then Some (replicate profile_length x00)
                                      else None)) s in
      let s := match profile (ls_img s) with
               | Some dst =>
                   let s := did (step_memcpy profile_length) s in
                   let s := with_img (set_profile (Some (memcpy dst data profile_length))) s in
                   with_img (set_profile_size profile_length) s
               | None => s
               end in
      did step_MagickRelinquishMemory s
  | None => s
  end.

(** The result is [None] when the call has no defined result in C: the
    library is told to store more floats than the array holds, or the
    conversion loop leaves the array (the loop ends within [bound]
    iterations, unless the index wraps around, in which case it never
    ends). *)
Definition dt_imageio_open_im (env : environment) (img : dt_image_t) (filename : string)
  : option (dt_imageio_retval_t * loader_state) :=
  let s := {| ls_img := img; ls_mipbuf := None; ls_steps := [] |} in
  let err := DT_IMAGEIO_LOAD_FAILED in
  if negb (_supported_image filename) then Some (DT_IMAGEIO_LOAD_FAILED, s) else
  let s := if negb (exif_inited (ls_img s))
           then did (step_dt_exif_read filename)
                    (with_img (fun i => dt_exif_read env i filename) s)
           else s in
  let s := did step_NewMagickWand s in
  if negb (NewMagickWand env) then goto_error err s else
  let s := did (step_MagickReadImage filename) s in
  match MagickReadImage env filename with
  | None => goto_error DT_IMAGEIO_FILE_NOT_FOUND s
  | Some image =>
  let s := did step_MagickGetImageWidth
             (with_img (set_width (to_int (MagickGetImageWidth image))) s) in
  let s := did step_MagickGetImageHeight
             (with_img (set_height (to_int (MagickGetImageHeight image))) s) in
  let s := with_img (set_channels 4) s in
  let s := with_img (set_datatype TYPE_FLOAT) s in
  let s := did step_dt_mipmap_cache_alloc s in
  match dt_mipmap_cache_alloc env (ls_img s) with
  | None => goto_error DT_IMAGEIO_CACHE_FULL s
  | Some mipbuf =>
  let s := with_mipbuf (Some mipbuf) s in
  let s := did step_MagickGetImageColorspace s in
  let colorspace := MagickGetImageColorspace image in
  let colormap := if is_cmyk colorspace then "CMYK" else "RGBP" in
  let columns := to_size_t (width (ls_img s)) in
  let rows := to_size_t (height (ls_img s)) in
  let s := did (step_MagickExportImagePixels 0 0 columns rows colormap) s in
  match MagickExportImagePixels image 0 0 columns rows colormap with
  | None => goto_error err s
  | Some pixels =>
  match export_into pixels columns rows colormap mipbuf with
  | None => None
  | Some mipbuf =>
  let s := with_mipbuf (Some mipbuf) s in
  let bound := loop_bound (ls_img s) in
  match (if is_cmyk colorspace
         then cmyk_loop (Z.to_nat bound) 0 bound mipbuf else Some mipbuf) with
  | None => None
  | Some mipbuf =>
  let s := if is_cmyk colorspace
           then did step_cmyk_to_rgb (with_mipbuf (Some mipbuf) s) else s in
  let s := copy_profile env image s in
  let s := did step_DestroyMagickWand s in
  let s := with_img (set_cst IOP_CS_RGB) s in
  let s := with_img (set_filters 0) s in
  let s := with_img (fun i => set_flags (Z.land (flags i) (Z.lnot DT_IMAGE_RAW)) i) s in
  let s := with_img (fun i => set_flags (Z.land (flags i) (Z.lnot DT_IMAGE_S_RAW)) i) s in
  let s := with_img (fun i => set_flags (Z.land (flags i) (Z.lnot DT_IMAGE_HDR)) i) s in
  let s := with_img (fun i => set_flags (Z.lor (flags i) DT_IMAGE_LDR) i) s in
  let s := with_img (set_loader LOADER_IM) s in
  Some (DT_IMAGEIO_OK, s)
  end end end end end.

End imageio_im.

Arguments float_array float : clear implicits.
Arguments MagickWand float : clear implicits.
Arguments environment float : clear implicits.
Arguments loader_state float : clear implicits.

(** ** Part II.  [lighttable.c] *)

(** *** Enumerations and the interfaces the module talks to *)

(** Modelled from the spec: the "lighttable view layouts
    (grid/culling/zoomable/preview modes)".  [dt_lighttable_layout_t] is
    declared in [views/view.h], outside the two source files; a layout is the
    C integer, and the enumerators are numbered in the order in which [init]
    registers them with the scripting binding, from [FIRST = -1]. *)
Definition DT_LIGHTTABLE_LAYOUT_FIRST : Z := -1.

Definition DT_LIGHTTABLE_LAYOUT_ZOOMABLE : Z := 0.

Definition DT_LIGHTTABLE_LAYOUT_FILEMANAGER : Z := 1.

Definition DT_LIGHTTABLE_LAYOUT_CULLING : Z := 2.

Definition DT_LIGHTTABLE_LAYOUT_CULLING_DYNAMIC : Z := 3.

Definition DT_LIGHTTABLE_LAYOUT_PREVIEW : Z := 4.

Definition DT_LIGHTTABLE_LAYOUT_LAST : Z := 5.

Inductive dt_lighttable_culling_restriction_t :=
| DT_LIGHTTABLE_CULLING_RESTRICTION_AUTO
| DT_LIGHTTABLE_CULLING_RESTRICTION_COLLECTION
| DT_LIGHTTABLE_CULLING_RESTRICTION_SELECTION.

#[global] Instance dt_lighttable_culling_restriction_eq_dec :
  EqDecision dt_lighttable_culling_restriction_t.
Proof. solve_decision. Defined.

(** The effects of a shortcut the action callbacks tell apart; every other
    effect is [DT_ACTION_EFFECT_other]. *)
Inductive dt_action_effect_t :=
| DT_ACTION_EFFECT_ON
| DT_ACTION_EFFECT_OFF
| DT_ACTION_EFFECT_HOLD_TOGGLE
| DT_ACTION_EFFECT_other.

#[global] Instance dt_action_effect_eq_dec : EqDecision dt_action_effect_t.
Proof. solve_decision. Defined.

Definition DT_ACTION_ELEMENT_PREVIEW_FOCUS_DETECT : Z := 1.

Definition DT_ACTION_ELEMENT_PREVIEW_NO_RESTRICTION : Z := 2.

Definition DT_ACTION_ELEMENT_CULLING_NO_RESTRICTION : Z := 1.

(** Modelled from the spec: the "application-wide view-manager state" the
    module mirrors.  The view manager is not part of the two source files;
    the four functions the module calls on [darktable.view_manager] form an
    interface over an arbitrary state [VM]. *)
Class view_manager_api (VM : Type) := {
  dt_view_lighttable_preview_state : VM -> bool;
  dt_view_lighttable_set_preview_state :
    VM -> bool -> bool -> bool -> dt_lighttable_culling_restriction_t -> VM;
  dt_view_lighttable_culling_restricted_state :
    VM -> dt_lighttable_culling_restriction_t;
  dt_view_lighttable_set_culling_restricted_state :
    VM -> dt_lighttable_culling_restriction_t -> VM }.

(** The widgets [gui_init] creates and stores in the module data.  The
    pointer fields of [dt_lib_tool_lighttable_t] never change afterwards and
    point to distinct widgets, so a widget is named by its field. *)
Inductive GtkWidget :=
| zoom
| layout_box
| layout_filemanager
| layout_zoomable
| layout_culling_dynamic
| layout_culling_fix
| layout_culling_restricted
| layout_preview.

#[global] Instance GtkWidget_eq_dec : EqDecision GtkWidget.
Proof. solve_decision. Defined.

(** [dt_gui_hbox (d->layout_filemanager, d->layout_zoomable,
    d->layout_culling_fix, d->layout_culling_dynamic, d->layout_preview)] *)
Definition layout_box_children : list GtkWidget :=
  [layout_filemanager; layout_zoomable; layout_culling_fix;
   layout_culling_dynamic; layout_preview].

(** What the toolkit keeps per widget: the properties the module sets, as
    last set.  The handlers the module connects to signals
    ("button-release-event" on the buttons, "value-changed" on the spin
    button) are operations of their own below, run when the toolkit
    delivers the signal for an action of the user.  What the toolkit emits
    by itself inside a call of the module (GTK emits "value-changed" when
    [gtk_spin_button_set_value] changes the value) is outside this model. *)
Record gtk_state := {
  toggle_active : GtkWidget -> bool;
  tooltip_text : GtkWidget -> string;
  sensitive : GtkWidget -> bool;
  visible : GtkWidget -> bool;
  spin_value : Z }.

(** Requests that leave no state behind in the module *)
Inductive ui_request :=
| queue_draw (w : GtkWidget)
| queue_redraw_center
| thumbtable_zoom_changed (oldzoom newzoom : Z).

(** The non-widget fields of [dt_lib_tool_lighttable_t] *)
Record dt_lib_tool_lighttable_t := {
  layout : Z;
  base_layout : Z;
  current_zoom : Z;
  fullpreview_focus : bool;
  culling_init_restriction : dt_lighttable_culling_restriction_t }.

Definition set_layout (v : Z) (d : dt_lib_tool_lighttable_t) :=
  {| layout := v; base_layout := base_layout d; current_zoom := current_zoom d;
     fullpreview_focus := fullpreview_focus d;
     culling_init_restriction := culling_init_restriction d |}.

Definition set_base_layout (v : Z) (d : dt_lib_tool_lighttable_t) :=
  {| layout := layout d; base_layout := v; current_zoom := current_zoom d;
     fullpreview_focus := fullpreview_focus d;
     culling_init_restriction := culling_init_restriction d |}.

Definition set_current_zoom (v : Z) (d : dt_lib_tool_lighttable_t) :=
  {| layout := layout d; base_layout := base_layout d; current_zoom := v;
     fullpreview_focus := fullpreview_focus d;
     culling_init_restriction := culling_init_restriction d |}.

Definition set_fullpreview_focus (v : bool) (d : dt_lib_tool_lighttable_t) :=
  {| layout := layout d; base_layout := base_layout d; current_zoom := current_zoom d;
     fullpreview_focus := v;
     culling_init_restriction := culling_init_restriction d |}.

Definition set_culling_init_restriction
    (v : dt_lighttable_culling_restriction_t) (d : dt_lib_tool_lighttable_t) :=
  {| layout := layout d; base_layout := base_layout d; current_zoom := current_zoom d;
     fullpreview_focus := fullpreview_focus d;
     culling_init_restriction := v |}.

Section lighttable.
Context {VM : Type} {VMA : view_manager_api VM}.

(** Everything the module reads and writes: its own data ([self->data]),
    [darktable.view_manager], the persisted configuration ([dt_conf]), the
    widgets, the number of selected images, and the redraw requests made. *)
Record lt_state := {
  data : dt_lib_tool_lighttable_t;
  view_manager : VM;
  conf : gmap string Z;
  gtk : gtk_state;
  selected_count : Z;
  requests : list ui_request }.

Definition with_data (f : dt_lib_tool_lighttable_t -> dt_lib_tool_lighttable_t)
    (s : lt_state) : lt_state :=
  {| data := f (data s); view_manager := view_manager s; conf := conf s;
     gtk := gtk s; selected_count := selected_count s; requests := requests s |}.

Definition with_view_manager (f : VM -> VM) (s : lt_state) : lt_state :=
  {| data := data s; view_manager := f (view_manager s); conf := conf s;
     gtk := gtk s; selected_count := selected_count s; requests := requests s |}.

Definition with_conf (f : gmap string Z -> gmap string Z) (s : lt_state) : lt_state :=
  {| data := data s; view_manager := view_manager s; conf := f (conf s);
     gtk := gtk s; selected_count := selected_count s; requests := requests s |}.

Definition with_gtk (f : gtk_state -> gtk_state) (s : lt_state) : lt_state :=
  {| data := data s; view_manager := view_manager s; conf := conf s;
     gtk := f (gtk s); selected_count := selected_count s; requests := requests s |}.

Definition request (r : ui_request) (s : lt_state) : lt_state :=
  {| data := data s; view_manager := view_manager s; conf := conf s;
     gtk := gtk s; selected_count := selected_count s;
     requests := requests s ++ [r] |}.

(** Modelled from the spec: the persisted configuration.  [dt_conf_get_int]
    and [dt_conf_set_int] are defined in [control/conf.c], outside the two
    source files: integer values under string keys, [0] for a key never
    written. *)
Definition dt_conf_get_int (s : lt_state) (key : string) : Z :=
  default 0 (conf s !! key).

Definition dt_conf_set_int (key : string) (v : Z) (s : lt_state) : lt_state :=
  with_conf (fun c => <[key := v]> c) s.

Definition dt_collection_get_selected_count (s : lt_state) : Z := selected_count s.

Definition dt_control_queue_redraw_center (s : lt_state) : lt_state :=
  request queue_redraw_center s.

(** *** The GTK calls *)

Definition upd {A} (f : GtkWidget -> A) (w : GtkWidget) (v : A) : GtkWidget -> A :=
  fun w' => if decide (w' = w) then v else f w'.

Definition gtk_toggle_button_get_active (s : lt_state) (w : GtkWidget) : bool :=
  toggle_active (gtk s) w.

Definition gtk_toggle_button_set_active (w : GtkWidget) (is_active : bool)
    (s : lt_state) : lt_state :=
  with_gtk (fun g => {| toggle_active := upd (toggle_active g) w is_active;
                        tooltip_text := tooltip_text g; sensitive := sensitive g;
                        visible := visible g; spin_value := spin_value g |}) s.

Definition gtk_widget_set_tooltip_text (w : GtkWidget) (text : string)
    (s : lt_state) : lt_state :=
  with_gtk (fun g => {| toggle_active := toggle_active g;
                        tooltip_text := upd (tooltip_text g) w text;
                        sensitive := sensitive g;
                        visible := visible g; spin_value := spin_value g |}) s.

Definition gtk_widget_set_sensitive (w : GtkWidget) (v : bool) (s : lt_state) : lt_state :=
  with_gtk (fun g => {| toggle_active := toggle_active g;
                        tooltip_text := tooltip_text g;
                        sensitive := upd (sensitive g) w v;
                        visible := visible g; spin_value := spin_value g |}) s.

Definition gtk_widget_set_visible (w : GtkWidget) (v : bool) (s : lt_state) : lt_state :=
  with_gtk (fun g => {| toggle_active := toggle_active g;
                        tooltip_text := tooltip_text g; sensitive := sensitive g;
                        visible := upd (visible g) w v; spin_value := spin_value g |}) s.

(** The module has one spin button, [d->zoom]. *)
Definition gtk_spin_button_set_value (v : Z) (s : lt_state) : lt_state :=
  with_gtk (fun g => {| toggle_active := toggle_active g;
                        tooltip_text := tooltip_text g; sensitive := sensitive g;
                        visible := visible g; spin_value := v |}) s.

Definition gtk_spin_button_get_value_as_int (s : lt_state) : Z := spin_value (gtk s).

Definition gtk_widget_queue_draw (w : GtkWidget) (s : lt_state) : lt_state :=
  request (queue_draw w) s.

(** *** The module's functions *)

Definition _lib_lighttable_update_btn (s : lt_state) : lt_state :=
  let d := data s in
  let fullpreview := dt_view_lighttable_preview_state (view_manager s) in
  (* which btn should be active ? *)
  let active := layout_filemanager in
  let active :=
    if fullpreview then layout_preview
    else if layout d =? DT_LIGHTTABLE_LAYOUT_CULLING_DYNAMIC then layout_culling_dynamic
    else if layout d =? DT_LIGHTTABLE_LAYOUT_CULLING then layout_culling_fix
    else if layout d =? DT_LIGHTTABLE_LAYOUT_ZOOMABLE then layout_zoomable
    else active in
  let s :=
    foldl (fun s w =>
             gtk_widget_queue_draw w
               (gtk_toggle_button_set_active w (bool_decide (w = active)) s))
          s layout_box_children in
  (* and now we set the tooltips *)
  let s :=
    if fullpreview
    then gtk_widget_set_tooltip_text layout_preview
           "click to exit from full preview layout." s
    else gtk_widget_set_tooltip_text layout_preview
           "click to enter full preview layout." s in
  let s :=
    if (negb (layout d =? DT_LIGHTTABLE_LAYOUT_CULLING) || fullpreview)%bool
    then gtk_widget_set_tooltip_text layout_culling_fix
           "click to enter culling layout in fixed mode." s
    else gtk_widget_set_tooltip_text layout_culling_fix
           "click to exit culling layout." s in
  let s :=
    if (negb (layout d =? DT_LIGHTTABLE_LAYOUT_CULLING_DYNAMIC) || fullpreview)%bool
    then gtk_widget_set_tooltip_text layout_culling_dynamic
           "click to enter culling layout in dynamic mode." s
    else gtk_widget_set_tooltip_text layout_culling_dynamic
           "click to exit culling layout." s in
  let s :=
    gtk_widget_set_sensitive zoom
      (negb (layout d =? DT_LIGHTTABLE_LAYOUT_CULLING_DYNAMIC) && negb fullpreview)%bool s in
  let s := gtk_spin_button_set_value (current_zoom d) s in
  (* culling restricted button configuration *)
  if ((layout d =? DT_LIGHTTABLE_LAYOUT_CULLING) || fullpreview)%bool then
    let s :=
      if decide (dt_view_lighttable_culling_restricted_state (view_manager s)
                 = DT_LIGHTTABLE_CULLING_RESTRICTION_SELECTION)
      then
        let s := gtk_widget_set_tooltip_text layout_culling_restricted
                   "click to allow browsing all images from the collection." s in
        gtk_toggle_button_set_active layout_culling_restricted true s
      else
        let s := gtk_widget_set_tooltip_text layout_culling_restricted
                   "click to limit browsing to the selection." s in
        gtk_toggle_button_set_active layout_culling_restricted false s in
    gtk_widget_set_visible layout_culling_restricted true s
  else
    let s := gtk_widget_set_visible layout_culling_restricted false s in
    gtk_toggle_button_set_active layout_culling_restricted false s.

Definition _lib_lighttable_set_layout (s : lt_state) (new_layout : Z) : lt_state :=
  let d := data s in
  (* we deal with fullpreview first. *)
  let s :=
    if xorb (new_layout =? DT_LIGHTTABLE_LAYOUT_PREVIEW)
            (dt_view_lighttable_preview_state (view_manager s))
    then with_view_manager
           (fun vm => dt_view_lighttable_set_preview_state vm
                        (new_layout =? DT_LIGHTTABLE_LAYOUT_PREVIEW) true
                        (fullpreview_focus d)
                        DT_LIGHTTABLE_CULLING_RESTRICTION_AUTO) s
    else s in
  if new_layout =? DT_LIGHTTABLE_LAYOUT_PREVIEW then
    (* special case for preview : we don't change previous values,
       just show full preview and update buttons *)
    _lib_lighttable_update_btn s
  else
    let current_layout := dt_conf_get_int s "plugins/lighttable/layout" in
    let s := with_data (set_layout new_layout) s in
    let s :=
      if negb (current_layout =? new_layout) then
        let s :=
          if layout (data s) =? DT_LIGHTTABLE_LAYOUT_CULLING_DYNAMIC then
            let s := with_data (set_current_zoom
                       (Z.max 1 (Z.min 30 (dt_collection_get_selected_count s)))) s in
            if current_zoom (data s) =? 1
            then with_data (set_current_zoom
                   (dt_conf_get_int s "plugins/lighttable/culling_num_images")) s
            else s
          else if layout (data s) =? DT_LIGHTTABLE_LAYOUT_CULLING then
            with_data (set_current_zoom
              (dt_conf_get_int s "plugins/lighttable/culling_num_images")) s
          else
            with_data (set_current_zoom
              (dt_conf_get_int s "plugins/lighttable/images_in_row")) s in
        let s := dt_conf_set_int "plugins/lighttable/layout" new_layout s in
        let s :=
          if ((new_layout =? DT_LIGHTTABLE_LAYOUT_FILEMANAGER)
              || (new_layout =? DT_LIGHTTABLE_LAYOUT_ZOOMABLE))%bool
          then
            let s := with_data (set_base_layout new_layout) s in
            dt_conf_set_int "plugins/lighttable/base_layout" new_layout s
          else s in
        dt_control_queue_redraw_center s
      else dt_control_queue_redraw_center s in
    _lib_lighttable_update_btn s.

(** The handler of "button-release-event" on the five layout buttons;
    [ctrl] is [dt_modifier_is (event->state, GDK_CONTROL_MASK)].  It always
    returns [TRUE]; the state it leaves is the result here. *)
Definition _lib_lighttable_layout_btn_release (w : GtkWidget) (ctrl : bool)
    (s : lt_state) : lt_state :=
  let d := data s in
  (* note : this is the state before the change *)
  let active := gtk_toggle_button_get_active s w in
  let new_layout := DT_LIGHTTABLE_LAYOUT_FILEMANAGER in
  if negb active then
    (* that means we want to activate the button *)
    if decide (w = layout_preview) then
      let s := with_data (set_fullpreview_focus ctrl) s in
      _lib_lighttable_set_layout s DT_LIGHTTABLE_LAYOUT_PREVIEW
    else if decide (w = layout_culling_fix) then
      let s :=
        if ctrl
        then with_data (set_culling_init_restriction
                          DT_LIGHTTABLE_CULLING_RESTRICTION_COLLECTION) s
        else with_data (set_culling_init_restriction
                          DT_LIGHTTABLE_CULLING_RESTRICTION_AUTO) s in
      _lib_lighttable_set_layout s DT_LIGHTTABLE_LAYOUT_CULLING
    else if decide (w = layout_culling_dynamic) then
      _lib_lighttable_set_layout s DT_LIGHTTABLE_LAYOUT_CULLING_DYNAMIC
    else if decide (w = layout_zoomable) then
      _lib_lighttable_set_layout s DT_LIGHTTABLE_LAYOUT_ZOOMABLE
    else _lib_lighttable_set_layout s new_layout
  else
    (* that means we want to deactivate the button *)
    if decide (w = layout_preview) then
      _lib_lighttable_set_layout s (layout d)
    else if decide (w = layout_culling_dynamic \/ w = layout_culling_fix) then
      _lib_lighttable_set_layout s (base_layout d)
    else
      (* we can't exit from filemanager or zoomable *)
      s.

(** The handler of "button-release-event" on the restriction button *)
Definition _lib_lighttable_restricted_btn_release (w : GtkWidget) (s : lt_state)
  : lt_state :=
  let restriction :=
    (* note : this is the state before the change *)
    if gtk_toggle_button_get_active s w
    then DT_LIGHTTABLE_CULLING_RESTRICTION_COLLECTION
    else DT_LIGHTTABLE_CULLING_RESTRICTION_SELECTION in
  let s := with_view_manager
             (fun vm => dt_view_lighttable_set_culling_restricted_state vm restriction) s in
  _lib_lighttable_update_btn s.

Definition _lib_lighttable_key_accel_toggle_filemanager (s : lt_state) : lt_state :=
  _lib_lighttable_set_layout s DT_LIGHTTABLE_LAYOUT_FILEMANAGER.

Definition _lib_lighttable_key_accel_toggle_zoomable (s : lt_state) : lt_state :=
  _lib_lighttable_set_layout s DT_LIGHTTABLE_LAYOUT_ZOOMABLE.

Definition _lib_lighttable_key_accel_toggle_culling_dynamic_mode (s : lt_state)
  : lt_state :=
  let d := data s in
  (* if we are already in any culling layout, we return to the base layout *)
  let s :=
    if (negb (layout d =? DT_LIGHTTABLE_LAYOUT_CULLING)
        && negb (layout d =? DT_LIGHTTABLE_LAYOUT_CULLING_DYNAMIC))%bool
    then _lib_lighttable_set_layout s DT_LIGHTTABLE_LAYOUT_CULLING_DYNAMIC
    else _lib_lighttable_set_layout s (base_layout d) in
  dt_control_queue_redraw_center s.

Definition _lib_lighttable_key_accel_toggle_culling_zoom_mode (s : lt_state)
  : lt_state :=
  let d := data s in
  if layout d =? DT_LIGHTTABLE_LAYOUT_CULLING then
    _lib_lighttable_set_layout s DT_LIGHTTABLE_LAYOUT_CULLING_DYNAMIC
  else if layout d =? DT_LIGHTTABLE_LAYOUT_CULLING_DYNAMIC then
    let s := with_data (set_culling_init_restriction
                          DT_LIGHTTABLE_CULLING_RESTRICTION_AUTO) s in
    _lib_lighttable_set_layout s DT_LIGHTTABLE_LAYOUT_CULLING
  else s.

Definition _lib_lighttable_key_accel_toggle_restricted_mode (s : lt_state)
  : lt_state :=
  let d := data s in
  if ((layout d =? DT_LIGHTTABLE_LAYOUT_CULLING)
      || dt_view_lighttable_preview_state (view_manager s))%bool
  then
    (* if we are already in culling layout or fullpreview, we switch between
       restricted and unrestricted *)
    _lib_lighttable_restricted_btn_release layout_culling_restricted s
  else s.

Definition _lib_lighttable_key_accel_exit_layout (s : lt_state) : lt_state :=
  let d := data s in
  if dt_view_lighttable_preview_state (view_manager s) then
    _lib_lighttable_set_layout s (layout d)
  else if negb (layout d =? base_layout d) then
    _lib_lighttable_set_layout s (base_layout d)
  else s.

(** [self->data] may be [NULL] here, and only here. *)
Definition _lib_lighttable_get_culling_initial_restriction
    (d : option dt_lib_tool_lighttable_t) : dt_lighttable_culling_restriction_t :=
  match d with
  | Some d => culling_init_restriction d
  | None => DT_LIGHTTABLE_CULLING_RESTRICTION_AUTO
  end.

(** The shortcut actions.  [perform] is [DT_PERFORM_ACTION (move_size)]; the
    [float] returned is a truth value. *)
Definition _action_process_culling (element : Z) (effect : dt_action_effect_t)
    (perform : bool) (s : lt_state) : bool * lt_state :=
  let d := data s in
  let s :=
    if perform then
      let s :=
        if (negb (layout d =? DT_LIGHTTABLE_LAYOUT_CULLING)
            && negb (layout d =? DT_LIGHTTABLE_LAYOUT_CULLING_DYNAMIC)
            && negb (bool_decide (effect = DT_ACTION_EFFECT_ON)))%bool
        then
          (* if we are not in culling layout, we enter this mode *)
          let s :=
            if element =? DT_ACTION_ELEMENT_CULLING_NO_RESTRICTION
            then with_data (set_culling_init_restriction
                              DT_LIGHTTABLE_CULLING_RESTRICTION_COLLECTION) s
            else with_data (set_culling_init_restriction
                              DT_LIGHTTABLE_CULLING_RESTRICTION_AUTO) s in
          _lib_lighttable_set_layout s DT_LIGHTTABLE_LAYOUT_CULLING
        else if negb (bool_decide (effect = DT_ACTION_EFFECT_ON)) then
          (* if we are already in culling layout we fallback to the base layout *)
          _lib_lighttable_set_layout s (base_layout d)
        else s in
      _lib_lighttable_update_btn s
    else s in
  (layout (data s) =? DT_LIGHTTABLE_LAYOUT_CULLING, s).

Definition _action_process_preview (element : Z) (effect : dt_action_effect_t)
    (perform : bool) (s : lt_state) : bool * lt_state :=
  let d := data s in
  let s :=
    if perform then
      let s :=
        if dt_view_lighttable_preview_state (view_manager s) then
          if negb (bool_decide (effect = DT_ACTION_EFFECT_ON))
          then _lib_lighttable_set_layout s (layout d)
          else s
        else
          if negb (bool_decide (effect = DT_ACTION_EFFECT_OFF)) then
            let sticky := bool_decide (effect = DT_ACTION_EFFECT_HOLD_TOGGLE) in
            let focus := element =? DT_ACTION_ELEMENT_PREVIEW_FOCUS_DETECT in
            let restriction :=
              if (sticky && (element =? DT_ACTION_ELEMENT_PREVIEW_NO_RESTRICTION))%bool
              then DT_LIGHTTABLE_CULLING_RESTRICTION_COLLECTION
              else DT_LIGHTTABLE_CULLING_RESTRICTION_AUTO in
            with_view_manager
              (fun vm => dt_view_lighttable_set_preview_state vm true sticky focus
                           restriction) s
          else s in
      _lib_lighttable_update_btn s
    else s in
  (dt_view_lighttable_preview_state (view_manager s), s).

Definition _set_zoom (s : lt_state) (zoom_ : Z) : lt_state :=
  let d := data s in
  if layout d =? DT_LIGHTTABLE_LAYOUT_CULLING then
    let s := dt_conf_set_int "plugins/lighttable/culling_num_images" zoom_ s in
    dt_control_queue_redraw_center s
  else if ((layout d =? DT_LIGHTTABLE_LAYOUT_FILEMANAGER)
           || (layout d =? DT_LIGHTTABLE_LAYOUT_ZOOMABLE))%bool then
    let s := dt_conf_set_int "plugins/lighttable/images_in_row" zoom_ s in
    request (thumbtable_zoom_changed (current_zoom d) zoom_) s
  else s.

(** The handler of "value-changed" on the spin button *)
Definition _lib_lighttable_zoom_slider_changed (s : lt_state) : lt_state :=
  let i := gtk_spin_button_get_value_as_int s in
  let s := _set_zoom s i in
  with_data (set_current_zoom i) s.

(** [self->data] may be [NULL] here. *)
Definition _lib_lighttable_get_layout (d : option dt_lib_tool_lighttable_t) : Z :=
  match d with
  | Some d => layout d
  | None => DT_LIGHTTABLE_LAYOUT_FILEMANAGER
  end.

Definition _lib_lighttable_set_zoom (s : lt_state) (zoom_ : Z) : lt_state :=
  let s := gtk_spin_button_set_value zoom_ s in
  with_data (set_current_zoom zoom_) s.

Definition _lib_lighttable_get_zoom (s : lt_state) : Z :=
  current_zoom (data s).

(** *** The Lua accessors ([#ifdef USE_LUA])

    [arg] is the value [luaA_to] reads from the first stack slot, [None]
    when [lua_gettop (L)] is [0]; the first component of the result is the
    value pushed for the script. *)
Definition layout_cb (arg : option Z) (s : lt_state) : Z * lt_state :=
  let tmp := _lib_lighttable_get_layout (Some (data s)) in
  let s :=
    match arg with
    | Some value => _lib_lighttable_set_layout s value
    | None => s
    end in
  (tmp, s).

Definition zoom_level_cb (arg : option Z) (s : lt_state) : Z * lt_state :=
  let tmp := _lib_lighttable_get_zoom s in
  let s :=
    match arg with
    | Some value => _lib_lighttable_set_zoom s value
    | None => s
    end in
  (tmp, s).

(** *** Sequences of operations

    The ways in which the application, the user or a script drive the
    module: the proxy functions, the signal handlers, the keyboard
    accelerators and shortcut actions, and the Lua accessors. *)
Inductive operation :=
| op_set_layout (new_layout : Z)
| op_update_btn
| op_layout_btn_release (w : GtkWidget) (ctrl : bool)
| op_restricted_btn_release
| op_key_accel_toggle_filemanager
| op_key_accel_toggle_zoomable
| op_key_accel_toggle_culling_dynamic_mode
| op_key_accel_toggle_culling_zoom_mode
| op_key_accel_toggle_restricted_mode
| op_key_accel_exit_layout
| op_action_process_culling (element : Z) (effect : dt_action_effect_t) (perform : bool)
| op_action_process_preview (element : Z) (effect : dt_action_effect_t) (perform : bool)
| op_zoom_slider_changed (i : Z)
| op_set_zoom (zoom_ : Z)
| op_layout_cb (arg : option Z)
| op_zoom_level_cb (arg : option Z).

Definition run_operation (o : operation) (s : lt_state) : lt_state :=
  match o with
  | op_set_layout l => _lib_lighttable_set_layout s l
  | op_update_btn => _lib_lighttable_update_btn s
  | op_layout_btn_release w ctrl => _lib_lighttable_layout_btn_release w ctrl s
  | op_restricted_btn_release =>
      _lib_lighttable_restricted_btn_release layout_culling_restricted s
  | op_key_accel_toggle_filemanager => _lib_lighttable_key_accel_toggle_filemanager s
  | op_key_accel_toggle_zoomable => _lib_lighttable_key_accel_toggle_zoomable s
  | op_key_accel_toggle_culling_dynamic_mode =>
      _lib_lighttable_key_accel_toggle_culling_dynamic_mode s
  | op_key_accel_toggle_culling_zoom_mode =>
      _lib_lighttable_key_accel_toggle_culling_zoom_mode s
  | op_key_accel_toggle_restricted_mode =>
      _lib_lighttable_key_accel_toggle_restricted_mode s
  | op_key_accel_exit_layout => _lib_lighttable_key_accel_exit_layout s
  | op_action_process_culling e f p => (_action_process_culling e f p s).2
  | op_action_process_preview e f p => (_action_process_preview e f p s).2
  | op_zoom_slider_changed i =>
      _lib_lighttable_zoom_slider_changed (gtk_spin_button_set_value i s)
  | op_set_zoom z => _lib_lighttable_set_zoom s z
  | op_layout_cb arg => (layout_cb arg s).2
  | op_zoom_level_cb arg => (zoom_level_cb arg s).2
  end.

Definition run (ops : list operation) (s : lt_state) : lt_state :=
  foldl (fun s o => run_operation o s) s ops.

End lighttable.

Arguments lt_state VM : clear implicits.

(** *** [gui_init] *)

(** Modelled from the spec: the constants of [views/view.h] that [gui_init]
    uses and the two source files do not define: the upper end of the zoom
    range, and the restriction whose enumerator is [0], the value the
    [g_malloc0]ed module data starts with. *)
Class lighttable_constants := {
  DT_LIGHTTABLE_MAX_ZOOM : Z;
  culling_restriction_of_0 : dt_lighttable_culling_restriction_t }.

Section lighttable_init.
Context {VM : Type} {VMA : view_manager_api VM} {LC : lighttable_constants}.

(** The widgets as [gui_init] creates them: toggle buttons are not active,
    no tooltip is set, widgets are sensitive and not yet shown, and the spin
    button of range [1 .. DT_LIGHTTABLE_MAX_ZOOM] stands at [1]. *)
Definition new_widgets : gtk_state :=
  {| toggle_active := fun _ => false;
     tooltip_text := fun _ => "";
     sensitive := fun _ => true;
     visible := fun _ => false;
     spin_value := 1 |}.

(** [gui_init], given the view manager, the configuration and the number of
    selected images it finds.  The registration of actions, shortcuts, help
    links and signal handlers, and the proxy functions stored in the view
    manager, leave nothing in the state of the module. *)
Definition gui_init (vm : VM) (c : gmap string Z) (selected : Z) : lt_state VM :=
  (* initialize ui widgets *)
  let s := {| data := {| layout := 0; base_layout := 0; current_zoom := 0;
                         fullpreview_focus := false;
                         culling_init_restriction := culling_restriction_of_0 |};
              view_manager := vm; conf := c; gtk := new_widgets;
              selected_count := selected; requests := [] |} in
  let s := with_data (set_layout
             (Z.min (DT_LIGHTTABLE_LAYOUT_LAST - 1)
                    (dt_conf_get_int s "plugins/lighttable/layout"))) s in
  let s := with_data (set_base_layout
             (Z.min (DT_LIGHTTABLE_LAYOUT_LAST - 1)
                    (dt_conf_get_int s "plugins/lighttable/base_layout"))) s in
  let s :=
    if layout (data s) =? DT_LIGHTTABLE_LAYOUT_CULLING then
      with_data (set_current_zoom
        (dt_conf_get_int s "plugins/lighttable/culling_num_images")) s
    else if layout (data s) =? DT_LIGHTTABLE_LAYOUT_CULLING_DYNAMIC then
      let s := with_data (set_current_zoom
                 (Z.max 1 (Z.min DT_LIGHTTABLE_MAX_ZOOM
                                 (dt_collection_get_selected_count s)))) s in
      if current_zoom (data s) =? 1
      then with_data (set_current_zoom
             (dt_conf_get_int s "plugins/lighttable/culling_num_images")) s
      else s
    else
      with_data (set_current_zoom
        (dt_conf_get_int s "plugins/lighttable/images_in_row")) s in
  (* create the layouts icon list *)
  let s := gtk_widget_set_tooltip_text layout_filemanager
             "click to enter filemanager layout." s in
  let s := gtk_widget_set_tooltip_text layout_zoomable
             "click to enter zoomable lighttable layout." s in
  (* create horizontal zoom slider *)
  let s := gtk_spin_button_set_value (current_zoom (data s)) s in
  let s := gtk_widget_set_tooltip_text zoom
             ("set the number of thumbnails per row in filemanager layout,"
              ++ String "010" "or the total number of thumbnails shown in culling layouts.")
             s in
  _lib_lighttable_update_btn s.

End lighttable_init.

(** ** Part III.  Vocabulary of the statements *)

(** [s] contains a '.' *)
Fixpoint has_dot (s : string) : bool :=
  match s with
  | EmptyString => false
  | String c s' => (Ascii.eqb c "." || has_dot s')%bool
  end.

(** [s] contains a NUL character (no C string does) *)
Fixpoint has_nul (s : string) : bool :=
  match s with
  | EmptyString => false
  | String c s' => (Ascii.eqb c NUL || has_nul s')%bool
  end.

(** Letter case aside, [p] is a prefix of [s]: [s] begins with [p]. *)
Fixpoint ci_prefix (p s : string) : bool :=
  match p, s with
  | EmptyString, _ => true
  | String a p', String b s' =>
      (Ascii.eqb (TOLOWER a) (TOLOWER b) && ci_prefix p' s')%bool
  | String _ _, EmptyString => false
  end.

(** The whitelisted extensions: the table of [_supported_image], and "qoi"
    under ImageMagick 7 *)
Definition whitelisted_extensions `{build_config} : list string :=
  extensions_whitelist ++ (if HAVE_IMAGEMAGICK7 then ["qoi"] else []).

(** A flag is set, or cleared, in a flags word. *)
Definition flag_set (flag word : Z) : Prop := Z.land word flag = flag.

Definition flag_cleared (flag word : Z) : Prop := Z.land word flag = 0.

(** The CMYK to RGB conversion of the first [n] floats of an array of
    pixels of four floats [c; m; y; k] each: a float that is not a fourth
    channel becomes [(1 - k) * (1 - c)], with [k] the fourth channel of its
    pixel. *)
Definition rgb_of_cmyk {float} `{float_ops float} (a : Z -> float) (n : Z) (i : Z)
  : float :=
  if ((0 <=? i) && (i <? n) && negb (i mod 4 =? 3))%bool
  then f_mul (f_sub f_1 (a (4 * (i / 4) + 3))) (f_sub f_1 (a i))
  else a i.

(** The layouts a culling layout is left for *)
Definition is_base_layout (l : Z) : Prop :=
  l = DT_LIGHTTABLE_LAYOUT_FILEMANAGER \/ l = DT_LIGHTTABLE_LAYOUT_ZOOMABLE.

(** A view manager that reports what it was told last: the preview state
    last set, the restriction last set, and a preview state that setting
    the restriction does not touch. *)
Record view_manager_law (VM : Type) {VMA : view_manager_api VM} : Prop := {
  preview_state_set : forall vm state sticky focus restriction,
    dt_view_lighttable_preview_state
      (dt_view_lighttable_set_preview_state vm state sticky focus restriction)
    = state;
  culling_restricted_state_set : forall vm restriction,
    dt_view_lighttable_culling_restricted_state
      (dt_view_lighttable_set_culling_restricted_state vm restriction)
    = restriction;
  preview_state_set_culling_restricted : forall vm restriction,
    dt_view_lighttable_preview_state
      (dt_view_lighttable_set_culling_restricted_state vm restriction)
    = dt_view_lighttable_preview_state vm }.

Section lighttable_vocabulary.
Context {VM : Type} {VMA : view_manager_api VM}.

(** The configuration holds the layout and the base layout of the module. *)
Definition persisted (s : lt_state VM) : Prop :=
  dt_conf_get_int s "plugins/lighttable/layout" = layout (data s)
  /\ dt_conf_get_int s "plugins/lighttable/base_layout" = base_layout (data s).

(** The layout buttons that are active *)
Definition active_buttons (s : lt_state VM) : list GtkWidget :=
  List.filter (toggle_active (gtk s)) layout_box_children.

(** The button that stands for what is shown: the preview, or else the
    layout *)
Definition button_shown (s : lt_state VM) : GtkWidget :=
  if dt_view_lighttable_preview_state (view_manager s) then layout_preview
  else if decide (layout (data s) = DT_LIGHTTABLE_LAYOUT_CULLING_DYNAMIC)
       then layout_culling_dynamic
  else if decide (layout (data s) = DT_LIGHTTABLE_LAYOUT_CULLING)
       then layout_culling_fix
  else if decide (layout (data s) = DT_LIGHTTABLE_LAYOUT_ZOOMABLE)
       then layout_zoomable
  else layout_filemanager.

(** The layout a layout button stands for *)
Definition layout_of_button (w : GtkWidget) : Z :=
  if decide (w = layout_preview) then DT_LIGHTTABLE_LAYOUT_PREVIEW
  else if decide (w = layout_culling_fix) then DT_LIGHTTABLE_LAYOUT_CULLING
  else if decide (w = layout_culling_dynamic) then DT_LIGHTTABLE_LAYOUT_CULLING_DYNAMIC
  else if decide (w = layout_zoomable) then DT_LIGHTTABLE_LAYOUT_ZOOMABLE
  else DT_LIGHTTABLE_LAYOUT_FILEMANAGER.

(** The one active layout button is the one that stands for what is shown. *)
Definition mirrors (s : lt_state VM) : Prop := active_buttons s = [button_shown s].

End lighttable_vocabulary.

(** *** The successful run of the loader, spelled out *)

Section loader_vocabulary.
Context {float : Type} {FO : float_ops float} {BC : build_config} {IF : image_flags}.

(** The state in which the loader turns to ImageMagick: the EXIF data has
    been read when the record did not have it yet. *)
Definition entered (env : environment float) (img : dt_image_t) (filename : string)
  : loader_state float :=
  let s := {| ls_img := img; ls_mipbuf := None; ls_steps := [] |} in
  if negb (exif_inited img)
  then did (step_dt_exif_read filename)
           (with_img (fun i => dt_exif_read env i filename) s)
  else s.

(** The channel map the pixels are exported with *)
Definition colormap_of (image : MagickWand float) : string :=
  if is_cmyk (MagickGetImageColorspace image) then "CMYK" else "RGBP".

(** The embedded colour profile: "icc", or otherwise "icm" *)
Definition embedded_profile (image : MagickWand float) : option (list byte) :=
  match MagickGetImageProfile image "icc" with
  | Some data => Some data
  | None => MagickGetImageProfile image "icm"
  end.

(** The steps of the profile block *)
Definition profile_steps (env : environment float) (image : MagickWand float)
  : list step :=
  [step_MagickGetImageProfile "icc"]
  ++ (match MagickGetImageProfile image "icc" with
      | Some _ => []
      | None => [step_MagickGetImageProfile "icm"]
      end)
  ++ (match embedded_profile image with
      | Some data =>
          [step_g_try_malloc0 (List.length data)]
          ++ (if g_try_malloc0 env (List.length data)
              then [step_memcpy (List.length data)] else [])
          ++ [step_MagickRelinquishMemory]
      | None => []
      end).

(** What the profile block leaves in the image record *)
Definition profile_copied (env : environment float) (image : MagickWand float)
    (img : dt_image_t) : dt_image_t :=
  match embedded_profile image with
  | Some data =>
      if g_try_malloc0 env (List.length data)
      then set_profile_size (List.length data) (set_profile (Some data) img)
      else set_profile None img
  | None => img
  end.

(** The tail of the loader, from [DestroyMagickWand] on *)
Definition finish (s : loader_state float) : loader_state float :=
  let s := did step_DestroyMagickWand s in
  let s := with_img (set_cst IOP_CS_RGB) s in
  let s := with_img (set_filters 0) s in
  let s := with_img (fun i => set_flags (Z.land (flags i) (Z.lnot DT_IMAGE_RAW)) i) s in
  let s := with_img (fun i => set_flags (Z.land (flags i) (Z.lnot DT_IMAGE_S_RAW)) i) s in
  let s := with_img (fun i => set_flags (Z.land (flags i) (Z.lnot DT_IMAGE_HDR)) i) s in
  let s := with_img (fun i => set_flags (Z.lor (flags i) DT_IMAGE_LDR) i) s in
  with_img (set_loader LOADER_IM) s.

(** The image record when the buffer is asked for: the dimensions stored
    into the [int32_t] fields, four channels of floats *)
Definition sized (env : environment float) (img : dt_image_t) (filename : string)
    (image : MagickWand float) : dt_image_t :=
  set_datatype TYPE_FLOAT
    (set_channels 4
       (set_height (to_int (MagickGetImageHeight image))
          (set_width (to_int (MagickGetImageWidth image))
             (ls_img (entered env img filename))))).

(** The columns and rows the library is asked to export *)
Definition columns_of (image : MagickWand float) : Z :=
  to_size_t (to_int (MagickGetImageWidth image)).

Definition rows_of (image : MagickWand float) : Z :=
  to_size_t (to_int (MagickGetImageHeight image)).

(** The conversion pass on the exported array *)
Definition fixup (env : environment float) (img : dt_image_t) (filename : string)
    (image : MagickWand float) (exported : float_array float)
  : option (float_array float) :=
  let bound := loop_bound (sized env img filename image) in
  if is_cmyk (MagickGetImageColorspace image)
  then cmyk_loop (Z.to_nat bound) 0 bound exported else Some exported.

(** The states in which the loader gives up: after the wand, after the
    read, after the allocation, after the export *)
Definition stage_wand (env : environment float) (img : dt_image_t) (filename : string)
  : loader_state float :=
  did step_NewMagickWand (entered env img filename).

Definition stage_read (env : environment float) (img : dt_image_t) (filename : string)
  : loader_state float :=
  did (step_MagickReadImage filename) (stage_wand env img filename).

Definition stage_alloc (env : environment float) (img : dt_image_t) (filename : string)
    (image : MagickWand float) : loader_state float :=
  did step_dt_mipmap_cache_alloc
    (with_img (set_datatype TYPE_FLOAT)
       (with_img (set_channels 4)
          (did step_MagickGetImageHeight
             (with_img (set_height (to_int (MagickGetImageHeight image)))
                (did step_MagickGetImageWidth
                   (with_img (set_width (to_int (MagickGetImageWidth image)))
                      (stage_read env img filename))))))).

Definition stage_export (env : environment float) (img : dt_image_t) (filename : string)
    (image : MagickWand float) (mipbuf : float_array float) : loader_state float :=
  did (step_MagickExportImagePixels 0 0 (columns_of image) (rows_of image)
         (colormap_of image))
    (did step_MagickGetImageColorspace
       (with_mipbuf (Some mipbuf) (stage_alloc env img filename image))).

(** The state a successful run ends in, given the decoded image and the
    array the conversion pass left *)
Definition loaded (env : environment float) (img : dt_image_t) (filename : string)
    (image : MagickWand float) (final : float_array float) : loader_state float :=
  let s := with_mipbuf (Some final) (stage_export env img filename image final) in
  finish
    (copy_profile env image
       (if is_cmyk (MagickGetImageColorspace image)
        then did step_cmyk_to_rgb s else s)).

(** The call returns [r]. *)
Definition returns (env : environment float) (img : dt_image_t) (filename : string)
    (r : dt_imageio_retval_t) : Prop :=
  exists s, dt_imageio_open_im env img filename = Some (r, s).

(** An image whose dimensions fit the [int32_t] fields and whose number of
    floats, [width * height * 4], fits an [int] *)
Definition small_image (image : MagickWand float) : Prop :=
  0 <= MagickGetImageWidth image < 2 ^ 31
  /\ 0 <= MagickGetImageHeight image < 2 ^ 31
  /\ MagickGetImageWidth image * MagickGetImageHeight image * 4 < 2 ^ 31.

(** The file holds a small image, and the array the mipmap cache hands out
    for it has room for its [width * height * 4] floats. *)
Definition well_sized (env : environment float) (img : dt_image_t) (filename : string)
  : Prop :=
  forall image,
    MagickReadImage env filename = Some image ->
    small_image image
    /\ forall mipbuf,
         dt_mipmap_cache_alloc env (sized env img filename image) = Some mipbuf ->
         MagickGetImageWidth image * MagickGetImageHeight image * 4 <= fa_size mipbuf.


End loader_vocabulary.

(** [f] applied to every character of [s] *)
Fixpoint string_map (f : ascii -> ascii) (s : string) : string :=
  match s with
  | EmptyString => EmptyString
  | String c s' => String (f c) (string_map f s')
  end.

(** The upper-case form of an ASCII character *)
Definition ascii_toupper (c : ascii) : ascii :=
  let n := nat_of_ascii c in
  if ((97 <=? n)%nat && (n <=? 122)%nat)%bool then ascii_of_nat (n - 97 + 65) else c.

(** *** Concrete instances, for the examples

    ImageMagick 6 and 7 builds; integers in the place of floats; the flag
    bits of [common/image.h]; an image record as the image cache hands it
    to a loader; a two-pixel image with an "icm" profile of two bytes. *)

Definition im6 : build_config := {| HAVE_IMAGEMAGICK7 := false |}.

Definition im7 : build_config := {| HAVE_IMAGEMAGICK7 := true |}.

Definition Z_float : float_ops Z := {| f_1 := 1; f_sub := Z.sub; f_mul := Z.mul |}.

Definition darktable_flags : image_flags :=
  {| DT_IMAGE_LDR := 32; DT_IMAGE_RAW := 64; DT_IMAGE_HDR := 128;
     DT_IMAGE_S_RAW := 131072 |}.

Definition sample_img : dt_image_t :=
  {| exif_inited := false; width := 0; height := 0;
     buf_dsc := {| channels := 0; datatype := TYPE_UNKNOWN; cst := IOP_CS_NONE;
                   filters := 9 |};
     flags := 64 + 7; loader := LOADER_UNKNOWN; profile := None; profile_size := 0 |}.

Definition sample_wand (colorspace : ColorspaceType) (export_ok : bool) : MagickWand Z :=
  {| MagickGetImageWidth := 2;
     MagickGetImageHeight := 1;
     MagickGetImageColorspace := colorspace;
     MagickExportImagePixels := fun _ _ _ _ _ =>
       if export_ok then Some (fun i => i + 10) else None;
     MagickGetImageProfile := fun name =>
       if String.eqb name "icm" then Some [x01; x02] else None |}.

Definition sample_env (image : option (MagickWand Z)) (cache_ok malloc_ok : bool)
  : environment Z :=
  {| dt_exif_read := fun img _ => img;
     NewMagickWand := true;
     MagickReadImage := fun _ => image;
     dt_mipmap_cache_alloc := fun _ =>
       if cache_ok then Some {| fa_size := 8; fa_at := fun _ => 0 |} else None;
     g_try_malloc0 := fun _ => malloc_ok |}.

(** A CMYK image of [side] x [side] pixels with every exported float [2],
    and an environment in which the mipmap cache hands out an array of
    [room] floats for it *)
Definition cmyk_square (side : Z) : MagickWand Z :=
  {| MagickGetImageWidth := side;
     MagickGetImageHeight := side;
     MagickGetImageColorspace := CMYKColorspace;
     MagickExportImagePixels := fun _ _ _ _ _ => Some (fun _ => 2);
     MagickGetImageProfile := fun _ => None |}.

Definition cmyk_square_env (side room : Z) : environment Z :=
  {| dt_exif_read := fun img _ => img;
     NewMagickWand := true;
     MagickReadImage := fun _ => Some (cmyk_square side);
     dt_mipmap_cache_alloc := fun _ =>
       Some {| fa_size := room; fa_at := fun _ => 0 |};
     g_try_malloc0 := fun _ => true |}.

(** An sRGB image for which the library reports a width of [2 ^ 32 + 1] and
    a height of 1 *)
Definition wide_wand : MagickWand Z :=
  {| MagickGetImageWidth := 4294967297;
     MagickGetImageHeight := 1;
     MagickGetImageColorspace := sRGBColorspace;
     MagickExportImagePixels := fun _ _ _ _ _ => Some (fun i => i + 10);
     MagickGetImageProfile := fun _ => None |}.

(** A view manager that keeps what it is told, and a lighttable in the
    filemanager layout as [gui_init] and [_lib_lighttable_update_btn] leave
    it with five images per row. *)

Record simple_view_manager := {
  vm_preview : bool;
  vm_sticky : bool;
  vm_focus : bool;
  vm_restriction : dt_lighttable_culling_restriction_t;
  vm_culling_restricted : dt_lighttable_culling_restriction_t }.

Definition simple_view_manager_api : view_manager_api simple_view_manager :=
  {| dt_view_lighttable_preview_state := vm_preview;
     dt_view_lighttable_set_preview_state := fun vm state sticky focus restriction =>
       {| vm_preview := state; vm_sticky := sticky; vm_focus := focus;
          vm_restriction := restriction;
          vm_culling_restricted := vm_culling_restricted vm |};
     dt_view_lighttable_culling_restricted_state := vm_culling_restricted;
     dt_view_lighttable_set_culling_restricted_state := fun vm restriction =>
       {| vm_preview := vm_preview vm; vm_sticky := vm_sticky vm;
          vm_focus := vm_focus vm; vm_restriction := vm_restriction vm;
          vm_culling_restricted := restriction |} |}.

Definition sample_lighttable : lt_state simple_view_manager :=
  @_lib_lighttable_update_btn simple_view_manager simple_view_manager_api
    {| data := {| layout := DT_LIGHTTABLE_LAYOUT_FILEMANAGER;
                  base_layout := DT_LIGHTTABLE_LAYOUT_FILEMANAGER;
                  current_zoom := 5;
                  fullpreview_focus := false;
                  culling_init_restriction := DT_LIGHTTABLE_CULLING_RESTRICTION_AUTO |};
       view_manager := {| vm_preview := false; vm_sticky := false; vm_focus := false;
                          vm_restriction := DT_LIGHTTABLE_CULLING_RESTRICTION_AUTO;
                          vm_culling_restricted :=
                            DT_LIGHTTABLE_CULLING_RESTRICTION_AUTO |};
       conf := {[ "plugins/lighttable/layout" := 1;
                  "plugins/lighttable/base_layout" := 1;
                  "plugins/lighttable/images_in_row" := 5;
                  "plugins/lighttable/culling_num_images" := 2 ]};
       gtk := {| toggle_active := fun _ => false;
                 tooltip_text := fun _ => "";
                 sensitive := fun _ => true;
                 visible := fun _ => false;
                 spin_value := 5 |};
       selected_count := 0;
       requests := [] |}.

(** The constants of darktable *)
Definition darktable_lighttable_constants : lighttable_constants :=
  {| DT_LIGHTTABLE_MAX_ZOOM := 25;
     culling_restriction_of_0 := DT_LIGHTTABLE_CULLING_RESTRICTION_AUTO |}.

(** A configuration as darktable keeps it, and the lighttable [gui_init]
    builds from it with four images selected *)
Definition sample_conf : gmap string Z :=
  {[ "plugins/lighttable/layout" := 1;
     "plugins/lighttable/base_layout" := 1;
     "plugins/lighttable/images_in_row" := 5;
     "plugins/lighttable/culling_num_images" := 2 ]}.

Definition initial_lighttable : lt_state simple_view_manager :=
  @gui_init simple_view_manager simple_view_manager_api darktable_lighttable_constants
    {| vm_preview := false; vm_sticky := false; vm_focus := false;
       vm_restriction := DT_LIGHTTABLE_CULLING_RESTRICTION_AUTO;
       vm_culling_restricted := DT_LIGHTTABLE_CULLING_RESTRICTION_AUTO |}
    sample_conf 4.

(** The sample lighttable after a click on the culling button, and after a
    further click on the preview button *)
Definition culling_lighttable : lt_state simple_view_manager :=
  @run simple_view_manager simple_view_manager_api
    [op_layout_btn_release layout_culling_fix false] sample_lighttable.

Definition culling_preview_lighttable : lt_state simple_view_manager :=
  @run simple_view_manager simple_view_manager_api
    [op_layout_btn_release layout_preview false] culling_lighttable.

(** ** Part IV.  Properties of [imageio_im.c] *)

(** *** The string routines *)

Lemma strrstr_scan_dotless (s : string) :
  has_dot s = false -> strrstr_scan s "." = None.
Proof.
  induction s as [|c s IH]; [done|].
  cbn [has_dot strrstr_scan found_at].
  intros [Hc Hs]%orb_false_elim. by rewrite (IH Hs), Hc.
Qed.

Lemma g_strrstr_dotless (s : string) :
  has_dot s = false -> g_strrstr s "." = None.
Proof. intros Hs. unfold g_strrstr. simpl. by apply strrstr_scan_dotless. Qed.

Lemma g_strrstr_last_dot (stem ext : string) :
  has_dot ext = false ->
  g_strrstr (stem ++ String "." ext) "." = Some (String "." ext).
Proof.
  intros Hext. unfold g_strrstr. cbn [String.length Nat.eqb].
  induction stem as [|c stem IH].
  - change ("" ++ String "." ext)%string with (String "." ext).
    cbn [strrstr_scan found_at].
    by rewrite (strrstr_scan_dotless _ Hext).
  - change (String c stem ++ String "." ext)%string
      with (String c (stem ++ String "." ext)).
    cbn [strrstr_scan]. by rewrite IH.
Qed.

Lemma uchar_inj (a b : ascii) : uchar a = uchar b -> a = b.
Proof.
  unfold uchar. intros Hab%Nat2Z.inj.
  rewrite <- (ascii_nat_embedding a), <- (ascii_nat_embedding b). by rewrite Hab.
Qed.

Lemma TOLOWER_NUL (b : ascii) : TOLOWER b = NUL -> b = NUL.
Proof.
  unfold TOLOWER.
  destruct (_ && _)%bool eqn:Hup; [|done].
  apply andb_true_iff in Hup as [Hlo%Nat.leb_le Hhi%Nat.leb_le].
  intros Hz. exfalso.
  assert (Hn : nat_of_ascii (ascii_of_nat (nat_of_ascii b - 65 + 97))
               = nat_of_ascii NUL) by (by rewrite Hz).
  rewrite nat_ascii_embedding in Hn by lia.
  change (nat_of_ascii NUL) with 0%nat in Hn. lia.
Qed.

Lemma uchar_NUL_iff (b : ascii) : uchar b = 0 <-> b = NUL.
Proof.
  split; [|intros ->; done].
  intros Hb. apply uchar_inj. by rewrite Hb.
Qed.

(** [g_ascii_strncasecmp (s, p, strlen (p)) == 0] says that [s] begins with
    [p], letter case aside. *)
Lemma g_ascii_strncasecmp_ci_prefix (p s : string) :
  has_nul p = false ->
  (g_ascii_strncasecmp s p (String.length p) =? 0) = ci_prefix p s.
Proof.
  revert s. induction p as [|b p IH]; intros s Hp; [done|].
  simpl in Hp. apply orb_false_elim in Hp as [Hb Hp].
  assert (Hbz : uchar b <> 0) by (rewrite uchar_NUL_iff; by apply Ascii.eqb_neq).
  cbn [String.length g_ascii_strncasecmp deref next].
  rewrite Hb. cbn [negb andb].
  destruct s as [|a s]; cbn [deref next ci_prefix].
  - rewrite Ascii.eqb_refl. cbn [negb andb]. change (uchar NUL) with 0.
    apply Z.eqb_neq. lia.
  - destruct (Ascii.eqb_spec a NUL) as [->|Ha]; cbn [negb andb].
    + change (uchar NUL) with 0.
      destruct (Ascii.eqb_spec (TOLOWER b) (TOLOWER NUL)) as [Hl|_].
      * apply TOLOWER_NUL, uchar_NUL_iff in Hl. done.
      * cbn [andb]. apply Z.eqb_neq. lia.
    + destruct (Z.eqb_spec (uchar (TOLOWER a)) (uchar (TOLOWER b))) as [Hl|Hl];
        cbn [negb].
      * apply uchar_inj in Hl. rewrite Hl, Ascii.eqb_refl. cbn [andb]. by apply IH.
      * destruct (Ascii.eqb_spec (TOLOWER b) (TOLOWER a)) as [Hl'|_].
        { by rewrite Hl' in Hl. }
        cbn [andb]. apply Z.eqb_neq. lia.
Qed.

Lemma whitelist_loop_existsb (ext : string) (l : list string) :
  forallb (fun e => negb (has_nul e)) l = true ->
  whitelist_loop ext l = existsb (fun e => ci_prefix e ext) l.
Proof.
  induction l as [|e l IH]; simpl; [done|].
  intros [He Hl]%andb_true_iff. apply negb_true_iff in He.
  rewrite (g_ascii_strncasecmp_ci_prefix e ext He), (IH Hl).
  by destruct (ci_prefix e ext).
Qed.

(** [_supported_image] accepts exactly the file names with a '.' whose part
    after the last '.' begins, letter case aside, with a whitelisted
    extension. *)
Lemma _supported_image_last_extension `{build_config} (stem ext : string) :
  has_dot ext = false ->
  _supported_image (stem ++ String "." ext)
  = existsb (fun e => ci_prefix e ext) whitelisted_extensions.
Proof.
  intros Hext. unfold _supported_image, whitelisted_extensions.
  rewrite (g_strrstr_last_dot _ _ Hext). cbn [next].
  rewrite whitelist_loop_existsb by reflexivity.
  rewrite existsb_app.
  change 3%nat with (String.length "qoi").
  rewrite (g_ascii_strncasecmp_ci_prefix "qoi" ext) by reflexivity.
  generalize (existsb (fun e => ci_prefix e ext) extensions_whitelist); intros w.
  destruct HAVE_IMAGEMAGICK7; cbn [existsb]; by rewrite !orb_false_r.
Qed.

Lemma _supported_image_no_dot `{build_config} (filename : string) :
  has_dot filename = false -> _supported_image filename = false.
Proof. intros Hf. unfold _supported_image. by rewrite (g_strrstr_dotless _ Hf). Qed.

(** *** The loader *)

Section imageio_im_properties.
Context {float : Type} {FO : float_ops float} {BC : build_config} {IF : image_flags}.

Lemma dt_imageio_open_im_unsupported (env : environment float) (img : dt_image_t)
    (filename : string) :
  _supported_image filename = false ->
  dt_imageio_open_im env img filename
  = Some (DT_IMAGEIO_LOAD_FAILED,
          {| ls_img := img; ls_mipbuf := None; ls_steps := [] |}).
Proof. intros Hf. unfold dt_imageio_open_im. by rewrite Hf. Qed.

(** *** C integers *)

Lemma to_int_small (z : Z) : - 2 ^ 31 <= z < 2 ^ 31 -> to_int z = z.
Proof. intros Hz. unfold to_int. rewrite Z.mod_small; lia. Qed.

Lemma to_size_t_small (z : Z) : 0 <= z < 2 ^ 64 -> to_size_t z = z.
Proof. intros Hz. unfold to_size_t. by rewrite Z.mod_small. Qed.

Lemma loop_bound_small (img : dt_image_t) :
  0 <= width img -> 0 <= height img -> width img * height img * 4 < 2 ^ 31 ->
  loop_bound img = width img * height img * 4.
Proof.
  intros Hw Hh Hn. unfold loop_bound.
  assert (0 <= width img * height img) by nia.
  rewrite (to_int_small (width img * height img)) by lia.
  rewrite to_int_small by lia. apply to_size_t_small. lia.
Qed.

(** *** The conversion loop *)

Lemma fa_get_in (a : float_array float) (i : Z) :
  0 <= i < fa_size a -> fa_get a i = Some (fa_at a i).
Proof.
  intros [Hlo Hhi]. unfold fa_get.
  by rewrite (proj2 (Z.leb_le _ _) Hlo), (proj2 (Z.ltb_lt _ _) Hhi).
Qed.

Lemma fa_get_out (a : float_array float) (i : Z) :
  fa_size a <= i -> fa_get a i = None.
Proof.
  intros Hi. unfold fa_get.
  rewrite (proj2 (Z.ltb_ge _ _) Hi). by rewrite andb_false_r.
Qed.

Lemma fa_set_in (a : float_array float) (i : Z) (v : float) :
  0 <= i < fa_size a ->
  fa_set a i v
  = Some {| fa_size := fa_size a; fa_at := fun j => if j =? i then v else fa_at a j |}.
Proof.
  intros [Hlo Hhi]. unfold fa_set.
  by rewrite (proj2 (Z.leb_le _ _) Hlo), (proj2 (Z.ltb_lt _ _) Hhi).
Qed.

Lemma fa_set_size (a a' : float_array float) (i : Z) (v : float) :
  fa_set a i v = Some a' -> fa_size a' = fa_size a.
Proof.
  unfold fa_set. destruct (_ && _)%bool; [|done]. by intros [= <-].
Qed.

Lemma cmyk_to_rgb_size (index : Z) (a a' : float_array float) :
  cmyk_to_rgb index a = Some a' -> fa_size a' = fa_size a.
Proof.
  unfold cmyk_to_rgb. intros Hrun.
  repeat match type of Hrun with
         | (_ ≫= _) = Some _ =>
             apply bind_Some in Hrun as (? & ? & Hrun)
         end.
  repeat match goal with
         | H : fa_set _ _ _ = Some _ |- _ => apply fa_set_size in H
         end.
  congruence.
Qed.

(** One iteration inside the array converts the three colour channels of
    the pixel at [index] with its fourth channel. *)
Lemma cmyk_to_rgb_in (index : Z) (a : float_array float) :
  0 <= index -> index + 3 < fa_size a -> index + 3 < 2 ^ 64 ->
  exists a',
    cmyk_to_rgb index a = Some a'
    /\ fa_size a' = fa_size a
    /\ forall j,
         fa_at a' j
         = if ((index <=? j) && (j <? index + 3))%bool
           then f_mul (f_sub f_1 (fa_at a (index + 3))) (f_sub f_1 (fa_at a j))
           else fa_at a j.
Proof.
  intros Hlo Hhi Hmax. unfold cmyk_to_rgb.
  rewrite !to_size_t_small by lia.
  rewrite fa_get_in by lia. cbn [mbind option_bind].
  rewrite fa_get_in by lia. cbn [mbind option_bind].
  rewrite fa_set_in by lia. cbn [mbind option_bind].
  rewrite fa_get_in by (cbn [fa_size]; lia). cbn [mbind option_bind].
  rewrite fa_set_in by (cbn [fa_size]; lia). cbn [mbind option_bind].
  rewrite fa_get_in by (cbn [fa_size]; lia). cbn [mbind option_bind].
  rewrite fa_set_in by (cbn [fa_size]; lia).
  eexists. split; [reflexivity|]. split; [reflexivity|].
  intros j. cbn [fa_at].
  repeat match goal with
         | |- context [?x =? ?y] => destruct (Z.eqb_spec x y)
         | |- context [?x <=? ?y] => destruct (Z.leb_spec x y)
         | |- context [?x <? ?y] => destruct (Z.ltb_spec x y)
         end; cbn [andb]; subst; try reflexivity; lia.
Qed.

(** The loop from pixel [k] on, with [m] pixels to go *)
Lemma cmyk_loop_from (m : nat) :
  forall (k n : Z) (cur : float_array float) (fuel : nat),
    0 <= k -> k + Z.of_nat m = n ->
    4 * n <= fa_size cur -> 4 * n < 2 ^ 64 -> (m <= fuel)%nat ->
    exists out,
      cmyk_loop fuel (4 * k) (4 * n) cur = Some out
      /\ fa_size out = fa_size cur
      /\ forall i,
           fa_at out i
           = if ((4 * k <=? i) && (i <? 4 * n) && negb (i mod 4 =? 3))%bool
             then f_mul (f_sub f_1 (fa_at cur (4 * (i / 4) + 3)))
                        (f_sub f_1 (fa_at cur i))
             else fa_at cur i.
Proof.
  induction m as [|m IH]; intros k n cur fuel Hk Hn Hsize Hmax Hfuel.
  - exists cur.
    assert (Hend : (4 * k <? 4 * n) = false) by (apply Z.ltb_ge; lia).
    split; [destruct fuel; cbn [cmyk_loop]; by rewrite Hend|].
    split; [done|]. intros i.
    destruct (Z.leb_spec (4 * k) i), (Z.ltb_spec i (4 * n)); try done; lia.
  - destruct fuel as [|fuel]; [lia|].
    cbn [cmyk_loop].
    rewrite (proj2 (Z.ltb_lt (4 * k) (4 * n))) by lia.
    destruct (cmyk_to_rgb_in (4 * k) cur) as (a' & -> & Hsize' & Ha'); try lia.
    cbn [mbind option_bind].
    rewrite to_size_t_small by lia.
    replace (4 * k + 4) with (4 * (k + 1)) by lia.
    destruct (IH (k + 1) n a' fuel) as (out & -> & Hsize'' & Hout); try lia.
    exists out. split; [done|]. split; [congruence|].
    intros i. rewrite Hout, !Ha'.
    pose proof (Z.div_mod i 4 ltac:(lia)) as Hdiv.
    pose proof (Z.mod_pos_bound i 4 ltac:(lia)) as Hmod.
    repeat match goal with
           | |- context [?x =? ?y] => destruct (Z.eqb_spec x y)
           | |- context [?x <=? ?y] => destruct (Z.leb_spec x y)
           | |- context [?x <? ?y] => destruct (Z.ltb_spec x y)
           end; cbn [andb negb]; try reflexivity; try lia;
      f_equal; f_equal; f_equal; lia.
Qed.

(** The loop over an array that holds [n] pixels converts them all. *)
Lemma cmyk_loop_converts (n : Z) (a : float_array float) (fuel : nat) :
  0 <= n -> 4 * n <= fa_size a -> 4 * n < 2 ^ 64 -> (Z.to_nat n <= fuel)%nat ->
  exists out,
    cmyk_loop fuel 0 (4 * n) a = Some out
    /\ fa_size out = fa_size a
    /\ forall i, fa_at out i = rgb_of_cmyk (fa_at a) (4 * n) i.
Proof.
  intros Hn Hsize Hmax Hfuel.
  destruct (cmyk_loop_from (Z.to_nat n) 0 n a fuel) as (out & Hrun & Hs & Hout);
    try lia.
  exists out. split; [exact Hrun|]. split; [exact Hs|].
  intros i. rewrite Hout. unfold rgb_of_cmyk. done.
Qed.

(** A bound beyond the array makes the loop leave it. *)
Lemma cmyk_loop_escapes (fuel : nat) :
  forall (index bound : Z) (a : float_array float),
    0 <= index <= fa_size a -> fa_size a < bound -> fa_size a + 3 < 2 ^ 64 ->
    cmyk_loop fuel index bound a = None.
Proof.
  induction fuel as [|fuel IH]; intros index bound a Hindex Hbound Hmax;
    cbn [cmyk_loop]; rewrite (proj2 (Z.ltb_lt index bound)) by lia; [done|].
  destruct (cmyk_to_rgb index a) as [a'|] eqn:Hbody; [|done].
  cbn [mbind option_bind].
  pose proof (cmyk_to_rgb_size _ _ _ Hbody) as Hsize.
  assert (Hin : index + 3 < fa_size a).
  { destruct (Z.lt_ge_cases (index + 3) (fa_size a)) as [|Hout]; [done|].
    unfold cmyk_to_rgb in Hbody.
    rewrite !to_size_t_small in Hbody by lia.
    rewrite (fa_get_out a (index + 3)) in Hbody by lia. done. }
  rewrite to_size_t_small by lia.
  apply IH; lia.
Qed.
(** *** The call, stage by stage *)

Lemma dt_imageio_open_im_stages (env : environment float) (img : dt_image_t)
    (filename : string) :
  dt_imageio_open_im env img filename
  = if negb (_supported_image filename)
    then Some (DT_IMAGEIO_LOAD_FAILED,
               {| ls_img := img; ls_mipbuf := None; ls_steps := [] |})
    else if negb (NewMagickWand env)
    then Some (DT_IMAGEIO_LOAD_FAILED,
               did step_DestroyMagickWand (stage_wand env img filename))
    else
      match MagickReadImage env filename with
      | None => Some (DT_IMAGEIO_FILE_NOT_FOUND,
                      did step_DestroyMagickWand (stage_read env img filename))
      | Some image =>
      match dt_mipmap_cache_alloc env (sized env img filename image) with
      | None => Some (DT_IMAGEIO_CACHE_FULL,
                      did step_DestroyMagickWand (stage_alloc env img filename image))
      | Some mipbuf =>
      match MagickExportImagePixels image 0 0 (columns_of image) (rows_of image)
              (colormap_of image) with
      | None => Some (DT_IMAGEIO_LOAD_FAILED,
                      did step_DestroyMagickWand
                        (stage_export env img filename image mipbuf))
      | Some pixels =>
      match export_into pixels (columns_of image) (rows_of image) (colormap_of image)
              mipbuf with
      | None => None
      | Some exported =>
      match fixup env img filename image exported with
      | None => None
      | Some final => Some (DT_IMAGEIO_OK, loaded env img filename image final)
      end end end end end.
Proof.
  assert (Hfold : forall s t : loader_state float,
            ls_img s = ls_img t -> ls_mipbuf s = ls_mipbuf t ->
            ls_steps s = ls_steps t -> s = t).
  { intros [? ? ?] [? ? ?]. cbn. by intros -> -> ->. }
  unfold dt_imageio_open_im, fixup, loaded, stage_export, columns_of, rows_of,
    colormap_of.
  destruct (_supported_image filename); cbn [negb]; [|reflexivity].
  destruct (NewMagickWand env); cbn [negb]; [|reflexivity].
  destruct (MagickReadImage env filename) as [image|]; [|reflexivity].
  change (dt_mipmap_cache_alloc env _)
    with (dt_mipmap_cache_alloc env (sized env img filename image)).
  destruct (dt_mipmap_cache_alloc env (sized env img filename image)) as [mipbuf|];
    [|reflexivity].
  change (loop_bound (ls_img _)) with (loop_bound (sized env img filename image)).
  set (columns := to_size_t (to_int (MagickGetImageWidth image))).
  set (rows := to_size_t (to_int (MagickGetImageHeight image))).
  change (to_size_t (width (ls_img _))) with columns.
  change (to_size_t (height (ls_img _))) with rows.
  destruct (is_cmyk (MagickGetImageColorspace image));
    (destruct (MagickExportImagePixels image 0 0 columns rows _) as [pixels|];
     [|reflexivity]);
    (destruct (export_into pixels columns rows _ mipbuf) as [exported|];
     [|reflexivity]);
    [destruct (cmyk_loop _ 0 _ exported) as [final|]; [|reflexivity]|];
    do 2 f_equal; unfold finish; do 9 f_equal; apply Hfold; reflexivity.
Qed.
Lemma is_cmyk_true (colorspace : ColorspaceType) :
  is_cmyk colorspace = true <-> colorspace = CMYColorspace \/ colorspace = CMYKColorspace.
Proof. destruct colorspace; simpl; intuition congruence. Qed.

Lemma is_cmyk_false (colorspace : ColorspaceType) :
  is_cmyk colorspace = false <-> colorspace <> CMYColorspace /\ colorspace <> CMYKColorspace.
Proof. destruct colorspace; simpl; intuition congruence. Qed.

Lemma dt_imageio_open_im_OK_inv (env : environment float) (img : dt_image_t)
    (filename : string) (s : loader_state float) :
  dt_imageio_open_im env img filename = Some (DT_IMAGEIO_OK, s) ->
  exists image mipbuf pixels exported final,
    _supported_image filename = true
    /\ NewMagickWand env = true
    /\ MagickReadImage env filename = Some image
    /\ dt_mipmap_cache_alloc env (sized env img filename image) = Some mipbuf
    /\ MagickExportImagePixels image 0 0 (columns_of image) (rows_of image)
         (colormap_of image) = Some pixels
    /\ export_into pixels (columns_of image) (rows_of image) (colormap_of image) mipbuf
       = Some exported
    /\ fixup env img filename image exported = Some final
    /\ s = loaded env img filename image final.
Proof.
  rewrite dt_imageio_open_im_stages.
  destruct (_supported_image filename); cbn [negb]; [|discriminate].
  destruct (NewMagickWand env); cbn [negb]; [|discriminate].
  destruct (MagickReadImage env filename) as [image|]; [|discriminate].
  destruct (dt_mipmap_cache_alloc env _) as [mipbuf|] eqn:Halloc; [|discriminate].
  destruct (MagickExportImagePixels image 0 0 _ _ _) as [pixels|] eqn:Hexport;
    [|discriminate].
  destruct (export_into pixels _ _ _ mipbuf) as [exported|] eqn:Hinto; [|discriminate].
  destruct (fixup env img filename image exported) as [final|] eqn:Hfix;
    [|discriminate].
  intros [= <-]. by exists image, mipbuf, pixels, exported, final.
Qed.

(** *** The pixels *)

Lemma colormap_of_length (image : MagickWand float) :
  Z.of_nat (String.length (colormap_of image)) = 4.
Proof. unfold colormap_of. by destruct (is_cmyk _). Qed.

Lemma export_into_Some (pixels : Z -> float) (columns rows : Z) (map : string)
    (mipbuf exported : float_array float) :
  export_into pixels columns rows map mipbuf = Some exported ->
  let n := columns * rows * Z.of_nat (String.length map) in
  n <= fa_size mipbuf
  /\ fa_size exported = fa_size mipbuf
  /\ forall i, fa_at exported i
               = if ((0 <=? i) && (i <? n))%bool then pixels i else fa_at mipbuf i.
Proof.
  unfold export_into. cbv zeta.
  destruct (Z.leb_spec (columns * rows * Z.of_nat (String.length map)) (fa_size mipbuf));
    [|discriminate].
  by intros [= <-].
Qed.

Lemma sized_dimensions (env : environment float) (img : dt_image_t) (filename : string)
    (image : MagickWand float) :
  width (sized env img filename image) = to_int (MagickGetImageWidth image)
  /\ height (sized env img filename image) = to_int (MagickGetImageHeight image).
Proof. done. Qed.

Lemma small_image_sizes (env : environment float) (img : dt_image_t) (filename : string)
    (image : MagickWand float) :
  small_image image ->
  columns_of image = MagickGetImageWidth image
  /\ rows_of image = MagickGetImageHeight image
  /\ loop_bound (sized env img filename image)
     = MagickGetImageWidth image * MagickGetImageHeight image * 4.
Proof.
  intros (Hw & Hh & Hn). unfold columns_of, rows_of.
  rewrite !to_int_small by lia. rewrite !to_size_t_small by lia.
  split; [done|]. split; [done|].
  destruct (sized_dimensions env img filename image) as [Hsw Hsh].
  rewrite loop_bound_small; rewrite ?Hsw, ?Hsh, ?to_int_small by lia; lia.
Qed.

(** On a small image whose floats the array holds, the conversion pass has
    a result: every float of a CMY or CMYK image converted, those of any
    other image as they are. *)
Lemma fixup_small_image (env : environment float) (img : dt_image_t) (filename : string)
    (image : MagickWand float) (exported : float_array float) :
  small_image image ->
  let n := MagickGetImageWidth image * MagickGetImageHeight image * 4 in
  n <= fa_size exported ->
  exists final,
    fixup env img filename image exported = Some final
    /\ fa_size final = fa_size exported
    /\ forall i,
         fa_at final i
         = if is_cmyk (MagickGetImageColorspace image)
           then rgb_of_cmyk (fa_at exported) n i else fa_at exported i.
Proof.
  intros Hsmall n Hsize. unfold fixup.
  destruct (small_image_sizes env img filename image Hsmall) as (_ & _ & ->).
  fold n.
  destruct (is_cmyk (MagickGetImageColorspace image)); [|by exists exported].
  destruct Hsmall as (Hw & Hh & Hn).
  assert (Hpixels : 0 <= MagickGetImageWidth image * MagickGetImageHeight image) by nia.
  replace n with (4 * (MagickGetImageWidth image * MagickGetImageHeight image))
    in * by (subst n; lia).
  apply cmyk_loop_converts; lia.
Qed.

Lemma rgb_of_cmyk_exported (pixels a : Z -> float) (n i : Z) :
  n mod 4 = 0 ->
  0 <= i < n ->
  (forall j, 0 <= j < n -> a j = pixels j) ->
  rgb_of_cmyk a n i = rgb_of_cmyk pixels n i.
Proof.
  intros Hn Hi Ha. unfold rgb_of_cmyk.
  destruct ((0 <=? i) && (i <? n) && negb (i mod 4 =? 3))%bool eqn:Hc;
    [|by apply Ha].
  apply andb_true_iff in Hc as [_ Hmod%negb_true_iff%Z.eqb_neq].
  rewrite !Ha; [done|lia|].
  pose proof (Z.div_mod i 4 ltac:(lia)). pose proof (Z.mod_pos_bound i 4 ltac:(lia)).
  pose proof (Z.div_mod n 4 ltac:(lia)). lia.
Qed.

(** *** The successful run *)

Lemma copy_profile_mipbuf (env : environment float) (image : MagickWand float)
    (s : loader_state float) :
  ls_mipbuf (copy_profile env image s) = ls_mipbuf s.
Proof.
  unfold copy_profile.
  destruct (MagickGetImageProfile image "icc") as [data|];
    [|destruct (MagickGetImageProfile image "icm") as [data|]]; try done;
    cbn; by destruct (g_try_malloc0 env (List.length data)).
Qed.

Lemma memcpy_fresh (data : list byte) :
  memcpy (replicate (List.length data) x00) data (List.length data) = data.
Proof.
  unfold memcpy. rewrite take_ge by done.
  rewrite drop_ge by (by rewrite length_replicate). by rewrite app_nil_r.
Qed.

Lemma copy_profile_steps (env : environment float) (image : MagickWand float)
    (s : loader_state float) :
  ls_steps (copy_profile env image s) = (ls_steps s ++ profile_steps env image)%list.
Proof.
  unfold copy_profile, profile_steps, embedded_profile.
  destruct (MagickGetImageProfile image "icc") as [data|];
    [|destruct (MagickGetImageProfile image "icm") as [data|]];
    cbn; try destruct (g_try_malloc0 env (List.length data));
    cbn; by rewrite <- ?app_assoc.
Qed.

Lemma copy_profile_img (env : environment float) (image : MagickWand float)
    (s : loader_state float) :
  ls_img (copy_profile env image s) = profile_copied env image (ls_img s).
Proof.
  unfold copy_profile, profile_copied, embedded_profile.
  destruct (MagickGetImageProfile image "icc") as [data|];
    [|destruct (MagickGetImageProfile image "icm") as [data|]];
    cbn; try destruct (g_try_malloc0 env (List.length data));
    cbn; by rewrite ?memcpy_fresh.
Qed.

Lemma entered_steps (env : environment float) (img : dt_image_t) (filename : string) :
  ls_steps (entered env img filename)
  = if exif_inited img then [] else [step_dt_exif_read filename].
Proof. unfold entered. by destruct (exif_inited img). Qed.

Lemma entered_img (env : environment float) (img : dt_image_t) (filename : string) :
  ls_img (entered env img filename)
  = if exif_inited img then img else dt_exif_read env img filename.
Proof. unfold entered. by destruct (exif_inited img). Qed.

Lemma entered_mipbuf (env : environment float) (img : dt_image_t) (filename : string) :
  ls_mipbuf (entered env img filename) = None.
Proof. unfold entered. by destruct (exif_inited img). Qed.

Lemma loaded_mipbuf (env : environment float) (img : dt_image_t) (filename : string)
    (image : MagickWand float) (final : float_array float) :
  ls_mipbuf (loaded env img filename image final) = Some final.
Proof.
  unfold loaded, finish. cbn [ls_mipbuf did with_img]. rewrite copy_profile_mipbuf.
  by destruct (is_cmyk _).
Qed.

Lemma loaded_steps (env : environment float) (img : dt_image_t) (filename : string)
    (image : MagickWand float) (final : float_array float) :
  ls_steps (loaded env img filename image final)
  = ((if exif_inited img then [] else [step_dt_exif_read filename])
    ++ [step_NewMagickWand; step_MagickReadImage filename]
    ++ [step_MagickGetImageWidth; step_MagickGetImageHeight]
    ++ [step_dt_mipmap_cache_alloc]
    ++ [step_MagickGetImageColorspace]
    ++ [step_MagickExportImagePixels 0 0 (columns_of image) (rows_of image)
          (colormap_of image)]
    ++ (if is_cmyk (MagickGetImageColorspace image) then [step_cmyk_to_rgb] else [])
    ++ profile_steps env image
    ++ [step_DestroyMagickWand])%list.
Proof.
  unfold loaded, finish. cbn [ls_steps did with_img]. rewrite copy_profile_steps.
  unfold stage_export, stage_alloc, stage_read, stage_wand.
  destruct (is_cmyk (MagickGetImageColorspace image));
    cbn [ls_steps did with_img with_mipbuf];
    rewrite entered_steps, <- ?app_assoc; reflexivity.
Qed.

Lemma loaded_img (env : environment float) (img : dt_image_t) (filename : string)
    (image : MagickWand float) (final : float_array float) :
  let img1 := profile_copied env image (sized env img filename image) in
  ls_img (loaded env img filename image final)
  = set_loader LOADER_IM
      (set_flags
         (Z.lor (Z.land (Z.land (Z.land (flags img1) (Z.lnot DT_IMAGE_RAW))
                           (Z.lnot DT_IMAGE_S_RAW))
                   (Z.lnot DT_IMAGE_HDR))
            DT_IMAGE_LDR)
         (set_filters 0 (set_cst IOP_CS_RGB img1))).
Proof.
  unfold loaded, finish. cbn [ls_img did with_img]. rewrite copy_profile_img.
  by destruct (is_cmyk (MagickGetImageColorspace image)).
Qed.

(** The array a successful call leaves: on a small image, the exported
    floats, converted when the colorspace is CMY or CMYK *)
Lemma open_im_pixels (env : environment float) (img : dt_image_t)
    (filename : string) (s : loader_state float) :
  dt_imageio_open_im env img filename = Some (DT_IMAGEIO_OK, s) ->
  exists image pixels final,
    MagickReadImage env filename = Some image
    /\ MagickExportImagePixels image 0 0 (columns_of image) (rows_of image)
         (colormap_of image) = Some pixels
    /\ ls_mipbuf s = Some final
    /\ (small_image image ->
        let n := MagickGetImageWidth image * MagickGetImageHeight image * 4 in
        forall i,
          0 <= i < n ->
          fa_get final i
          = Some (if is_cmyk (MagickGetImageColorspace image)
                  then rgb_of_cmyk pixels n i else pixels i)).
Proof.
  intros (image & mipbuf & pixels & exported & final & _ & _ & Hread & _ & Hexport
          & Hinto & Hfix & ->)%dt_imageio_open_im_OK_inv.
  exists image, pixels, final. split; [done|]. split; [done|].
  split; [apply loaded_mipbuf|].
  intros Hsmall n i Hi.
  destruct (small_image_sizes env img filename image Hsmall) as (Hc & Hr & _).
  apply export_into_Some in Hinto as (Hroom & Hsize & Hexported).
  rewrite Hc, Hr, colormap_of_length in Hroom, Hexported. fold n in Hroom, Hexported.
  destruct (fixup_small_image env img filename image exported Hsmall)
    as (final' & Hfix' & Hsize' & Hfinal); [fold n; lia|].
  rewrite Hfix in Hfix'. injection Hfix' as <-. fold n in Hfinal.
  rewrite fa_get_in by lia. f_equal. rewrite Hfinal.
  assert (Hin : forall j, 0 <= j < n -> fa_at exported j = pixels j).
  { intros j Hj. rewrite Hexported.
    by rewrite (proj2 (Z.leb_le 0 j)), (proj2 (Z.ltb_lt j n)) by lia. }
  destruct (is_cmyk (MagickGetImageColorspace image)); [|by apply Hin].
  apply rgb_of_cmyk_exported; [|done|done].
  subst n. by rewrite Z.mod_mul.
Qed.


Lemma flag_cleared_after (word raw sraw hdr ldr flag : Z) :
  flag = raw \/ flag = sraw \/ flag = hdr ->
  Z.land ldr flag = 0%Z ->
  flag_cleared flag
    (Z.lor (Z.land (Z.land (Z.land word (Z.lnot raw)) (Z.lnot sraw)) (Z.lnot hdr)) ldr).
Proof.
  intros Hflag Hldr. unfold flag_cleared. apply Z.bits_inj'. intros n Hn.
  assert (Hbit : (Z.testbit ldr n && Z.testbit flag n)%bool = false)
    by (by rewrite <- Z.land_spec, Hldr, Z.bits_0).
  rewrite Z.land_spec, Z.lor_spec, !Z.land_spec, !Z.lnot_spec, Z.bits_0 by done.
  destruct Hflag as [->|[->| ->]];
    destruct (Z.testbit word n), (Z.testbit raw n), (Z.testbit sraw n),
      (Z.testbit hdr n), (Z.testbit ldr n); done.
Qed.

Lemma flag_set_after (word ldr : Z) : flag_set ldr (Z.lor word ldr).
Proof.
  unfold flag_set. apply Z.bits_inj'. intros n Hn.
  rewrite Z.land_spec, Z.lor_spec.
  by destruct (Z.testbit word n), (Z.testbit ldr n).
Qed.

Lemma profile_copied_frame (env : environment float) (image : MagickWand float)
    (img : dt_image_t) :
  width (profile_copied env image img) = width img
  /\ height (profile_copied env image img) = height img
  /\ buf_dsc (profile_copied env image img) = buf_dsc img
  /\ flags (profile_copied env image img) = flags img.
Proof.
  unfold profile_copied.
  destruct (embedded_profile image) as [data|]; [|done].
  by destruct (g_try_malloc0 env (List.length data)).
Qed.

Lemma sized_frame (env : environment float) (img : dt_image_t) (filename : string)
    (image : MagickWand float) :
  let before := ls_img (entered env img filename) in
  let img1 := sized env img filename image in
  width img1 = to_int (MagickGetImageWidth image)
  /\ height img1 = to_int (MagickGetImageHeight image)
  /\ channels (buf_dsc img1) = 4
  /\ datatype (buf_dsc img1) = TYPE_FLOAT
  /\ cst (buf_dsc img1) = cst (buf_dsc before)
  /\ filters (buf_dsc img1) = filters (buf_dsc before)
  /\ flags img1 = flags before
  /\ loader img1 = loader before
  /\ profile img1 = profile before
  /\ profile_size img1 = profile_size before.
Proof. done. Qed.

(** C4, as amended.  With [DT_IMAGE_LDR] a bit apart from [DT_IMAGE_RAW],
    [DT_IMAGE_S_RAW] and [DT_IMAGE_HDR], a successful call leaves the image
    record in the internal buffer format: width and height are the
    dimensions the library reports, converted to the [int32_t] of the fields
    (and so equal to them when they are below [2 ^ 31]), the buffer
    descriptor has 4 channels of float type, colorspace [IOP_CS_RGB] and
    filters 0, the RAW, S_RAW and HDR flags are cleared, the LDR flag is
    set, and the loader is [LOADER_IM]. *)
Theorem open_im_image_record (env : environment float) (img : dt_image_t)
    (filename : string) (s : loader_state float) :
  Z.land DT_IMAGE_LDR DT_IMAGE_RAW = 0%Z ->
  Z.land DT_IMAGE_LDR DT_IMAGE_S_RAW = 0%Z ->
  Z.land DT_IMAGE_LDR DT_IMAGE_HDR = 0%Z ->
  dt_imageio_open_im env img filename = Some (DT_IMAGEIO_OK, s) ->
  exists image,
    MagickReadImage env filename = Some image
    /\ width (ls_img s) = to_int (MagickGetImageWidth image)
    /\ height (ls_img s) = to_int (MagickGetImageHeight image)
    /\ (0 <= MagickGetImageWidth image < 2 ^ 31 ->
        width (ls_img s) = MagickGetImageWidth image)
    /\ (0 <= MagickGetImageHeight image < 2 ^ 31 ->
        height (ls_img s) = MagickGetImageHeight image)
    /\ buf_dsc (ls_img s)
       = {| channels := 4; datatype := TYPE_FLOAT; cst := IOP_CS_RGB; filters := 0 |}
    /\ flag_cleared DT_IMAGE_RAW (flags (ls_img s))
    /\ flag_cleared DT_IMAGE_S_RAW (flags (ls_img s))
    /\ flag_cleared DT_IMAGE_HDR (flags (ls_img s))
    /\ flag_set DT_IMAGE_LDR (flags (ls_img s))
    /\ loader (ls_img s) = LOADER_IM.
Proof.
  intros Hraw Hsraw Hhdr
    (image & mipbuf & pixels & exported & final & _ & _ & Hread & _ & _ & _ & _ & ->)
    %dt_imageio_open_im_OK_inv.
  exists image. split; [done|].
  rewrite loaded_img. cbv zeta.
  destruct (profile_copied_frame env image (sized env img filename image))
    as (Hw & Hh & Hdsc & _).
  cbn [width height buf_dsc flags loader set_loader set_flags set_filters set_cst
       set_buf_dsc channels datatype cst filters].
  rewrite Hw, Hh, Hdsc.
  destruct (sized_frame env img filename image) as (-> & -> & -> & -> & _).
  repeat split; try done.
  - intros Hsmall. apply to_int_small. lia.
  - intros Hsmall. apply to_int_small. lia.
  - by apply flag_cleared_after; [left|].
  - by apply flag_cleared_after; [right; left|].
  - by apply flag_cleared_after; [right; right|].
  - apply flag_set_after.
Qed.

(** C5, as amended.  On a successful call: when the library reports an "icc"
    profile, or otherwise an "icm" profile, and [g_try_malloc0] allocates its
    length, [img->profile] holds the profile's bytes and [img->profile_size]
    its length; when that allocation fails, [img->profile] is [NULL] and
    [img->profile_size] is as it was; when there is neither profile, both
    are as they were when the loader turned to the library. *)
Theorem open_im_profile (env : environment float) (img : dt_image_t)
    (filename : string) (s : loader_state float) :
  dt_imageio_open_im env img filename = Some (DT_IMAGEIO_OK, s) ->
  exists image,
    MagickReadImage env filename = Some image
    /\ let before := if exif_inited img then img else dt_exif_read env img filename in
       match MagickGetImageProfile image "icc", MagickGetImageProfile image "icm" with
       | Some data, _ | None, Some data =>
           if g_try_malloc0 env (List.length data)
           then profile (ls_img s) = Some data
                /\ profile_size (ls_img s) = List.length data
           else profile (ls_img s) = None
                /\ profile_size (ls_img s) = profile_size before
       | None, None =>
           profile (ls_img s) = profile before
           /\ profile_size (ls_img s) = profile_size before
       end.
Proof.
  intros (image & mipbuf & pixels & exported & final & _ & _ & Hread & _ & _ & _ & _ & ->)
    %dt_imageio_open_im_OK_inv.
  exists image. split; [done|].
  rewrite loaded_img. cbv zeta. unfold sized. rewrite entered_img.
  cbn [profile profile_size set_loader set_flags set_filters set_cst set_buf_dsc].
  unfold profile_copied, embedded_profile.
  destruct (MagickGetImageProfile image "icc") as [data|];
    [|destruct (MagickGetImageProfile image "icm") as [data|]];
    try destruct (g_try_malloc0 env (List.length data)); done.
Qed.

(** C2, as amended.  A file name without a '.', and a file name whose part
    after the last '.' does not begin, letter case aside, with one of the
    whitelisted extensions, makes [dt_imageio_open_im] return
    [DT_IMAGEIO_LOAD_FAILED] with no step taken (the library is not called)
    and with the image record, buffer descriptor and flags included, as it
    was. *)
Theorem open_im_rejects_other_extensions (env : environment float) (img : dt_image_t)
    (filename : string) :
  (has_dot filename = false
   \/ exists stem ext,
        filename = (stem ++ String "." ext)%string
        /\ has_dot ext = false
        /\ existsb (fun e => ci_prefix e ext) whitelisted_extensions = false) ->
  dt_imageio_open_im env img filename
  = Some (DT_IMAGEIO_LOAD_FAILED,
          {| ls_img := img; ls_mipbuf := None; ls_steps := [] |}).
Proof.
  intros Hname. apply dt_imageio_open_im_unsupported.
  destruct Hname as [Hnodot|(stem & ext & -> & Hext & Hnone)].
  - by apply _supported_image_no_dot.
  - by rewrite _supported_image_last_extension.
Qed.
End imageio_im_properties.
(** A PNG file below a directory with a '.' in its name, and a file name
    without any '.', are both turned away untouched. *)
Lemma open_im_rejects_other_extensions_witness :
  @dt_imageio_open_im Z Z_float im7 darktable_flags
    (sample_env (Some (sample_wand sRGBColorspace true)) true true)
    sample_img "/photos/2024.05/scan.png"
  = Some (DT_IMAGEIO_LOAD_FAILED,
          {| ls_img := sample_img; ls_mipbuf := None; ls_steps := [] |})
  /\ @dt_imageio_open_im Z Z_float im7 darktable_flags
       (sample_env (Some (sample_wand sRGBColorspace true)) true true)
       sample_img "README"
     = Some (DT_IMAGEIO_LOAD_FAILED,
             {| ls_img := sample_img; ls_mipbuf := None; ls_steps := [] |}).
Proof.
  split.
  - apply open_im_rejects_other_extensions. right.
    exists "/photos/2024.05/scan", "png". repeat split; reflexivity.
  - apply open_im_rejects_other_extensions. left. reflexivity.
Defined.

(** C2, as stated, fails: "tiffx" does not match a prefix of any whitelisted
    extension (also not of "qoi"), yet "a.tiffx" is taken for a TIFF: the
    library is called, the call succeeds and the flags change. *)
Lemma open_im_accepts_longer_extension :
  has_dot "tiffx" = false
  /\ existsb (fun e => ci_prefix "tiffx" e) (@whitelisted_extensions im7) = false
  /\ exists s,
       @dt_imageio_open_im Z Z_float im7 darktable_flags
         (sample_env (Some (sample_wand sRGBColorspace true)) true true)
         sample_img "a.tiffx"
       = Some (DT_IMAGEIO_OK, s)
       /\ In (step_MagickReadImage "a.tiffx") (ls_steps s)
       /\ flags (ls_img s) <> flags sample_img
       /\ buf_dsc (ls_img s) <> buf_dsc sample_img.
Proof.
  split; [reflexivity|]. split; [reflexivity|].
  eexists. split; [vm_compute; reflexivity|].
  split; [vm_compute; tauto|]. split; vm_compute; discriminate.
Qed.

(** C1.  The claim fails on a CMYK image of 32768 x 32768 pixels, exported
    into an array of [2 ^ 32] floats: the [int] product
    [img->width * img->height * 4] is [2 ^ 32], which wraps around to [0],
    so the conversion loop does not run at all.  The call succeeds, and
    every float of the array is as exported: the first channel of the first
    pixel is still [2], where the conversion [(1 - k) * (1 - c)] of [c = 2]
    with [k = 2] is [1]. *)
Theorem open_im_cmyk_overflow :
  is_cmyk (MagickGetImageColorspace (cmyk_square 32768)) = true
  /\ loop_bound (@sized Z (cmyk_square_env 32768 (2 ^ 32)) sample_img "a.tif"
                   (cmyk_square 32768))
     = 0
  /\ exists s out,
       @dt_imageio_open_im Z Z_float im6 darktable_flags
         (cmyk_square_env 32768 (2 ^ 32)) sample_img "a.tif"
       = Some (DT_IMAGEIO_OK, s)
       /\ ls_mipbuf s = Some out
       /\ (forall i, 0 <= i < 32768 * 32768 * 4 -> fa_get out i = Some 2)
       /\ @rgb_of_cmyk Z Z_float (fun _ => 2) (32768 * 32768 * 4) 0 = 1.
Proof.
  split; [reflexivity|]. split; [reflexivity|].
  assert (Hrun : exists s,
            @dt_imageio_open_im Z Z_float im6 darktable_flags
              (cmyk_square_env 32768 (2 ^ 32)) sample_img "a.tif"
            = Some (DT_IMAGEIO_OK, s)) by (eexists; reflexivity).
  destruct Hrun as [s Hrun]. pose proof Hrun as Hinv.
  apply dt_imageio_open_im_OK_inv in Hinv
    as (image & mipbuf & pixels & exported & final & _ & _ & Hread & Halloc & Hexport
        & Hinto & Hfix & ->).
  injection Hread as <-. injection Halloc as <-. injection Hexport as <-.
  apply export_into_Some in Hinto as (_ & Hsize & Hexported).
  cbn [fa_size] in Hsize.
  unfold fixup in Hfix.
  change (loop_bound _) with 0 in Hfix. injection Hfix as <-.
  eexists _, exported.
  split; [exact Hrun|]. split; [apply loaded_mipbuf|]. split; [|reflexivity].
  intros i Hi.
  rewrite fa_get_in by (rewrite Hsize; lia).
  rewrite Hexported.
  change (columns_of (cmyk_square 32768) * rows_of (cmyk_square 32768)
          * Z.of_nat (String.length (colormap_of (cmyk_square 32768))))
    with (32768 * 32768 * 4).
  by rewrite (proj2 (Z.leb_le 0 i)), (proj2 (Z.ltb_lt i (32768 * 32768 * 4))) by lia.
Qed.



(** The sample record, with the RAW flag set and a stale buffer descriptor,
    after a successful load, for the flag values of darktable *)
Lemma open_im_image_record_witness :
  exists s,
    @dt_imageio_open_im Z Z_float im6 darktable_flags
      (sample_env (Some (sample_wand sRGBColorspace true)) true true)
      sample_img "a.tif"
    = Some (DT_IMAGEIO_OK, s)
    /\ width (ls_img s) = 2
    /\ height (ls_img s) = 1
    /\ buf_dsc (ls_img s)
       = {| channels := 4; datatype := TYPE_FLOAT; cst := IOP_CS_RGB; filters := 0 |}
    /\ flag_cleared 64 (flags (ls_img s))
    /\ flag_cleared 131072 (flags (ls_img s))
    /\ flag_cleared 128 (flags (ls_img s))
    /\ flag_set 32 (flags (ls_img s))
    /\ loader (ls_img s) = LOADER_IM.
Proof.
  eexists. split; [vm_compute; reflexivity|].
  destruct (@open_im_image_record Z Z_float im6 darktable_flags
              (sample_env (Some (sample_wand sRGBColorspace true)) true true)
              sample_img "a.tif" _ eq_refl eq_refl eq_refl eq_refl)
    as (image & Hread & _ & _ & Hw & Hh & Hrest).
  injection Hread as <-.
  split; [exact (Hw ltac:(vm_compute; split; [intros H|]; done))|].
  split; [exact (Hh ltac:(vm_compute; split; [intros H|]; done))|].
  exact Hrest.
Defined.

(** C4, as stated, fails: for an image whose width the library reports as
    [2 ^ 32 + 1], the call is successful and [img->width], an [int32_t], is
    [1]. *)
Lemma open_im_width_truncated :
  MagickGetImageWidth wide_wand = 2 ^ 32 + 1
  /\ exists s,
       @dt_imageio_open_im Z Z_float im6 darktable_flags
         (sample_env (Some wide_wand) true true) sample_img "a.tif"
       = Some (DT_IMAGEIO_OK, s)
       /\ width (ls_img s) = 1
       /\ width (ls_img s) <> MagickGetImageWidth wide_wand.
Proof.
  split; [reflexivity|].
  eexists. split; [vm_compute; reflexivity|].
  split; [reflexivity|]. vm_compute. discriminate.
Qed.

(** The "icm" profile of the sample image is copied when the allocation
    succeeds. *)
Lemma open_im_profile_witness :
  exists s,
    @dt_imageio_open_im Z Z_float im6 darktable_flags
      (sample_env (Some (sample_wand sRGBColorspace true)) true true)
      sample_img "a.tif"
    = Some (DT_IMAGEIO_OK, s)
    /\ profile (ls_img s) = Some [x01; x02]
    /\ profile_size (ls_img s) = 2%nat.
Proof.
  eexists. split; [vm_compute; reflexivity|].
  destruct (@open_im_profile Z Z_float im6 darktable_flags
              (sample_env (Some (sample_wand sRGBColorspace true)) true true)
              sample_img "a.tif" _ eq_refl)
    as (image & Hread & Hrest).
  injection Hread as <-. exact Hrest.
Defined.

(** C5, as stated, fails: the image carries an "icm" profile of two bytes,
    [g_try_malloc0] returns [NULL], and the call still succeeds, with
    [img->profile] [NULL] and [img->profile_size] still [0]. *)
Lemma open_im_profile_allocation_failure :
  MagickGetImageProfile (sample_wand sRGBColorspace true) "icc" = None
  /\ MagickGetImageProfile (sample_wand sRGBColorspace true) "icm" = Some [x01; x02]
  /\ exists s,
       @dt_imageio_open_im Z Z_float im6 darktable_flags
         (sample_env (Some (sample_wand sRGBColorspace true)) true false)
         sample_img "a.tif"
       = Some (DT_IMAGEIO_OK, s)
       /\ profile (ls_img s) = None
       /\ profile_size (ls_img s) = 0%nat.
Proof.
  split; [reflexivity|]. split; [reflexivity|].
  eexists. split; [vm_compute; reflexivity|]. split; reflexivity.
Qed.
(** ** Part V.  Properties of [lighttable.c] *)

Section lighttable_properties.
Context {VM : Type} {VMA : view_manager_api VM}.

(** *** [_lib_lighttable_update_btn] touches the widgets only *)

Lemma update_btn_frame (s : lt_state VM) :
  data (_lib_lighttable_update_btn s) = data s
  /\ view_manager (_lib_lighttable_update_btn s) = view_manager s
  /\ conf (_lib_lighttable_update_btn s) = conf s
  /\ selected_count (_lib_lighttable_update_btn s) = selected_count s.
Proof.
  unfold _lib_lighttable_update_btn.
  destruct (dt_view_lighttable_preview_state (view_manager s));
    destruct (layout (data s) =? DT_LIGHTTABLE_LAYOUT_CULLING_DYNAMIC);
    destruct (layout (data s) =? DT_LIGHTTABLE_LAYOUT_CULLING);
    destruct (layout (data s) =? DT_LIGHTTABLE_LAYOUT_ZOOMABLE);
    cbn; try (destruct (decide _)); done.
Qed.

(** C6.  After [_lib_lighttable_update_btn], exactly one of the five layout
    buttons is active (the list of the active ones among the children of the
    layout box has one element), and it mirrors the state, which the
    function leaves as it is: the preview button when the view manager
    reports full preview, otherwise the culling-dynamic, culling-fixed or
    zoomable button when the layout is that one, and the filemanager button
    for every other layout. *)
Theorem update_btn_one_active (s : lt_state VM) :
  let s' := _lib_lighttable_update_btn s in
  let fullpreview := dt_view_lighttable_preview_state (view_manager s') in
  exists b,
    List.filter (toggle_active (gtk s')) layout_box_children = [b]
    /\ data s' = data s
    /\ view_manager s' = view_manager s
    /\ (fullpreview = true -> b = layout_preview)
    /\ (fullpreview = false ->
        (layout (data s') = DT_LIGHTTABLE_LAYOUT_CULLING_DYNAMIC ->
         b = layout_culling_dynamic)
        /\ (layout (data s') = DT_LIGHTTABLE_LAYOUT_CULLING -> b = layout_culling_fix)
        /\ (layout (data s') = DT_LIGHTTABLE_LAYOUT_ZOOMABLE -> b = layout_zoomable)
        /\ (layout (data s') <> DT_LIGHTTABLE_LAYOUT_CULLING_DYNAMIC ->
            layout (data s') <> DT_LIGHTTABLE_LAYOUT_CULLING ->
            layout (data s') <> DT_LIGHTTABLE_LAYOUT_ZOOMABLE ->
            b = layout_filemanager)).
Proof.
  intros s' fullpreview. subst s' fullpreview.
  destruct (update_btn_frame s) as (-> & -> & _).
  unfold _lib_lighttable_update_btn.
  unfold DT_LIGHTTABLE_LAYOUT_CULLING_DYNAMIC, DT_LIGHTTABLE_LAYOUT_CULLING,
    DT_LIGHTTABLE_LAYOUT_ZOOMABLE.
  destruct (dt_view_lighttable_preview_state (view_manager s));
    destruct (Z.eqb_spec (layout (data s)) 3);
    destruct (Z.eqb_spec (layout (data s)) 2);
    destruct (Z.eqb_spec (layout (data s)) 0);
    cbn; try (destruct (decide _)); cbn;
    eexists; (split; [reflexivity|]); repeat split; intros; congruence.
Qed.

(** *** [_lib_lighttable_set_layout] *)

Lemma set_layout_preview (s : lt_state VM) :
  _lib_lighttable_set_layout s DT_LIGHTTABLE_LAYOUT_PREVIEW
  = _lib_lighttable_update_btn
      (if dt_view_lighttable_preview_state (view_manager s) then s
       else with_view_manager
              (fun vm => dt_view_lighttable_set_preview_state vm true true
                           (fullpreview_focus (data s))
                           DT_LIGHTTABLE_CULLING_RESTRICTION_AUTO) s).
Proof.
  unfold _lib_lighttable_set_layout.
  change (DT_LIGHTTABLE_LAYOUT_PREVIEW =? DT_LIGHTTABLE_LAYOUT_PREVIEW) with true.
  cbn [xorb]. by destruct (dt_view_lighttable_preview_state (view_manager s)).
Qed.

(** What a call with another layout leaves in the module data *)
Lemma set_layout_data (s : lt_state VM) (l : Z) :
  l <> DT_LIGHTTABLE_LAYOUT_PREVIEW ->
  let d' := data (_lib_lighttable_set_layout s l) in
  layout d' = l
  /\ (base_layout d' = base_layout (data s)
      \/ is_base_layout l /\ base_layout d' = l)
  /\ fullpreview_focus d' = fullpreview_focus (data s)
  /\ culling_init_restriction d' = culling_init_restriction (data s).
Proof.
  intros Hl%Z.eqb_neq. unfold _lib_lighttable_set_layout, is_base_layout. rewrite Hl.
  rewrite (proj1 (update_btn_frame _)).
  destruct (xorb _ _); cbn [data with_view_manager with_data];
    (destruct (negb (dt_conf_get_int _ _ =? l));
     [|cbn; by auto]);
    cbn [data with_data layout set_layout];
    destruct (l =? DT_LIGHTTABLE_LAYOUT_CULLING_DYNAMIC);
    destruct (l =? DT_LIGHTTABLE_LAYOUT_CULLING);
    cbn [data with_data current_zoom set_current_zoom];
    try destruct (Z.max _ _ =? 1);
    destruct (Z.eqb_spec l DT_LIGHTTABLE_LAYOUT_FILEMANAGER);
    destruct (Z.eqb_spec l DT_LIGHTTABLE_LAYOUT_ZOOMABLE);
    cbn; auto 6.
Qed.

Lemma set_layout_base_layout (s : lt_state VM) (l : Z) :
  base_layout (data (_lib_lighttable_set_layout s l)) = base_layout (data s)
  \/ is_base_layout l /\ base_layout (data (_lib_lighttable_set_layout s l)) = l.
Proof.
  destruct (Z.eq_dec l DT_LIGHTTABLE_LAYOUT_PREVIEW) as [->|Hl].
  - left. rewrite set_layout_preview, (proj1 (update_btn_frame _)).
    by destruct (dt_view_lighttable_preview_state _).
  - by destruct (set_layout_data s l Hl) as (_ & Hb & _).
Qed.

Lemma set_layout_keeps_base (s : lt_state VM) (l : Z) :
  is_base_layout (base_layout (data s)) ->
  is_base_layout (base_layout (data (_lib_lighttable_set_layout s l))).
Proof.
  intros Hs. destruct (set_layout_base_layout s l) as [->|[Hl ->]]; done.
Qed.

(** C8.  [_lib_lighttable_set_layout] with [DT_LIGHTTABLE_LAYOUT_PREVIEW]
    leaves the module data ([d->layout], [d->base_layout], [d->current_zoom])
    and the whole configuration as they are; it turns the view manager's full
    preview on when it was off, and runs [_lib_lighttable_update_btn]. *)
Theorem set_layout_preview_frame (s : lt_state VM) :
  let s' := _lib_lighttable_set_layout s DT_LIGHTTABLE_LAYOUT_PREVIEW in
  let vm' :=
    if dt_view_lighttable_preview_state (view_manager s) then view_manager s
    else dt_view_lighttable_set_preview_state (view_manager s) true true
           (fullpreview_focus (data s)) DT_LIGHTTABLE_CULLING_RESTRICTION_AUTO in
  layout (data s') = layout (data s)
  /\ base_layout (data s') = base_layout (data s)
  /\ current_zoom (data s') = current_zoom (data s)
  /\ data s' = data s
  /\ conf s' = conf s
  /\ view_manager s' = vm'
  /\ s' = _lib_lighttable_update_btn
            {| data := data s; view_manager := vm'; conf := conf s; gtk := gtk s;
               selected_count := selected_count s; requests := requests s |}.
Proof.
  intros s' vm'. subst s' vm'. rewrite set_layout_preview.
  destruct (update_btn_frame
              (if dt_view_lighttable_preview_state (view_manager s) then s
               else with_view_manager
                      (fun vm => dt_view_lighttable_set_preview_state vm true true
                                   (fullpreview_focus (data s))
                                   DT_LIGHTTABLE_CULLING_RESTRICTION_AUTO) s))
    as (Hd & Hvm & Hconf & _).
  rewrite Hd, Hvm, Hconf.
  destruct s as [d vm c g n r]; cbn [data view_manager conf gtk selected_count requests].
  by destruct (dt_view_lighttable_preview_state vm).
Qed.

(** *** The Lua accessors and the zoom proxy *)

(** C7.  [layout_cb] and [zoom_level_cb] hand the script the value read
    before the call assigns anything: with an argument the state becomes the
    one the setter leaves and the old value is returned; with no argument
    the current value is returned and the state is unchanged.  The value set
    is the one read next (for a layout other than
    [DT_LIGHTTABLE_LAYOUT_PREVIEW], which [_lib_lighttable_set_layout] does
    not store). *)
Theorem lua_accessors_return_old_value (s : lt_state VM) :
  (forall value,
     layout_cb (Some value) s = (layout (data s), _lib_lighttable_set_layout s value)
     /\ (value <> DT_LIGHTTABLE_LAYOUT_PREVIEW ->
         (layout_cb None (layout_cb (Some value) s).2).1 = value))
  /\ layout_cb None s = (layout (data s), s)
  /\ (forall value,
        zoom_level_cb (Some value) s
        = (current_zoom (data s), _lib_lighttable_set_zoom s value)
        /\ (zoom_level_cb None (zoom_level_cb (Some value) s).2).1 = value)
  /\ zoom_level_cb None s = (current_zoom (data s), s).
Proof.
  repeat split.
  intros Hvalue. cbn [layout_cb fst snd _lib_lighttable_get_layout].
  by destruct (set_layout_data s value Hvalue) as (-> & _).
Qed.

(** C10.  [_lib_lighttable_get_zoom] after [_lib_lighttable_set_zoom (self,
    z)] returns [z]; it does so as well when the "value-changed" handler
    runs inside [gtk_spin_button_set_value], before [d->current_zoom] is
    assigned. *)
Theorem set_zoom_get_zoom (s : lt_state VM) (z : Z) :
  _lib_lighttable_get_zoom (_lib_lighttable_set_zoom s z) = z
  /\ _lib_lighttable_get_zoom
       (with_data (set_current_zoom z)
          (_lib_lighttable_zoom_slider_changed (gtk_spin_button_set_value z s)))
     = z.
Proof.
  split.
  - unfold _lib_lighttable_set_zoom, _lib_lighttable_get_zoom. reflexivity.
  - unfold _lib_lighttable_get_zoom. reflexivity.
Qed.

(** *** The base layout *)

Ltac keep_base_step :=
  first
    [ assumption
    | rewrite (proj1 (update_btn_frame _))
    | apply set_layout_keeps_base
    | progress cbn [data with_data with_view_manager with_conf with_gtk request
                    base_layout set_fullpreview_focus set_culling_init_restriction
                    set_current_zoom dt_control_queue_redraw_center dt_conf_set_int
                    gtk_spin_button_set_value fst snd]
    | match goal with
      | |- context [if ?c then _ else _] => destruct c
      | |- context [match ?c with Some _ => _ | None => _ end] => destruct c
      end ].

Lemma run_operation_keeps_base (o : operation) (s : lt_state VM) :
  is_base_layout (base_layout (data s)) ->
  is_base_layout (base_layout (data (run_operation o s))).
Proof.
  intros Hs.
  destruct o; cbn [run_operation];
    unfold _lib_lighttable_layout_btn_release, _lib_lighttable_restricted_btn_release,
      _lib_lighttable_key_accel_toggle_filemanager,
      _lib_lighttable_key_accel_toggle_zoomable,
      _lib_lighttable_key_accel_toggle_culling_dynamic_mode,
      _lib_lighttable_key_accel_toggle_culling_zoom_mode,
      _lib_lighttable_key_accel_toggle_restricted_mode,
      _lib_lighttable_key_accel_exit_layout,
      _action_process_culling, _action_process_preview,
      _lib_lighttable_zoom_slider_changed, _set_zoom, _lib_lighttable_set_zoom,
      layout_cb, zoom_level_cb, _lib_lighttable_restricted_btn_release;
    repeat keep_base_step.
Qed.

Lemma run_keeps_base (ops : list operation) (s : lt_state VM) :
  is_base_layout (base_layout (data s)) ->
  is_base_layout (base_layout (data (run ops s))).
Proof.
  revert s. induction ops as [|o ops IH]; intros s Hs; [done|].
  cbn [run foldl]. apply IH. by apply run_operation_keeps_base.
Qed.

Lemma is_base_layout_not_preview (l : Z) :
  is_base_layout l -> l <> DT_LIGHTTABLE_LAYOUT_PREVIEW.
Proof. by intros [-> | ->]. Qed.

(** C9, as amended.  [_lib_lighttable_set_layout] writes [d->base_layout]
    only when the new layout is [DT_LIGHTTABLE_LAYOUT_FILEMANAGER] or
    [DT_LIGHTTABLE_LAYOUT_ZOOMABLE], and then with that layout.  Hence a base
    layout that is one of the two stays one of the two after any sequence of
    operations, and leaving a culling layout (by releasing its active
    button, by the culling accelerator, or by the exit accelerator outside
    the preview) ends in that filemanager or zoomable layout.  Leaving the
    preview by its active button ends in the stored layout [d->layout],
    whichever it is. *)
Theorem base_layout_invariant (s : lt_state VM) :
  (forall l,
     base_layout (data (_lib_lighttable_set_layout s l)) = base_layout (data s)
     \/ is_base_layout l /\ base_layout (data (_lib_lighttable_set_layout s l)) = l)
  /\ (is_base_layout (base_layout (data s)) ->
      (forall ops, is_base_layout (base_layout (data (run ops s))))
      /\ (forall w ctrl,
            w = layout_culling_dynamic \/ w = layout_culling_fix ->
            gtk_toggle_button_get_active s w = true ->
            layout (data (_lib_lighttable_layout_btn_release w ctrl s))
            = base_layout (data s))
      /\ (layout (data s) = DT_LIGHTTABLE_LAYOUT_CULLING
          \/ layout (data s) = DT_LIGHTTABLE_LAYOUT_CULLING_DYNAMIC ->
          layout (data (_lib_lighttable_key_accel_toggle_culling_dynamic_mode s))
          = base_layout (data s)
          /\ (dt_view_lighttable_preview_state (view_manager s) = false ->
              layout (data (_lib_lighttable_key_accel_exit_layout s))
              = base_layout (data s))))
  /\ (forall ctrl,
        gtk_toggle_button_get_active s layout_preview = true ->
        layout (data (_lib_lighttable_layout_btn_release layout_preview ctrl s))
        = layout (data s)).
Proof.
  split; [apply set_layout_base_layout|]. split.
  - intros Hbase. pose proof (is_base_layout_not_preview _ Hbase) as Hnp.
    split; [intros ops; by apply run_keeps_base|]. split.
    + intros w ctrl Hw Hactive. unfold _lib_lighttable_layout_btn_release.
      rewrite Hactive. cbn [negb].
      destruct Hw as [-> | ->];
        (destruct (decide (_ = layout_preview)) as [|_]; [done|]);
        (destruct (decide (_ \/ _)) as [_|Hn]; [|exfalso; apply Hn; auto]);
        by destruct (set_layout_data s _ Hnp) as (-> & _).
    + intros Hculling. split.
      * unfold _lib_lighttable_key_accel_toggle_culling_dynamic_mode.
        replace (negb (layout (data s) =? DT_LIGHTTABLE_LAYOUT_CULLING)
                 && negb (layout (data s) =? DT_LIGHTTABLE_LAYOUT_CULLING_DYNAMIC))%bool
          with false by (by destruct Hculling as [-> | ->]).
        cbn [data dt_control_queue_redraw_center request].
        by destruct (set_layout_data s _ Hnp) as (-> & _).
      * intros Hpreview. unfold _lib_lighttable_key_accel_exit_layout.
        rewrite Hpreview.
        destruct (Z.eqb_spec (layout (data s)) (base_layout (data s))) as [Heq|_];
          cbn [negb]; [done|].
        by destruct (set_layout_data s _ Hnp) as (-> & _).
  - intros ctrl Hactive. unfold _lib_lighttable_layout_btn_release.
    rewrite Hactive. cbn [negb].
    destruct (decide (layout_preview = layout_preview)) as [_|]; [|done].
    destruct (Z.eq_dec (layout (data s)) DT_LIGHTTABLE_LAYOUT_PREVIEW) as [Hp|Hp].
    + rewrite Hp at 1. rewrite set_layout_preview, (proj1 (update_btn_frame _)).
      by destruct (dt_view_lighttable_preview_state _).
    + by destruct (set_layout_data s _ Hp) as (-> & _).
Qed.

End lighttable_properties.

(** With the preview shown over the culling layout the preview button is
    the active one; in the culling layout without preview it is the
    culling button. *)
Lemma update_btn_one_active_witness :
  List.filter
    (toggle_active
       (gtk (@_lib_lighttable_update_btn simple_view_manager simple_view_manager_api
               culling_preview_lighttable)))
    layout_box_children
  = [layout_preview]
  /\ List.filter
       (toggle_active
          (gtk (@_lib_lighttable_update_btn simple_view_manager simple_view_manager_api
                  culling_lighttable)))
       layout_box_children
     = [layout_culling_fix].
Proof.
  split.
  - destruct (@update_btn_one_active simple_view_manager simple_view_manager_api
                culling_preview_lighttable) as (b & Hone & _ & _ & Hpreview & _).
    rewrite Hone. f_equal. apply Hpreview. reflexivity.
  - destruct (@update_btn_one_active simple_view_manager simple_view_manager_api
                culling_lighttable) as (b & Hone & _ & _ & _ & Hlayout).
    rewrite Hone. f_equal.
    destruct (Hlayout eq_refl) as (_ & Hculling & _). apply Hculling. reflexivity.
Defined.

(** A script that sets the zoomable layout in the filemanager layout gets
    the filemanager layout back and reads the zoomable layout next; setting
    the zoom to 7 returns the 5 it was. *)
Lemma lua_accessors_return_old_value_witness :
  (@layout_cb simple_view_manager simple_view_manager_api
     (Some DT_LIGHTTABLE_LAYOUT_ZOOMABLE) sample_lighttable).1
  = DT_LIGHTTABLE_LAYOUT_FILEMANAGER
  /\ (@layout_cb simple_view_manager simple_view_manager_api None
        (@layout_cb simple_view_manager simple_view_manager_api
           (Some DT_LIGHTTABLE_LAYOUT_ZOOMABLE) sample_lighttable).2).1
     = DT_LIGHTTABLE_LAYOUT_ZOOMABLE
  /\ (@zoom_level_cb simple_view_manager (Some 7)
        sample_lighttable).1 = 5.
Proof.
  destruct (@lua_accessors_return_old_value simple_view_manager simple_view_manager_api
              sample_lighttable) as (Hlayout & _ & Hzoom & _).
  split; [|split].
  - by rewrite (proj1 (Hlayout DT_LIGHTTABLE_LAYOUT_ZOOMABLE)).
  - apply (proj2 (Hlayout DT_LIGHTTABLE_LAYOUT_ZOOMABLE)). discriminate.
  - by rewrite (proj1 (Hzoom 7)).
Defined.

(** The base layout stays filemanager or zoomable along a sequence of
    operations, and the release of the active culling button leads back to
    the filemanager layout. *)
Lemma base_layout_invariant_witness :
  is_base_layout
    (base_layout
       (data (@run simple_view_manager simple_view_manager_api
                [op_layout_btn_release layout_culling_dynamic true;
                 op_set_layout DT_LIGHTTABLE_LAYOUT_PREVIEW;
                 op_key_accel_exit_layout; op_key_accel_toggle_zoomable]
                sample_lighttable)))
  /\ layout
       (data (@_lib_lighttable_layout_btn_release simple_view_manager
                simple_view_manager_api layout_culling_fix false culling_lighttable))
     = DT_LIGHTTABLE_LAYOUT_FILEMANAGER.
Proof.
  split.
  - apply (proj1 (proj1 (proj2 (@base_layout_invariant simple_view_manager
                                   simple_view_manager_api sample_lighttable))
                   (or_introl eq_refl))).
  - apply (proj1 (proj2 (proj1 (proj2 (@base_layout_invariant simple_view_manager
                                          simple_view_manager_api culling_lighttable))
                          (or_introl eq_refl)))
             layout_culling_fix false (or_intror eq_refl) eq_refl).
Defined.

(** C9, as stated, fails in its last part: with the filemanager as base
    layout, the culling layout entered and the preview shown over it, the
    release of the active preview button leaves the preview for the culling
    layout, not for a filemanager or zoomable layout. *)
Lemma exit_preview_returns_to_culling :
  is_base_layout (base_layout (data culling_preview_lighttable))
  /\ vm_preview (view_manager culling_preview_lighttable) = true
  /\ toggle_active (gtk culling_preview_lighttable) layout_preview = true
  /\ vm_preview
       (view_manager
          (@_lib_lighttable_layout_btn_release simple_view_manager
             simple_view_manager_api layout_preview false culling_preview_lighttable))
     = false
  /\ layout
       (data
          (@_lib_lighttable_layout_btn_release simple_view_manager
             simple_view_manager_api layout_preview false culling_preview_lighttable))
     = DT_LIGHTTABLE_LAYOUT_CULLING
  /\ ~ is_base_layout
         (layout
            (data
               (@_lib_lighttable_layout_btn_release simple_view_manager
                  simple_view_manager_api layout_preview false
                  culling_preview_lighttable))).
Proof.
  split; [by left|]. repeat (split; [reflexivity|]).
  intros [Hl|Hl]; vm_compute in Hl; discriminate.
Qed.

(** ** Part VI.  Further properties of [imageio_im.c] *)

(** *** [_supported_image] *)

Lemma TOLOWER_dot (c : ascii) : TOLOWER c = "."%char -> c = "."%char.
Proof.
  unfold TOLOWER.
  destruct (_ && _)%bool eqn:Hup; [|done].
  apply andb_true_iff in Hup as [Hlo%Nat.leb_le Hhi%Nat.leb_le].
  intros Hz. exfalso.
  assert (Hn : nat_of_ascii (ascii_of_nat (nat_of_ascii c - 65 + 97))
               = nat_of_ascii ".") by (by rewrite Hz).
  rewrite nat_ascii_embedding in Hn by lia.
  change (nat_of_ascii ".") with 46%nat in Hn. lia.
Qed.

Section recasing.
Variable f : ascii -> ascii.
Hypothesis f_case : forall c, TOLOWER (f c) = TOLOWER c.

Lemma recase_dot (c : ascii) : Ascii.eqb (f c) "." = Ascii.eqb c ".".
Proof.
  destruct (Ascii.eqb_spec c ".") as [->|Hc].
  - apply Ascii.eqb_eq, TOLOWER_dot. by rewrite f_case.
  - apply Ascii.eqb_neq. intros Hf. apply Hc, TOLOWER_dot.
    by rewrite <- f_case, Hf.
Qed.

Lemma strrstr_scan_recase (s : string) :
  strrstr_scan (string_map f s) "." = string_map f <$> strrstr_scan s ".".
Proof.
  induction s as [|c s IH]; [done|].
  cbn [string_map strrstr_scan found_at]. rewrite IH, recase_dot.
  destruct (strrstr_scan s "."); [done|]. cbn.
  by destruct (Ascii.eqb c ".").
Qed.

Lemma ci_prefix_recase (e ext : string) :
  ci_prefix e (string_map f ext) = ci_prefix e ext.
Proof.
  revert ext. induction e as [|a e IH]; intros [|b ext]; try done.
  cbn [string_map ci_prefix]. by rewrite f_case, IH.
Qed.

Lemma whitelist_loop_ci (ext : string) (l : list string) :
  forallb (fun e => negb (has_nul e)) l = true ->
  whitelist_loop (string_map f ext) l = whitelist_loop ext l.
Proof.
  intros Hl. rewrite !whitelist_loop_existsb by done.
  induction l as [|e l IH]; [done|]. cbn [existsb].
  apply andb_true_iff in Hl as [_ Hl]. by rewrite ci_prefix_recase, IH.
Qed.

Lemma _supported_image_recase `{build_config} (filename : string) :
  _supported_image (string_map f filename) = _supported_image filename.
Proof.
  unfold _supported_image, g_strrstr. cbn [String.length Nat.eqb].
  rewrite strrstr_scan_recase.
  destruct (strrstr_scan filename ".") as [p|]; [|done].
  cbn [fmap option_fmap option_map].
  replace (next (string_map f p)) with (string_map f (next p)) by (by destruct p).
  rewrite whitelist_loop_ci by reflexivity.
  change 3%nat with (String.length "qoi").
  by rewrite !(g_ascii_strncasecmp_ci_prefix "qoi") , ci_prefix_recase by reflexivity.
Qed.

End recasing.

Lemma ascii_toupper_case (c : ascii) : TOLOWER (ascii_toupper c) = TOLOWER c.
Proof. by destruct c as [[] [] [] [] [] [] [] []]. Qed.

Lemma TOLOWER_idem (c : ascii) : TOLOWER (TOLOWER c) = TOLOWER c.
Proof. by destruct c as [[] [] [] [] [] [] [] []]. Qed.

(** X1.  For a file name with a '.', [_supported_image] looks at nothing but
    the part after the last '.': the name is supported exactly when that
    part begins, letter case aside, with a whitelisted extension, whatever
    stands before the '.' and whatever follows the extension. *)
Theorem supported_image_characterised `{build_config} (stem ext : string) :
  has_dot ext = false ->
  (_supported_image (stem ++ String "." ext) = true
   <-> exists e, In e whitelisted_extensions /\ ci_prefix e ext = true).
Proof.
  intros Hext. rewrite _supported_image_last_extension by done.
  rewrite existsb_exists. done.
Qed.

(** X2.  [_supported_image] does not depend on letter case: changing the
    case of any characters of the file name (by the upper-case map, the
    lower-case map, or any map that keeps each character up to its case)
    leaves the answer as it is. *)
Theorem supported_image_case_insensitive `{build_config} (filename : string) :
  _supported_image (string_map ascii_toupper filename) = _supported_image filename
  /\ _supported_image (string_map TOLOWER filename) = _supported_image filename
  /\ forall f, (forall c, TOLOWER (f c) = TOLOWER c) ->
       _supported_image (string_map f filename) = _supported_image filename.
Proof.
  split; [|split].
  - apply _supported_image_recase, ascii_toupper_case.
  - apply _supported_image_recase, TOLOWER_idem.
  - intros f Hf. by apply _supported_image_recase.
Qed.

(** X3.  The ImageMagick 7 build supports every file name the ImageMagick 6
    build supports, and besides those exactly the names whose part after
    the last '.' begins with "qoi", letter case aside. *)
Theorem supported_image_imagemagick7 (filename : string) :
  (@_supported_image im6 filename = true -> @_supported_image im7 filename = true)
  /\ forall stem ext,
       filename = (stem ++ String "." ext)%string -> has_dot ext = false ->
       @_supported_image im7 filename
       = (@_supported_image im6 filename || ci_prefix "qoi" ext)%bool.
Proof.
  split.
  - unfold _supported_image. destruct (g_strrstr filename "."); [|done].
    cbn [HAVE_IMAGEMAGICK7 im6 im7]. by intros ->.
  - intros stem ext -> Hext.
    rewrite !_supported_image_last_extension by done.
    unfold whitelisted_extensions. cbn [HAVE_IMAGEMAGICK7 im6 im7].
    rewrite !existsb_app. cbn [existsb]. by rewrite !orb_false_r.
Qed.
Lemma supported_image_characterised_witness :
  @_supported_image im6 "/scans.2024/Plate.TIFfany" = true
  /\ @_supported_image im6 "/scans.tif/plate" = true.
Proof.
  split.
  - apply (proj2 (@supported_image_characterised im6 "/scans.2024/Plate" "TIFfany" eq_refl)).
    exists "tiff". split; [left; reflexivity|reflexivity].
  - apply (proj2 (@supported_image_characterised im6 "/scans" "tif/plate" eq_refl)).
    exists "tif". split; [right; left; reflexivity|reflexivity].
Defined.

Lemma supported_image_case_insensitive_witness :
  @_supported_image im6 "A.WEBP" = @_supported_image im6 "a.WeBp".
Proof.
  destruct (@supported_image_case_insensitive im6 "a.WeBp") as (Hup & _ & _).
  exact Hup.
Defined.

Lemma supported_image_imagemagick7_witness :
  @_supported_image im7 "icon.QOI" = true.
Proof.
  rewrite (proj2 (supported_image_imagemagick7 "icon.QOI") "icon" "QOI" eq_refl eq_refl).
  reflexivity.
Defined.

(** *** Every run of the loader *)

Section imageio_im_runs.
Context {float : Type} {FO : float_ops float} {BC : build_config} {IF : image_flags}.

(** The ways a call can go, each with the state it returns *)
Lemma dt_imageio_open_im_cases (env : environment float) (img : dt_image_t)
    (filename : string) :
  let run := dt_imageio_open_im env img filename in
  (_supported_image filename = false
   /\ run = Some (DT_IMAGEIO_LOAD_FAILED,
                  {| ls_img := img; ls_mipbuf := None; ls_steps := [] |}))
  \/ (_supported_image filename = true /\ NewMagickWand env = false
      /\ run = Some (DT_IMAGEIO_LOAD_FAILED,
                     did step_DestroyMagickWand (stage_wand env img filename)))
  \/ (_supported_image filename = true /\ NewMagickWand env = true
      /\ MagickReadImage env filename = None
      /\ run = Some (DT_IMAGEIO_FILE_NOT_FOUND,
                     did step_DestroyMagickWand (stage_read env img filename)))
  \/ (exists image,
        _supported_image filename = true /\ NewMagickWand env = true
        /\ MagickReadImage env filename = Some image
        /\ dt_mipmap_cache_alloc env (sized env img filename image) = None
        /\ run = Some (DT_IMAGEIO_CACHE_FULL,
                       did step_DestroyMagickWand (stage_alloc env img filename image)))
  \/ (exists image mipbuf,
        _supported_image filename = true /\ NewMagickWand env = true
        /\ MagickReadImage env filename = Some image
        /\ dt_mipmap_cache_alloc env (sized env img filename image) = Some mipbuf
        /\ MagickExportImagePixels image 0 0 (columns_of image) (rows_of image)
             (colormap_of image) = None
        /\ run = Some (DT_IMAGEIO_LOAD_FAILED,
                       did step_DestroyMagickWand
                         (stage_export env img filename image mipbuf)))
  \/ (exists image mipbuf pixels,
        _supported_image filename = true /\ NewMagickWand env = true
        /\ MagickReadImage env filename = Some image
        /\ dt_mipmap_cache_alloc env (sized env img filename image) = Some mipbuf
        /\ MagickExportImagePixels image 0 0 (columns_of image) (rows_of image)
             (colormap_of image) = Some pixels
        /\ (export_into pixels (columns_of image) (rows_of image) (colormap_of image)
              mipbuf = None
            \/ exists exported,
                 export_into pixels (columns_of image) (rows_of image)
                   (colormap_of image) mipbuf = Some exported
                 /\ fixup env img filename image exported = None)
        /\ run = None)
  \/ (exists image mipbuf pixels exported final,
        _supported_image filename = true /\ NewMagickWand env = true
        /\ MagickReadImage env filename = Some image
        /\ dt_mipmap_cache_alloc env (sized env img filename image) = Some mipbuf
        /\ MagickExportImagePixels image 0 0 (columns_of image) (rows_of image)
             (colormap_of image) = Some pixels
        /\ export_into pixels (columns_of image) (rows_of image) (colormap_of image)
             mipbuf = Some exported
        /\ fixup env img filename image exported = Some final
        /\ run = Some (DT_IMAGEIO_OK, loaded env img filename image final)).
Proof.
  intros run. subst run. rewrite dt_imageio_open_im_stages.
  destruct (_supported_image filename); cbn [negb]; [|by left].
  right.
  destruct (NewMagickWand env); cbn [negb]; [|by left].
  right.
  destruct (MagickReadImage env filename) as [image|]; [|by left].
  right.
  destruct (dt_mipmap_cache_alloc env _) as [mipbuf|] eqn:Halloc;
    [|left; by exists image].
  right.
  destruct (MagickExportImagePixels image 0 0 _ _ _) as [pixels|] eqn:Hexport;
    [|left; by exists image, mipbuf].
  right.
  destruct (export_into pixels _ _ _ mipbuf) as [exported|] eqn:Hinto.
  2:{ left. exists image, mipbuf, pixels. repeat split; try done. by left. }
  destruct (fixup env img filename image exported) as [final|] eqn:Hfix.
  - right. by exists image, mipbuf, pixels, exported, final.
  - left. exists image, mipbuf, pixels. repeat split; try done.
    right. by exists exported.
Qed.

(** With room for the floats of a small image, the export and the
    conversion pass stay inside the array. *)
Lemma well_sized_run (env : environment float) (img : dt_image_t) (filename : string)
    (image : MagickWand float) (mipbuf : float_array float) (pixels : Z -> float) :
  well_sized env img filename ->
  MagickReadImage env filename = Some image ->
  dt_mipmap_cache_alloc env (sized env img filename image) = Some mipbuf ->
  exists exported final,
    export_into pixels (columns_of image) (rows_of image) (colormap_of image) mipbuf
    = Some exported
    /\ fixup env img filename image exported = Some final.
Proof.
  intros Hsized Hread Halloc.
  destruct (Hsized image Hread) as [Hsmall Hroom]. specialize (Hroom mipbuf Halloc).
  destruct (small_image_sizes env img filename image Hsmall) as (Hc & Hr & _).
  destruct (export_into pixels (columns_of image) (rows_of image) (colormap_of image)
              mipbuf) as [exported|] eqn:Hinto.
  - apply export_into_Some in Hinto as (_ & Hsize & _).
    destruct (fixup_small_image env img filename image exported Hsmall)
      as (final & Hfix & _); [cbv zeta; lia|]. by exists exported, final.
  - exfalso. revert Hinto. unfold export_into.
    rewrite Hc, Hr, colormap_of_length.
    by rewrite (proj2 (Z.leb_le _ _) Hroom).
Qed.

(** X4.  The call has a defined result when the file holds a small image
    (dimensions and [width * height * 4] within the range of [int]) and the
    array the mipmap cache hands out has room for its floats; it has none
    when the pixels are exported into an array with less room than
    [columns * rows * 4] floats, and none when the image is CMY or CMYK and
    the bound of the conversion loop, the [int] product
    [width * height * 4] taken as a [size_t], lies beyond the array. *)
Theorem open_im_defined_result (env : environment float) (img : dt_image_t)
    (filename : string) :
  (well_sized env img filename ->
   exists r s, dt_imageio_open_im env img filename = Some (r, s))
  /\ (forall image mipbuf pixels,
        _supported_image filename = true -> NewMagickWand env = true ->
        MagickReadImage env filename = Some image ->
        dt_mipmap_cache_alloc env (sized env img filename image) = Some mipbuf ->
        MagickExportImagePixels image 0 0 (columns_of image) (rows_of image)
          (colormap_of image) = Some pixels ->
        (fa_size mipbuf < columns_of image * rows_of image * 4 ->
         dt_imageio_open_im env img filename = None)
        /\ (is_cmyk (MagickGetImageColorspace image) = true ->
            0 <= fa_size mipbuf -> fa_size mipbuf + 3 < 2 ^ 64 ->
            fa_size mipbuf < loop_bound (sized env img filename image) ->
            dt_imageio_open_im env img filename = None)).
Proof.
  split.
  - intros Hsized.
    destruct (dt_imageio_open_im_cases env img filename)
      as [(_ & ->)|[(_ & _ & ->)|[(_ & _ & _ & ->)|[(image & _ & _ & _ & _ & ->)
         |[(image & mipbuf & _ & _ & _ & _ & _ & ->)
         |[(image & mipbuf & pixels & _ & _ & Hread & Halloc & _ & Hnone & _)
          |(image & mipbuf & pixels & exported & final & _ & _ & _ & _ & _ & _ & _
            & ->)]]]]]]; try by eexists _, _.
    destruct (well_sized_run env img filename image mipbuf pixels Hsized Hread Halloc)
      as (exported & final & Hinto & Hfix).
    destruct Hnone as [Hnone|(exported' & Hinto' & Hnone)]; congruence.
  - intros image mipbuf pixels Hsupp Hwand Hread Halloc Hexport.
    rewrite dt_imageio_open_im_stages, Hsupp, Hwand, Hread, Halloc, Hexport.
    cbn [negb]. split.
    + intros Hroom. unfold export_into. rewrite colormap_of_length.
      by rewrite (proj2 (Z.leb_gt _ _) Hroom).
    + intros Hcmyk Hsize Hmax Hbound.
      destruct (export_into pixels _ _ _ mipbuf) as [exported|] eqn:Hinto; [|done].
      apply export_into_Some in Hinto as (_ & Hsize' & _).
      unfold fixup. rewrite Hcmyk, cmyk_loop_escapes; [done|lia..].
Qed.

Lemma returns_iff (env : environment float) (img : dt_image_t) (filename : string)
    (r r0 : dt_imageio_retval_t) (s0 : loader_state float) :
  dt_imageio_open_im env img filename = Some (r0, s0) ->
  returns env img filename r <-> r0 = r.
Proof.
  intros Hrun. unfold returns. rewrite Hrun. split.
  - by intros [s [= -> _]].
  - intros ->. by exists s0.
Qed.

(** X5.  When the file holds a small image for whose floats the array of
    the mipmap cache has room, the result code tells the stage at which the
    call ended, and the other way round: [DT_IMAGEIO_OK] exactly when the
    extension is supported, the wand exists, the file is read, the buffer is
    allocated and the pixels are exported; [DT_IMAGEIO_FILE_NOT_FOUND]
    exactly when the read fails; [DT_IMAGEIO_CACHE_FULL] exactly when the
    allocation fails after a successful read; [DT_IMAGEIO_LOAD_FAILED] in
    the three remaining cases: unsupported extension, no wand, failed
    export. *)
Theorem open_im_result_code (env : environment float) (img : dt_image_t)
    (filename : string) :
  well_sized env img filename ->
  (returns env img filename DT_IMAGEIO_OK
   <-> _supported_image filename = true /\ NewMagickWand env = true
       /\ exists image,
            MagickReadImage env filename = Some image
            /\ dt_mipmap_cache_alloc env (sized env img filename image) <> None
            /\ MagickExportImagePixels image 0 0 (columns_of image) (rows_of image)
                 (colormap_of image) <> None)
  /\ (returns env img filename DT_IMAGEIO_FILE_NOT_FOUND
      <-> _supported_image filename = true /\ NewMagickWand env = true
          /\ MagickReadImage env filename = None)
  /\ (returns env img filename DT_IMAGEIO_CACHE_FULL
      <-> _supported_image filename = true /\ NewMagickWand env = true
          /\ exists image,
               MagickReadImage env filename = Some image
               /\ dt_mipmap_cache_alloc env (sized env img filename image) = None)
  /\ (returns env img filename DT_IMAGEIO_LOAD_FAILED
      <-> _supported_image filename = false
          \/ NewMagickWand env = false
          \/ exists image,
               MagickReadImage env filename = Some image
               /\ dt_mipmap_cache_alloc env (sized env img filename image) <> None
               /\ MagickExportImagePixels image 0 0 (columns_of image) (rows_of image)
                    (colormap_of image) = None).
Proof.
  intros Hsized.
  destruct (dt_imageio_open_im_cases env img filename)
    as [(Hs & Hrun)|[(Hs & Hw & Hrun)|[(Hs & Hw & Hr & Hrun)
       |[(image & Hs & Hw & Hr & Hc & Hrun)
       |[(image & mipbuf & Hs & Hw & Hr & Hc & He & Hrun)
       |[(image & mipbuf & pixels & Hs & Hw & Hr & Hc & He & Hnone & Hrun)
        |(image & mipbuf & pixels & exported & final & Hs & Hw & Hr & Hc & He & _ & _
          & Hrun)]]]]]].
  6:{ exfalso.
      destruct (well_sized_run env img filename image mipbuf pixels Hsized Hr Hc)
        as (exported & final & Hinto & Hfix).
      destruct Hnone as [Hnone|(exported' & Hinto' & Hnone)]; congruence. }
  all: clear Hsized; cbv zeta in Hrun; rewrite !(returns_iff _ _ _ _ _ _ Hrun);
    clear Hrun;
    repeat split; intros;
    repeat match goal with
           | H : _ /\ _ |- _ => destruct H
           | H : exists _, _ |- _ => destruct H
           | H : _ \/ _ |- _ => destruct H
           end;
    try discriminate; try congruence;
    try (first [ by left | by (right; left)
               | right; right; exists image; repeat split; congruence
               | exists image; repeat split; congruence ]).
Qed.

Lemma profile_steps_wand (env : environment float) (image : MagickWand float) :
  ~ In step_NewMagickWand (profile_steps env image)
  /\ ~ In step_DestroyMagickWand (profile_steps env image).
Proof.
  unfold profile_steps, embedded_profile.
  destruct (MagickGetImageProfile image "icc") as [data|];
    [|destruct (MagickGetImageProfile image "icm") as [data|]];
    try destruct (g_try_malloc0 env (List.length data));
    cbn; intuition discriminate.
Qed.

(** X6.  The wand is created once and destroyed once on every path that
    passes the extension check: the steps are the EXIF read when the record
    lacks it, then [NewMagickWand], then steps that neither create nor
    destroy a wand, then [DestroyMagickWand] as the last step, whatever the
    result code; [DestroyMagickWand] is also called when [NewMagickWand]
    returned [NULL].  A call that fails the extension check takes no step. *)
Theorem open_im_wand_lifecycle (env : environment float) (img : dt_image_t)
    (filename : string) (r : dt_imageio_retval_t) (s : loader_state float) :
  dt_imageio_open_im env img filename = Some (r, s) ->
  (_supported_image filename = false -> ls_steps s = [])
  /\ (_supported_image filename = true ->
      exists middle,
        ls_steps s
        = ((if exif_inited img then [] else [step_dt_exif_read filename])
           ++ [step_NewMagickWand] ++ middle ++ [step_DestroyMagickWand])%list
        /\ ~ In step_NewMagickWand middle
        /\ ~ In step_DestroyMagickWand middle
        /\ (NewMagickWand env = false -> middle = [])).
Proof.
  intros Hrun.
  destruct (dt_imageio_open_im_cases env img filename)
    as [(Hs & Hrun')|[(Hs & Hw & Hrun')|[(Hs & Hw & Hr & Hrun')
       |[(image & Hs & Hw & Hr & Hc & Hrun')
       |[(image & mipbuf & Hs & Hw & Hr & Hc & He & Hrun')
       |[(image & mipbuf & pixels & Hs & Hw & Hr & Hc & He & _ & Hrun')
        |(image & mipbuf & pixels & exported & final & Hs & Hw & Hr & Hc & He & _ & _
          & Hrun')]]]]]];
    cbv zeta in Hrun'; rewrite Hrun' in Hrun; try discriminate Hrun;
    injection Hrun as <- <-;
    (split; [intros; try done; congruence|]); intros Hs'; try congruence.
  - exists []. unfold stage_wand. cbn [ls_steps did]. rewrite entered_steps.
    rewrite <- !app_assoc. repeat split; try congruence; cbn; intuition discriminate.
  - exists [step_MagickReadImage filename].
    unfold stage_read, stage_wand. cbn [ls_steps did]. rewrite entered_steps.
    rewrite <- !app_assoc. repeat split; try congruence; cbn; intuition discriminate.
  - exists [step_MagickReadImage filename; step_MagickGetImageWidth;
            step_MagickGetImageHeight; step_dt_mipmap_cache_alloc].
    unfold stage_alloc, stage_read, stage_wand.
    cbn [ls_steps did with_img]. rewrite entered_steps.
    rewrite <- !app_assoc. repeat split; try congruence; cbn; intuition discriminate.
  - exists [step_MagickReadImage filename; step_MagickGetImageWidth;
            step_MagickGetImageHeight; step_dt_mipmap_cache_alloc;
            step_MagickGetImageColorspace;
            step_MagickExportImagePixels 0 0 (columns_of image) (rows_of image)
              (colormap_of image)].
    unfold stage_export, stage_alloc, stage_read, stage_wand.
    cbn [ls_steps did with_img with_mipbuf]. rewrite entered_steps.
    rewrite <- !app_assoc. repeat split; try congruence; cbn; intuition discriminate.
  - exists ([step_MagickReadImage filename; step_MagickGetImageWidth;
             step_MagickGetImageHeight; step_dt_mipmap_cache_alloc;
             step_MagickGetImageColorspace;
             step_MagickExportImagePixels 0 0 (columns_of image) (rows_of image)
               (colormap_of image)]
            ++ (if is_cmyk (MagickGetImageColorspace image)
                then [step_cmyk_to_rgb] else [])
            ++ profile_steps env image)%list.
    rewrite loaded_steps.
    destruct (profile_steps_wand env image) as [Hnew Hdestroy].
    split; [by rewrite <- !app_assoc|].
    rewrite !in_app_iff.
    repeat split; try congruence;
      destruct (is_cmyk (MagickGetImageColorspace image)); cbn [In];
      intuition (try discriminate).
Qed.

(** X7.  A call that does not return [DT_IMAGEIO_OK] leaves the flags, the
    loader tag, the profile and its size, and the colorspace and filters of
    the buffer descriptor as they were (as [dt_exif_read] left them, when
    the loader called it).  After [DT_IMAGEIO_FILE_NOT_FOUND] the whole
    record is as it was and no buffer is held.  After
    [DT_IMAGEIO_CACHE_FULL] no buffer is held, but width and height are
    already the dimensions of the file that was read, converted to the
    [int32_t] of the fields, and channel count and data type are set. *)
Theorem open_im_failure_frame (env : environment float) (img : dt_image_t)
    (filename : string) (r : dt_imageio_retval_t) (s : loader_state float) :
  dt_imageio_open_im env img filename = Some (r, s) ->
  r <> DT_IMAGEIO_OK ->
  let before :=
    if (_supported_image filename && negb (exif_inited img))%bool
    then dt_exif_read env img filename else img in
  flags (ls_img s) = flags before
  /\ loader (ls_img s) = loader before
  /\ profile (ls_img s) = profile before
  /\ profile_size (ls_img s) = profile_size before
  /\ cst (buf_dsc (ls_img s)) = cst (buf_dsc before)
  /\ filters (buf_dsc (ls_img s)) = filters (buf_dsc before)
  /\ (r = DT_IMAGEIO_FILE_NOT_FOUND -> ls_img s = before /\ ls_mipbuf s = None)
  /\ (r = DT_IMAGEIO_CACHE_FULL ->
      ls_mipbuf s = None
      /\ exists image,
           MagickReadImage env filename = Some image
           /\ width (ls_img s) = to_int (MagickGetImageWidth image)
           /\ height (ls_img s) = to_int (MagickGetImageHeight image)
           /\ channels (buf_dsc (ls_img s)) = 4
           /\ datatype (buf_dsc (ls_img s)) = TYPE_FLOAT).
Proof.
  intros Hrun Hr before. subst before.
  destruct (dt_imageio_open_im_cases env img filename)
    as [(Hs & Hrun')|[(Hs & Hw & Hrun')|[(Hs & Hw & Hr' & Hrun')
       |[(image & Hs & Hw & Hr' & Hc & Hrun')
       |[(image & mipbuf & Hs & Hw & Hr' & Hc & He & Hrun')
       |[(image & mipbuf & pixels & Hs & Hw & Hr' & Hc & He & _ & Hrun')
        |(image & mipbuf & pixels & exported & final & Hs & Hw & Hr' & Hc & He & _ & _
          & Hrun')]]]]]];
    cbv zeta in Hrun'; rewrite Hrun' in Hrun; try discriminate Hrun;
    injection Hrun as <- <-;
    try done; rewrite Hs; cbn [andb];
    unfold stage_export, stage_alloc, stage_read, stage_wand;
    cbn [ls_img ls_mipbuf did with_img with_mipbuf flags loader profile profile_size
         buf_dsc cst filters channels datatype width height
         set_width set_height set_channels set_datatype set_buf_dsc];
    rewrite ?entered_mipbuf, ?entered_img;
    destruct (exif_inited img); cbn [negb];
    repeat split; try done; try discriminate;
    exists image; by repeat split.
Qed.

(** X8.  On a successful call the profile the library hands out is released
    whether or not it could be copied: [MagickRelinquishMemory] is called
    exactly when an "icc" or "icm" profile was returned; "icm" is asked for
    exactly when there is no "icc" profile; [g_try_malloc0] is asked for
    exactly the length of the profile found; and bytes are copied only into
    memory that [g_try_malloc0] returned. *)
Theorem open_im_profile_release (env : environment float) (img : dt_image_t)
    (filename : string) (s : loader_state float) :
  dt_imageio_open_im env img filename = Some (DT_IMAGEIO_OK, s) ->
  exists image,
    MagickReadImage env filename = Some image
    /\ (In step_MagickRelinquishMemory (ls_steps s)
        <-> embedded_profile image <> None)
    /\ (In (step_MagickGetImageProfile "icm") (ls_steps s)
        <-> MagickGetImageProfile image "icc" = None)
    /\ (forall n, In (step_g_try_malloc0 n) (ls_steps s)
                  <-> exists data, embedded_profile image = Some data
                                   /\ n = List.length data)
    /\ (forall n, In (step_memcpy n) (ls_steps s)
                  <-> exists data, embedded_profile image = Some data
                                   /\ n = List.length data
                                   /\ g_try_malloc0 env n = true).
Proof.
  intros (image & mipbuf & pixels & exported & final & _ & _ & Hread & _ & _ & _ & _ & ->)
    %dt_imageio_open_im_OK_inv.
  exists image. split; [done|].
  rewrite loaded_steps. unfold profile_steps, embedded_profile.
  destruct (exif_inited img), (is_cmyk (MagickGetImageColorspace image));
    (destruct (MagickGetImageProfile image "icc") as [data|];
     [|destruct (MagickGetImageProfile image "icm") as [data|]]);
    try destruct (g_try_malloc0 env (List.length data)) eqn:Hmalloc;
    cbn [app In];
    (split; [|split; [|split]]); try (intros n); (split; intros Hin);
    repeat match goal with
           | H : _ \/ _ |- _ => destruct H
           | H : exists _, _ |- _ => destruct H
           | H : _ /\ _ |- _ => destruct H
           | H : False |- _ => destruct H
           end;
    try discriminate; try congruence; simplify_eq; eauto 20.
Qed.
Lemma rgb_of_cmyk_pixel (a : Z -> float) (n p : Z) :
  0 <= p -> 4 * p + 3 < n ->
  rgb_of_cmyk a n (4 * p) = f_mul (f_sub f_1 (a (4 * p + 3))) (f_sub f_1 (a (4 * p)))
  /\ rgb_of_cmyk a n (4 * p + 1)
     = f_mul (f_sub f_1 (a (4 * p + 3))) (f_sub f_1 (a (4 * p + 1)))
  /\ rgb_of_cmyk a n (4 * p + 2)
     = f_mul (f_sub f_1 (a (4 * p + 3))) (f_sub f_1 (a (4 * p + 2)))
  /\ rgb_of_cmyk a n (4 * p + 3) = a (4 * p + 3).
Proof.
  intros Hp Hn. unfold rgb_of_cmyk.
  assert (Hchannel : forall c, 0 <= c < 4 ->
            (4 * p + c) mod 4 = c /\ 4 * ((4 * p + c) / 4) + 3 = 4 * p + 3).
  { intros c Hc.
    pose proof (Z.div_mod (4 * p + c) 4 ltac:(lia)).
    pose proof (Z.mod_pos_bound (4 * p + c) 4 ltac:(lia)). lia. }
  pose proof (Hchannel 0 ltac:(lia)) as [H0 H0']. rewrite Z.add_0_r in H0, H0'.
  pose proof (Hchannel 1 ltac:(lia)) as [H1 H1'].
  pose proof (Hchannel 2 ltac:(lia)) as [H2 H2'].
  pose proof (Hchannel 3 ltac:(lia)) as [H3 _].
  rewrite H0, H0', H1, H1', H2, H2', H3.
  rewrite !(proj2 (Z.leb_le 0 _)), !(proj2 (Z.ltb_lt _ n)) by lia.
  done.
Qed.

(** X24.  On a small image (dimensions and [width * height * 4] within the
    range of [int]) a successful call leaves the buffer converted pixel by
    pixel: when the colorspace is CMY or CMYK, for every pixel
    each of the first three channels [c] is [(1 - k) * (1 - c)], with [k]
    the fourth channel of the exported pixel, and the fourth channel is as
    exported; when the colorspace is any other, every float is as
    exported. *)
Theorem open_im_cmyk_fixup_small_image (env : environment float) (img : dt_image_t)
    (filename : string) (s : loader_state float) :
  dt_imageio_open_im env img filename = Some (DT_IMAGEIO_OK, s) ->
  exists image pixels final,
    MagickReadImage env filename = Some image
    /\ MagickExportImagePixels image 0 0 (columns_of image) (rows_of image)
         (colormap_of image) = Some pixels
    /\ ls_mipbuf s = Some final
    /\ (small_image image ->
        let columns := MagickGetImageWidth image in
        let rows := MagickGetImageHeight image in
        let colorspace := MagickGetImageColorspace image in
        (colorspace = CMYColorspace \/ colorspace = CMYKColorspace ->
         forall p,
           0 <= p < columns * rows ->
           fa_get final (4 * p)
           = Some (f_mul (f_sub f_1 (pixels (4 * p + 3))) (f_sub f_1 (pixels (4 * p))))
           /\ fa_get final (4 * p + 1)
              = Some (f_mul (f_sub f_1 (pixels (4 * p + 3)))
                            (f_sub f_1 (pixels (4 * p + 1))))
           /\ fa_get final (4 * p + 2)
              = Some (f_mul (f_sub f_1 (pixels (4 * p + 3)))
                            (f_sub f_1 (pixels (4 * p + 2))))
           /\ fa_get final (4 * p + 3) = Some (pixels (4 * p + 3)))
        /\ (colorspace <> CMYColorspace -> colorspace <> CMYKColorspace ->
            forall i, 0 <= i < columns * rows * 4 -> fa_get final i = Some (pixels i))).
Proof.
  intros Hrun.
  destruct (open_im_pixels env img filename s Hrun)
    as (image & pixels & final & Hread & Hexport & Hbuf & Hpixels).
  exists image, pixels, final. repeat (split; [done|]).
  intros Hsmall columns rows colorspace. specialize (Hpixels Hsmall).
  cbv zeta in Hpixels. fold columns rows colorspace in Hpixels.
  split.
  - intros Hcs%is_cmyk_true p Hp. rewrite Hcs in Hpixels.
    destruct (rgb_of_cmyk_pixel pixels (columns * rows * 4) p) as (H0 & H1 & H2 & H3);
      [lia..|].
    rewrite !Hpixels by lia. by rewrite H0, H1, H2, H3.
  - intros Hcmy Hcmyk i Hi.
    assert (Hcs : is_cmyk colorspace = false) by (by apply is_cmyk_false).
    rewrite Hcs in Hpixels. by apply Hpixels.
Qed.

End imageio_im_runs.

(** The run that ends in [DT_IMAGEIO_CACHE_FULL] on the sample image still
    destroys the wand it created. *)
Lemma open_im_wand_lifecycle_witness :
  exists s middle,
    @dt_imageio_open_im Z Z_float im6 darktable_flags
      (sample_env (Some (sample_wand sRGBColorspace true)) false true)
      sample_img "a.tif"
    = Some (DT_IMAGEIO_CACHE_FULL, s)
    /\ ls_steps s
       = ([step_dt_exif_read "a.tif"] ++ [step_NewMagickWand] ++ middle
          ++ [step_DestroyMagickWand])%list.
Proof.
  eexists.
  destruct (proj2 (@open_im_wand_lifecycle Z Z_float im6 darktable_flags
                     (sample_env (Some (sample_wand sRGBColorspace true)) false true)
                     sample_img "a.tif" _ _ eq_refl) eq_refl)
    as (middle & Hsteps & _).
  exists middle. split; [reflexivity|exact Hsteps].
Defined.

(** After [DT_IMAGEIO_CACHE_FULL] on the sample image the flags still carry
    the RAW bit, while the width is already that of the file. *)
Lemma open_im_failure_frame_witness :
  exists s,
    @dt_imageio_open_im Z Z_float im6 darktable_flags
      (sample_env (Some (sample_wand sRGBColorspace true)) false true)
      sample_img "a.tif"
    = Some (DT_IMAGEIO_CACHE_FULL, s)
    /\ flags (ls_img s) = 71
    /\ loader (ls_img s) = LOADER_UNKNOWN
    /\ ls_mipbuf s = None
    /\ width (ls_img s) = 2.
Proof.
  eexists. split; [vm_compute; reflexivity|].
  destruct (@open_im_failure_frame Z Z_float im6 darktable_flags
              (sample_env (Some (sample_wand sRGBColorspace true)) false true)
              sample_img "a.tif" _ _ eq_refl ltac:(discriminate))
    as (Hflags & Hloader & _ & _ & _ & _ & _ & Hfull).
  split; [exact Hflags|]. split; [exact Hloader|].
  destruct (Hfull eq_refl) as (Hbuf & image & Hread & Hwidth & _).
  split; [exact Hbuf|]. injection Hread as <-. exact Hwidth.
Defined.

(** The "icm" profile of the sample image is released also when it could
    not be copied. *)
Lemma open_im_profile_release_witness :
  exists s,
    @dt_imageio_open_im Z Z_float im6 darktable_flags
      (sample_env (Some (sample_wand sRGBColorspace true)) true false)
      sample_img "a.tif"
    = Some (DT_IMAGEIO_OK, s)
    /\ In step_MagickRelinquishMemory (ls_steps s).
Proof.
  eexists. split; [vm_compute; reflexivity|].
  destruct (@open_im_profile_release Z Z_float im6 darktable_flags
              (sample_env (Some (sample_wand sRGBColorspace true)) true false)
              sample_img "a.tif" _ eq_refl)
    as (image & Hread & Hrelease & _).
  injection Hread as <-. apply Hrelease. discriminate.
Defined.

(** The two-pixel sample image, exported as [10; 11; ...; 17]: as a CMYK
    image its second pixel gets [(1 - 17) * (1 - 14)] in the first channel
    and keeps [17] in the fourth. *)
Lemma open_im_cmyk_fixup_small_image_witness :
  exists s final,
    @dt_imageio_open_im Z Z_float im6 darktable_flags
      (sample_env (Some (sample_wand CMYKColorspace true)) true true)
      sample_img "a.tif"
    = Some (DT_IMAGEIO_OK, s)
    /\ ls_mipbuf s = Some final
    /\ fa_get final 4 = Some ((1 - 17) * (1 - 14))
    /\ fa_get final 7 = Some 17.
Proof.
  assert (Hrun : exists s,
            @dt_imageio_open_im Z Z_float im6 darktable_flags
              (sample_env (Some (sample_wand CMYKColorspace true)) true true)
              sample_img "a.tif"
            = Some (DT_IMAGEIO_OK, s)) by (eexists; vm_compute; reflexivity).
  destruct Hrun as [s Hrun].
  destruct (@open_im_cmyk_fixup_small_image Z Z_float im6 darktable_flags
              (sample_env (Some (sample_wand CMYKColorspace true)) true true)
              sample_img "a.tif" s Hrun)
    as (image & pixels & final & Hread & Hexport & Hbuf & Hpixels).
  injection Hread as <-. injection Hexport as <-.
  exists s, final. split; [exact Hrun|]. split; [exact Hbuf|].
  destruct (proj1 (Hpixels ltac:(vm_compute; repeat split; intros H; discriminate H))
              (or_intror eq_refl) 1 ltac:(vm_compute; split; [intros H|]; done))
    as (Hc & _ & _ & Hk).
  split; [exact Hc|exact Hk].
Defined.

(** The sample image fits the array of eight floats of the sample
    environment. *)
Lemma sample_well_sized (cs : ColorspaceType) (export_ok cache_ok malloc_ok : bool) :
  @well_sized Z
    (sample_env (Some (sample_wand cs export_ok)) cache_ok malloc_ok) sample_img "a.tif".
Proof.
  intros image [= <-]. split.
  - vm_compute. repeat split; intros H; discriminate H.
  - intros mipbuf. unfold sample_env. cbn [dt_mipmap_cache_alloc].
    destruct cache_ok; [|discriminate]. intros [= <-]. vm_compute. discriminate.
Qed.

(** The sample image is loaded; an image of 23171 x 23171 CMYK pixels in an
    array of exactly its [23171 * 23171 * 4] floats is not: the [int]
    product is negative, and as a [size_t] it lies far beyond the array. *)
Lemma open_im_defined_result_witness :
  (exists r s,
     @dt_imageio_open_im Z Z_float im6 darktable_flags
       (sample_env (Some (sample_wand CMYKColorspace true)) true true)
       sample_img "a.tif"
     = Some (r, s))
  /\ @dt_imageio_open_im Z Z_float im6 darktable_flags
       (cmyk_square_env 23171 (23171 * 23171 * 4)) sample_img "a.tif"
     = None.
Proof.
  split.
  - exact (proj1 (@open_im_defined_result Z Z_float im6 darktable_flags
                    (sample_env (Some (sample_wand CMYKColorspace true)) true true)
                    sample_img "a.tif")
             (sample_well_sized CMYKColorspace true true true)).
  - refine (proj2 (proj2 (@open_im_defined_result Z Z_float im6 darktable_flags
                            (cmyk_square_env 23171 (23171 * 23171 * 4))
                            sample_img "a.tif")
                     (cmyk_square 23171) _ _ eq_refl eq_refl eq_refl eq_refl eq_refl)
              eq_refl _ _ _);
      vm_compute; first [reflexivity | intros H; discriminate H].
Defined.

Lemma open_im_result_code_witness :
  @returns Z Z_float im6 darktable_flags
    (sample_env (Some (sample_wand sRGBColorspace true)) false true)
    sample_img "a.tif" DT_IMAGEIO_CACHE_FULL.
Proof.
  apply (@open_im_result_code Z Z_float im6 darktable_flags
           (sample_env (Some (sample_wand sRGBColorspace true)) false true)
           sample_img "a.tif" (sample_well_sized sRGBColorspace true false true)).
  split; [reflexivity|]. split; [reflexivity|].
  eexists. split; reflexivity.
Defined.
(** ** Part VII.  Further properties of [lighttable.c] *)

Section lighttable_runs.
Context {VM : Type} {VMA : view_manager_api VM}.

(** *** The persisted layout *)

Lemma conf_keys_ne :
  "plugins/lighttable/layout" <> "plugins/lighttable/base_layout"
  /\ "plugins/lighttable/layout" <> "plugins/lighttable/culling_num_images"
  /\ "plugins/lighttable/layout" <> "plugins/lighttable/images_in_row"
  /\ "plugins/lighttable/base_layout" <> "plugins/lighttable/culling_num_images"
  /\ "plugins/lighttable/base_layout" <> "plugins/lighttable/images_in_row"
  /\ "plugins/lighttable/culling_num_images" <> "plugins/lighttable/images_in_row".
Proof. repeat split; discriminate. Qed.

Lemma dt_conf_get_set (s : lt_state VM) (key key' : string) (v : Z) :
  dt_conf_get_int (dt_conf_set_int key v s) key'
  = if decide (key = key') then v else dt_conf_get_int s key'.
Proof.
  unfold dt_conf_get_int, dt_conf_set_int. cbn [conf with_conf].
  rewrite lookup_insert. by destruct (decide (key = key')).
Qed.

Lemma update_btn_data (s : lt_state VM) :
  data (_lib_lighttable_update_btn s) = data s.
Proof. apply update_btn_frame. Qed.

Lemma update_btn_conf (s : lt_state VM) :
  conf (_lib_lighttable_update_btn s) = conf s.
Proof. apply update_btn_frame. Qed.

Lemma update_btn_view_manager (s : lt_state VM) :
  view_manager (_lib_lighttable_update_btn s) = view_manager s.
Proof. apply update_btn_frame. Qed.

(** The configuration after [_lib_lighttable_set_layout] with a layout other
    than the preview *)
Lemma set_layout_conf (s : lt_state VM) (l : Z) :
  l <> DT_LIGHTTABLE_LAYOUT_PREVIEW ->
  let s' := _lib_lighttable_set_layout s l in
  dt_conf_get_int s' "plugins/lighttable/layout" = l
  /\ (dt_conf_get_int s "plugins/lighttable/base_layout" = base_layout (data s) ->
      dt_conf_get_int s' "plugins/lighttable/base_layout" = base_layout (data s'))
  /\ dt_conf_get_int s' "plugins/lighttable/culling_num_images"
     = dt_conf_get_int s "plugins/lighttable/culling_num_images"
  /\ dt_conf_get_int s' "plugins/lighttable/images_in_row"
     = dt_conf_get_int s "plugins/lighttable/images_in_row".
Proof.
  intros Hl%Z.eqb_neq. cbv zeta. unfold _lib_lighttable_set_layout. rewrite Hl.
  set (s0 := if xorb false _ then _ else s).
  assert (Hs0 : data s0 = data s /\ conf s0 = conf s)
    by (subst s0; by destruct (xorb _ _)).
  destruct Hs0 as [Hd0 Hc0]. clearbody s0.
  unfold dt_conf_get_int.
  rewrite !update_btn_conf, !update_btn_data, <- Hc0, <- Hd0.
  destruct s0 as [d vm c g n r].
  cbn [conf data with_data layout set_layout].
  destruct (Z.eqb_spec (default 0 (c !! "plugins/lighttable/layout")) l) as [Hcur|Hcur];
    cbn [negb].
  - cbn [conf data dt_control_queue_redraw_center request base_layout set_layout].
    by repeat split.
  - destruct (l =? DT_LIGHTTABLE_LAYOUT_CULLING_DYNAMIC);
      [cbn [data with_data current_zoom set_current_zoom];
       destruct (Z.max 1 _ =? 1)
      |destruct (l =? DT_LIGHTTABLE_LAYOUT_CULLING)];
      destruct ((l =? DT_LIGHTTABLE_LAYOUT_FILEMANAGER)
                || (l =? DT_LIGHTTABLE_LAYOUT_ZOOMABLE))%bool;
      cbn [conf data with_data with_conf dt_control_queue_redraw_center request
           dt_conf_set_int base_layout set_layout set_base_layout set_current_zoom];
      rewrite ?lookup_insert;
      repeat (destruct (decide _) as [Hk|Hk]; try discriminate Hk; try (by destruct Hk));
      by repeat split.
Qed.

Lemma set_layout_keeps_persisted (s : lt_state VM) (l : Z) :
  persisted s -> persisted (_lib_lighttable_set_layout s l).
Proof.
  intros [Hlayout Hbase]. unfold persisted.
  destruct (Z.eq_dec l DT_LIGHTTABLE_LAYOUT_PREVIEW) as [->|Hl].
  - rewrite set_layout_preview. unfold dt_conf_get_int.
    rewrite update_btn_conf, update_btn_data.
    by destruct (dt_view_lighttable_preview_state (view_manager s)).
  - destruct (set_layout_conf s l Hl) as (Hl' & Hb' & _).
    destruct (set_layout_data s l Hl) as (Hd' & _).
    split; [by rewrite Hd'|by apply Hb'].
Qed.

Lemma persisted_frame (s s' : lt_state VM) :
  layout (data s') = layout (data s) ->
  base_layout (data s') = base_layout (data s) ->
  conf s' !! "plugins/lighttable/layout" = conf s !! "plugins/lighttable/layout" ->
  conf s' !! "plugins/lighttable/base_layout"
  = conf s !! "plugins/lighttable/base_layout" ->
  persisted s -> persisted s'.
Proof.
  unfold persisted, dt_conf_get_int. intros -> -> -> ->. done.
Qed.

Lemma _set_zoom_keeps_persisted (s : lt_state VM) (z : Z) :
  persisted s -> persisted (_set_zoom s z).
Proof.
  unfold _set_zoom.
  destruct (layout (data s) =? DT_LIGHTTABLE_LAYOUT_CULLING);
    [|destruct ((layout (data s) =? DT_LIGHTTABLE_LAYOUT_FILEMANAGER)
                || (layout (data s) =? DT_LIGHTTABLE_LAYOUT_ZOOMABLE))%bool];
    try done; apply persisted_frame; try done;
    cbn [conf with_conf dt_conf_set_int dt_control_queue_redraw_center request];
    by rewrite lookup_insert_ne.
Qed.

Ltac keep_persisted_step :=
  first
    [ assumption
    | apply set_layout_keeps_persisted
    | apply _set_zoom_keeps_persisted
    | match goal with
      | |- persisted (_lib_lighttable_update_btn ?s) =>
          apply (persisted_frame s);
          [by rewrite update_btn_data | by rewrite update_btn_data
          | by rewrite update_btn_conf | by rewrite update_btn_conf |]
      | |- persisted (with_data _ ?s) => apply (persisted_frame s); [done|done|done|done|]
      | |- persisted (with_view_manager _ ?s) =>
          apply (persisted_frame s); [done|done|done|done|]
      | |- persisted (dt_control_queue_redraw_center ?s) =>
          apply (persisted_frame s); [done|done|done|done|]
      | |- persisted (gtk_spin_button_set_value _ ?s) =>
          apply (persisted_frame s); [done|done|done|done|]
      | |- context [if ?c then _ else _] => destruct c
      | |- context [match ?c with Some _ => _ | None => _ end] => destruct c
      end
    | progress cbn [fst snd] ].

Lemma run_operation_keeps_persisted (o : operation) (s : lt_state VM) :
  persisted s -> persisted (run_operation o s).
Proof.
  intros Hs.
  destruct o; cbn [run_operation];
    unfold _lib_lighttable_layout_btn_release, _lib_lighttable_restricted_btn_release,
      _lib_lighttable_key_accel_toggle_filemanager,
      _lib_lighttable_key_accel_toggle_zoomable,
      _lib_lighttable_key_accel_toggle_culling_dynamic_mode,
      _lib_lighttable_key_accel_toggle_culling_zoom_mode,
      _lib_lighttable_key_accel_toggle_restricted_mode,
      _lib_lighttable_key_accel_exit_layout,
      _action_process_culling, _action_process_preview,
      _lib_lighttable_zoom_slider_changed, _lib_lighttable_set_zoom,
      layout_cb, zoom_level_cb, _lib_lighttable_restricted_btn_release;
    repeat keep_persisted_step.
Qed.

Lemma run_keeps_persisted (ops : list operation) (s : lt_state VM) :
  persisted s -> persisted (run ops s).
Proof.
  revert s. induction ops as [|o ops IH]; intros s Hs; [done|].
  cbn [run foldl]. apply IH. by apply run_operation_keeps_persisted.
Qed.

(** X9.  The configuration keeps up with the module: when the keys
    "plugins/lighttable/layout" and "plugins/lighttable/base_layout" hold
    [d->layout] and [d->base_layout], they still do after any sequence of
    operations; and after [_lib_lighttable_set_layout] with a layout other
    than the preview the layout key holds that layout, whatever it held
    before. *)
Theorem layout_is_persisted (s : lt_state VM) :
  (forall l,
     l <> DT_LIGHTTABLE_LAYOUT_PREVIEW ->
     dt_conf_get_int (_lib_lighttable_set_layout s l) "plugins/lighttable/layout" = l
     /\ layout (data (_lib_lighttable_set_layout s l)) = l)
  /\ (persisted s -> forall ops, persisted (run ops s)).
Proof.
  split.
  - intros l Hl. split; [apply (set_layout_conf s l Hl)|apply (set_layout_data s l Hl)].
  - intros Hs ops. by apply run_keeps_persisted.
Qed.

(** X10.  Asking for the layout that is already persisted changes neither
    the module data nor the configuration: a second
    [_lib_lighttable_set_layout] with the same layout leaves both as the
    first one left them (the zoom is not computed again). *)
Theorem set_layout_again (s : lt_state VM) (l : Z) :
  let s1 := _lib_lighttable_set_layout s l in
  let s2 := _lib_lighttable_set_layout s1 l in
  data s2 = data s1 /\ conf s2 = conf s1.
Proof.
  cbv zeta.
  destruct (Z.eq_dec l DT_LIGHTTABLE_LAYOUT_PREVIEW) as [->|Hl].
  - rewrite (set_layout_preview (_lib_lighttable_set_layout s _)).
    rewrite update_btn_data, update_btn_conf.
    by destruct (dt_view_lighttable_preview_state _).
  - destruct (set_layout_conf s l Hl) as (Hconf & _).
    destruct (set_layout_data s l Hl) as (Hlayout & _).
    revert Hconf Hlayout.
    generalize (_lib_lighttable_set_layout s l). intros s1 Hconf Hlayout.
    unfold _lib_lighttable_set_layout at 1 2.
    apply Z.eqb_neq in Hl. rewrite Hl.
    rewrite update_btn_data, update_btn_conf.
    set (s0 := if xorb false _ then _ else s1).
    assert (Hs0 : data s0 = data s1 /\ conf s0 = conf s1)
      by (subst s0; by destruct (xorb _ _)).
    destruct Hs0 as [Hd0 Hc0]. clearbody s0.
    replace (dt_conf_get_int s0 "plugins/lighttable/layout")
      with l by (rewrite <- Hconf; unfold dt_conf_get_int; by rewrite Hc0).
    rewrite Z.eqb_refl. cbn [negb data conf with_data dt_control_queue_redraw_center request].
    rewrite Hc0, Hd0. split; [|done].
    destruct (data s1) as [l' b z f r]. cbn in Hlayout. by subst l'.
Qed.

(** *** The buttons and what is shown *)

Lemma update_btn_mirrors (s : lt_state VM) :
  active_buttons (_lib_lighttable_update_btn s) = [button_shown s]
  /\ button_shown (_lib_lighttable_update_btn s) = button_shown s.
Proof.
  split.
  - unfold active_buttons, button_shown, _lib_lighttable_update_btn.
    unfold DT_LIGHTTABLE_LAYOUT_CULLING_DYNAMIC, DT_LIGHTTABLE_LAYOUT_CULLING,
      DT_LIGHTTABLE_LAYOUT_ZOOMABLE.
    destruct (dt_view_lighttable_preview_state (view_manager s));
      destruct (Z.eqb_spec (layout (data s)) 3);
      destruct (Z.eqb_spec (layout (data s)) 2);
      destruct (Z.eqb_spec (layout (data s)) 0);
      repeat (destruct (decide (layout (data s) = _)); try lia);
      cbn; try (destruct (decide _)); reflexivity.
  - unfold button_shown. by rewrite update_btn_data, update_btn_view_manager.
Qed.

Lemma mirrors_update_btn (s : lt_state VM) : mirrors (_lib_lighttable_update_btn s).
Proof.
  unfold mirrors. destruct (update_btn_mirrors s) as [-> ->]. done.
Qed.

Lemma set_layout_ends_in_update_btn (s : lt_state VM) (l : Z) :
  exists s0, _lib_lighttable_set_layout s l = _lib_lighttable_update_btn s0.
Proof.
  unfold _lib_lighttable_set_layout.
  destruct (l =? DT_LIGHTTABLE_LAYOUT_PREVIEW); by eexists.
Qed.

Lemma mirrors_set_layout (s : lt_state VM) (l : Z) :
  mirrors (_lib_lighttable_set_layout s l).
Proof.
  destruct (set_layout_ends_in_update_btn s l) as [s0 ->]. apply mirrors_update_btn.
Qed.

Lemma mirrors_frame (s s' : lt_state VM) :
  layout (data s') = layout (data s) ->
  view_manager s' = view_manager s ->
  toggle_active (gtk s') = toggle_active (gtk s) ->
  mirrors s -> mirrors s'.
Proof.
  unfold mirrors, active_buttons, button_shown. intros -> -> ->. done.
Qed.

Lemma _set_zoom_frame (s : lt_state VM) (z : Z) :
  data (_set_zoom s z) = data s
  /\ view_manager (_set_zoom s z) = view_manager s
  /\ gtk (_set_zoom s z) = gtk s.
Proof.
  unfold _set_zoom.
  destruct (layout (data s) =? DT_LIGHTTABLE_LAYOUT_CULLING);
    [|destruct ((layout (data s) =? DT_LIGHTTABLE_LAYOUT_FILEMANAGER)
                || (layout (data s) =? DT_LIGHTTABLE_LAYOUT_ZOOMABLE))%bool]; done.
Qed.

Ltac keep_mirrors_step :=
  first
    [ assumption
    | apply mirrors_set_layout
    | apply mirrors_update_btn
    | match goal with
      | |- mirrors (_set_zoom ?s _) =>
          apply (mirrors_frame s);
          [by rewrite (proj1 (_set_zoom_frame _ _))
          |by rewrite (proj1 (proj2 (_set_zoom_frame _ _)))
          |by rewrite (proj2 (proj2 (_set_zoom_frame _ _)))|]
      | |- mirrors (with_data (set_current_zoom _) ?s) =>
          apply (mirrors_frame s); [done|done|done|]
      | |- mirrors (dt_control_queue_redraw_center ?s) =>
          apply (mirrors_frame s); [done|done|done|]
      | |- mirrors (gtk_spin_button_set_value _ ?s) =>
          apply (mirrors_frame s); [done|done|done|]
      | |- context [if ?c then _ else _] => destruct c
      | |- context [match ?c with Some _ => _ | None => _ end] => destruct c
      end
    | progress cbn [fst snd] ].

Lemma run_operation_keeps_mirrors (o : operation) (s : lt_state VM) :
  mirrors s -> mirrors (run_operation o s).
Proof.
  intros Hs.
  destruct o; cbn [run_operation];
    unfold _lib_lighttable_layout_btn_release, _lib_lighttable_restricted_btn_release,
      _lib_lighttable_key_accel_toggle_filemanager,
      _lib_lighttable_key_accel_toggle_zoomable,
      _lib_lighttable_key_accel_toggle_culling_dynamic_mode,
      _lib_lighttable_key_accel_toggle_culling_zoom_mode,
      _lib_lighttable_key_accel_toggle_restricted_mode,
      _lib_lighttable_key_accel_exit_layout,
      _action_process_culling, _action_process_preview,
      _lib_lighttable_zoom_slider_changed, _lib_lighttable_set_zoom,
      layout_cb, zoom_level_cb, _lib_lighttable_restricted_btn_release;
    repeat keep_mirrors_step.
Qed.

Lemma run_keeps_mirrors (ops : list operation) (s : lt_state VM) :
  mirrors s -> mirrors (run ops s).
Proof.
  revert s. induction ops as [|o ops IH]; intros s Hs; [done|].
  cbn [run foldl]. apply IH. by apply run_operation_keeps_mirrors.
Qed.

(** X11.  The layout buttons follow the module through every operation: once
    the one active layout button is the one that stands for what is shown
    (the preview button in full preview, else the button of the layout, the
    filemanager button for any other layout value), this is so again after
    any sequence of operations, also after those that do not call
    [_lib_lighttable_update_btn] themselves. *)
Theorem buttons_follow_operations (s : lt_state VM) (ops : list operation) :
  active_buttons s = [button_shown s] ->
  active_buttons (run ops s) = [button_shown (run ops s)].
Proof.
  apply run_keeps_mirrors.
Qed.

Lemma set_layout_active (s : lt_state VM) (l : Z) :
  view_manager_law VM ->
  let s' := _lib_lighttable_set_layout s l in
  dt_view_lighttable_preview_state (view_manager s')
  = (l =? DT_LIGHTTABLE_LAYOUT_PREVIEW)
  /\ (l = DT_LIGHTTABLE_LAYOUT_PREVIEW -> active_buttons s' = [layout_preview])
  /\ (l = DT_LIGHTTABLE_LAYOUT_CULLING_DYNAMIC ->
      active_buttons s' = [layout_culling_dynamic])
  /\ (l = DT_LIGHTTABLE_LAYOUT_CULLING -> active_buttons s' = [layout_culling_fix])
  /\ (l = DT_LIGHTTABLE_LAYOUT_ZOOMABLE -> active_buttons s' = [layout_zoomable])
  /\ (l <> DT_LIGHTTABLE_LAYOUT_PREVIEW -> l <> DT_LIGHTTABLE_LAYOUT_CULLING_DYNAMIC ->
      l <> DT_LIGHTTABLE_LAYOUT_CULLING -> l <> DT_LIGHTTABLE_LAYOUT_ZOOMABLE ->
      active_buttons s' = [layout_filemanager]).
Proof.
  intros Hlaw s'.
  assert (Hpreview : dt_view_lighttable_preview_state (view_manager s')
                     = (l =? DT_LIGHTTABLE_LAYOUT_PREVIEW)).
  { subst s'. unfold _lib_lighttable_set_layout.
    destruct (l =? DT_LIGHTTABLE_LAYOUT_PREVIEW) eqn:Hl;
      destruct (dt_view_lighttable_preview_state (view_manager s)) eqn:Hp;
      cbn [xorb];
      rewrite update_btn_view_manager;
      cbn [view_manager with_view_manager with_data dt_control_queue_redraw_center
           request];
      repeat match goal with
             | |- context [if ?c then _ else _] => destruct c
             end;
      cbn [view_manager with_view_manager with_data with_conf
           dt_control_queue_redraw_center dt_conf_set_int request];
      by rewrite ?(preview_state_set VM Hlaw). }
  split; [done|].
  pose proof (mirrors_set_layout s l) as Hm. fold s' in Hm. unfold mirrors in Hm.
  rewrite Hm. unfold button_shown. rewrite Hpreview.
  repeat split.
  - by intros ->.
  - intros ->.
    destruct (set_layout_data s DT_LIGHTTABLE_LAYOUT_CULLING_DYNAMIC ltac:(done))
      as (Hl & _). fold s' in Hl. by rewrite Hl.
  - intros ->.
    destruct (set_layout_data s DT_LIGHTTABLE_LAYOUT_CULLING ltac:(done))
      as (Hl & _). fold s' in Hl. by rewrite Hl.
  - intros ->.
    destruct (set_layout_data s DT_LIGHTTABLE_LAYOUT_ZOOMABLE ltac:(done))
      as (Hl & _). fold s' in Hl. by rewrite Hl.
  - intros Hp Hcd Hc Hz.
    destruct (set_layout_data s l Hp) as (Hl & _). fold s' in Hl. rewrite Hl.
    apply Z.eqb_neq in Hp. rewrite Hp.
    by repeat (destruct (decide _); [done|]).
Qed.

(** X12.  With a view manager that reports the preview state it was told
    last, [_lib_lighttable_set_layout] shows what it was asked for: the full
    preview is on afterwards exactly when the layout asked for is the
    preview, and the one active layout button is the preview button for the
    preview, the culling-dynamic, culling-fixed or zoomable button for these
    layouts, and the filemanager button for every other value. *)
Theorem set_layout_shows (s : lt_state VM) (l : Z) :
  view_manager_law VM ->
  let s' := _lib_lighttable_set_layout s l in
  dt_view_lighttable_preview_state (view_manager s')
  = (l =? DT_LIGHTTABLE_LAYOUT_PREVIEW)
  /\ (l = DT_LIGHTTABLE_LAYOUT_PREVIEW -> active_buttons s' = [layout_preview])
  /\ (l = DT_LIGHTTABLE_LAYOUT_CULLING_DYNAMIC ->
      active_buttons s' = [layout_culling_dynamic])
  /\ (l = DT_LIGHTTABLE_LAYOUT_CULLING -> active_buttons s' = [layout_culling_fix])
  /\ (l = DT_LIGHTTABLE_LAYOUT_ZOOMABLE -> active_buttons s' = [layout_zoomable])
  /\ (l <> DT_LIGHTTABLE_LAYOUT_PREVIEW -> l <> DT_LIGHTTABLE_LAYOUT_CULLING_DYNAMIC ->
      l <> DT_LIGHTTABLE_LAYOUT_CULLING -> l <> DT_LIGHTTABLE_LAYOUT_ZOOMABLE ->
      active_buttons s' = [layout_filemanager]).
Proof. apply set_layout_active. Qed.

(** X13.  With a view manager that reports the preview state it was told
    last, releasing a layout button that is not
    active makes it the one active layout button, whichever of the five it
    is and whatever was shown before; releasing the active filemanager or
    zoomable button changes nothing at all. *)
Theorem layout_btn_release_activates (s : lt_state VM) (w : GtkWidget) (ctrl : bool) :
  view_manager_law VM ->
  In w layout_box_children ->
  (gtk_toggle_button_get_active s w = false ->
   active_buttons (_lib_lighttable_layout_btn_release w ctrl s) = [w])
  /\ (gtk_toggle_button_get_active s w = true ->
      w = layout_filemanager \/ w = layout_zoomable ->
      _lib_lighttable_layout_btn_release w ctrl s = s).
Proof.
  intros Hlaw Hw. split.
  - intros Hactive. unfold _lib_lighttable_layout_btn_release.
    rewrite Hactive. cbn [negb].
    cbn in Hw. destruct Hw as [<-|[<-|[<-|[<-|[<-|[]]]]]];
      repeat (destruct (decide (_ = _)) as [Heq|?];
              [try discriminate Heq; clear Heq|try done]);
      try destruct ctrl; cbv zeta;
      lazymatch goal with
      | |- active_buttons (_lib_lighttable_set_layout ?t ?l) = _ =>
          destruct (set_layout_active t l Hlaw) as (_ & Hp & Hcd & Hc & Hz & Hfm)
      end; first [by auto | by apply Hfm].
  - intros Hactive Hbase. unfold _lib_lighttable_layout_btn_release.
    rewrite Hactive. cbn [negb].
    destruct Hbase as [-> | ->];
      (destruct (decide (_ = layout_preview)) as [Heq|_]; [discriminate Heq|]);
      destruct (decide (_ \/ _)) as [[Heq|Heq]|_]; try discriminate Heq; done.
Qed.

(** *** The culling accelerators *)

(** X14.  The culling-dynamic accelerator goes there and back: outside the
    culling layouts and with a filemanager or zoomable base layout, one
    press enters the culling-dynamic layout and a second press returns to the
    base layout, which is the same all along. *)
Theorem culling_dynamic_accel_there_and_back (s : lt_state VM) :
  is_base_layout (base_layout (data s)) ->
  layout (data s) <> DT_LIGHTTABLE_LAYOUT_CULLING ->
  layout (data s) <> DT_LIGHTTABLE_LAYOUT_CULLING_DYNAMIC ->
  let s1 := _lib_lighttable_key_accel_toggle_culling_dynamic_mode s in
  let s2 := _lib_lighttable_key_accel_toggle_culling_dynamic_mode s1 in
  layout (data s1) = DT_LIGHTTABLE_LAYOUT_CULLING_DYNAMIC
  /\ base_layout (data s1) = base_layout (data s)
  /\ layout (data s2) = base_layout (data s)
  /\ base_layout (data s2) = base_layout (data s).
Proof.
  intros Hbase Hc%Z.eqb_neq Hcd%Z.eqb_neq s1 s2.
  assert (H1 : layout (data s1) = DT_LIGHTTABLE_LAYOUT_CULLING_DYNAMIC
               /\ base_layout (data s1) = base_layout (data s)).
  { subst s1. unfold _lib_lighttable_key_accel_toggle_culling_dynamic_mode.
    rewrite Hc, Hcd. cbn [negb andb data dt_control_queue_redraw_center request].
    destruct (set_layout_data s DT_LIGHTTABLE_LAYOUT_CULLING_DYNAMIC ltac:(done))
      as (Hl & [Hb|[[Hb|Hb] _]] & _); done. }
  destruct H1 as [Hl1 Hb1]. split; [done|]. split; [done|].
  subst s2. unfold _lib_lighttable_key_accel_toggle_culling_dynamic_mode.
  rewrite Hl1, Hb1. cbn -[_lib_lighttable_set_layout].
  destruct (set_layout_data s1 (base_layout (data s))
              (is_base_layout_not_preview _ Hbase))
    as (Hl & [Hb|[_ Hb]] & _); rewrite Hl; split; congruence.
Qed.

(** X15.  The culling zoom-mode accelerator switches between the two culling
    layouts (entering the fixed one with the restriction set to
    [DT_LIGHTTABLE_CULLING_RESTRICTION_AUTO]) and does nothing at all in any
    other layout. *)
Theorem culling_zoom_mode_accel (s : lt_state VM) :
  let s' := _lib_lighttable_key_accel_toggle_culling_zoom_mode s in
  (layout (data s) = DT_LIGHTTABLE_LAYOUT_CULLING ->
   layout (data s') = DT_LIGHTTABLE_LAYOUT_CULLING_DYNAMIC
   /\ layout (data (_lib_lighttable_key_accel_toggle_culling_zoom_mode s'))
      = DT_LIGHTTABLE_LAYOUT_CULLING)
  /\ (layout (data s) = DT_LIGHTTABLE_LAYOUT_CULLING_DYNAMIC ->
      layout (data s') = DT_LIGHTTABLE_LAYOUT_CULLING
      /\ culling_init_restriction (data s') = DT_LIGHTTABLE_CULLING_RESTRICTION_AUTO
      /\ layout (data (_lib_lighttable_key_accel_toggle_culling_zoom_mode s'))
         = DT_LIGHTTABLE_LAYOUT_CULLING_DYNAMIC)
  /\ (layout (data s) <> DT_LIGHTTABLE_LAYOUT_CULLING ->
      layout (data s) <> DT_LIGHTTABLE_LAYOUT_CULLING_DYNAMIC ->
      s' = s).
Proof.
  intros s'.
  assert (Hto_dynamic : forall t : lt_state VM,
            layout (data t) = DT_LIGHTTABLE_LAYOUT_CULLING ->
            layout (data (_lib_lighttable_key_accel_toggle_culling_zoom_mode t))
            = DT_LIGHTTABLE_LAYOUT_CULLING_DYNAMIC).
  { intros t Ht. unfold _lib_lighttable_key_accel_toggle_culling_zoom_mode.
    rewrite Ht. cbn -[_lib_lighttable_set_layout].
    by destruct (set_layout_data t DT_LIGHTTABLE_LAYOUT_CULLING_DYNAMIC ltac:(done))
      as (-> & _). }
  assert (Hto_fixed : forall t : lt_state VM,
            layout (data t) = DT_LIGHTTABLE_LAYOUT_CULLING_DYNAMIC ->
            layout (data (_lib_lighttable_key_accel_toggle_culling_zoom_mode t))
            = DT_LIGHTTABLE_LAYOUT_CULLING
            /\ culling_init_restriction
                 (data (_lib_lighttable_key_accel_toggle_culling_zoom_mode t))
               = DT_LIGHTTABLE_CULLING_RESTRICTION_AUTO).
  { intros t Ht. unfold _lib_lighttable_key_accel_toggle_culling_zoom_mode.
    rewrite Ht. cbn -[_lib_lighttable_set_layout].
    by destruct (set_layout_data
                   (with_data (set_culling_init_restriction
                                 DT_LIGHTTABLE_CULLING_RESTRICTION_AUTO) t)
                   DT_LIGHTTABLE_LAYOUT_CULLING ltac:(done))
      as (-> & _ & _ & ->). }
  split; [|split].
  - intros Hs. split; [by apply Hto_dynamic|].
    apply Hto_fixed. by apply Hto_dynamic.
  - intros Hs. destruct (Hto_fixed s Hs) as [Hl Hr]. repeat split; try done.
    by apply Hto_dynamic.
  - intros Hc%Z.eqb_neq Hcd%Z.eqb_neq. subst s'.
    unfold _lib_lighttable_key_accel_toggle_culling_zoom_mode. by rewrite Hc, Hcd.
Qed.

(** *** Escape *)

Lemma set_layout_preview_state (s : lt_state VM) (l : Z) :
  view_manager_law VM ->
  dt_view_lighttable_preview_state (view_manager (_lib_lighttable_set_layout s l))
  = (l =? DT_LIGHTTABLE_LAYOUT_PREVIEW).
Proof. intros Hlaw. apply (set_layout_active s l Hlaw). Qed.

(** X16.  The exit accelerator leads home: with a view manager that reports
    the preview state it was told last, a
    layout other than the preview in [d->layout] and a filemanager or
    zoomable base layout, one press in full preview leaves the preview for
    [d->layout]; two presses from anywhere end outside the preview in the base
    layout, where a further press changes nothing at all. *)
Theorem exit_layout_accel_leads_home (s : lt_state VM) :
  view_manager_law VM ->
  is_base_layout (base_layout (data s)) ->
  layout (data s) <> DT_LIGHTTABLE_LAYOUT_PREVIEW ->
  let s1 := _lib_lighttable_key_accel_exit_layout s in
  let s2 := _lib_lighttable_key_accel_exit_layout s1 in
  (dt_view_lighttable_preview_state (view_manager s) = true ->
   dt_view_lighttable_preview_state (view_manager s1) = false
   /\ layout (data s1) = layout (data s))
  /\ dt_view_lighttable_preview_state (view_manager s2) = false
  /\ layout (data s2) = base_layout (data s2)
  /\ is_base_layout (base_layout (data s2))
  /\ _lib_lighttable_key_accel_exit_layout s2 = s2.
Proof.
  intros Hlaw Hbase Hlayout s1 s2.
  assert (Hstep : forall t : lt_state VM,
            is_base_layout (base_layout (data t)) ->
            dt_view_lighttable_preview_state (view_manager t) = false ->
            let t' := _lib_lighttable_key_accel_exit_layout t in
            dt_view_lighttable_preview_state (view_manager t') = false
            /\ layout (data t') = base_layout (data t')
            /\ is_base_layout (base_layout (data t'))
            /\ _lib_lighttable_key_accel_exit_layout t' = t').
  { intros t Hb Hp. cbv zeta.
    assert (Hfix : forall u : lt_state VM,
              dt_view_lighttable_preview_state (view_manager u) = false ->
              layout (data u) = base_layout (data u) ->
              _lib_lighttable_key_accel_exit_layout u = u).
    { intros u Hu Hl. unfold _lib_lighttable_key_accel_exit_layout.
      by rewrite Hu, Hl, Z.eqb_refl. }
    assert (Ht' : _lib_lighttable_key_accel_exit_layout t
                  = if negb (layout (data t) =? base_layout (data t))
                    then _lib_lighttable_set_layout t (base_layout (data t))
                    else t).
    { unfold _lib_lighttable_key_accel_exit_layout. by rewrite Hp. }
    rewrite Ht'. clear Ht'.
    destruct (Z.eqb_spec (layout (data t)) (base_layout (data t))) as [Heq|Hne];
      cbn [negb].
    - repeat split; try done. by apply Hfix.
    - pose proof (is_base_layout_not_preview _ Hb) as Hnp.
      destruct (set_layout_data t (base_layout (data t)) Hnp) as (Hl & Hb' & _).
      pose proof (set_layout_preview_state t (base_layout (data t)) Hlaw) as Hp'.
      apply Z.eqb_neq in Hnp. rewrite Hnp in Hp'.
      assert (Hbb : base_layout (data (_lib_lighttable_set_layout t (base_layout (data t))))
                    = base_layout (data t)) by (by destruct Hb' as [?|[_ ?]]).
      repeat split; try done.
      + by rewrite Hl, Hbb.
      + by rewrite Hbb.
      + apply Hfix; [done|]. by rewrite Hl, Hbb. }
  destruct (dt_view_lighttable_preview_state (view_manager s)) eqn:Hp.
  - assert (Hs1 : s1 = _lib_lighttable_set_layout s (layout (data s))).
    { subst s1. unfold _lib_lighttable_key_accel_exit_layout. by rewrite Hp. }
    pose proof (set_layout_preview_state s (layout (data s)) Hlaw) as Hp1.
    rewrite <- Hs1 in Hp1.
    rewrite (proj2 (Z.eqb_neq _ _) Hlayout) in Hp1.
    destruct (set_layout_data s (layout (data s)) Hlayout) as (Hl1 & _).
    rewrite <- Hs1 in Hl1.
    split; [done|].
    apply Hstep; [|done]. rewrite Hs1. by apply set_layout_keeps_base.
  - split; [done|].
    destruct (Hstep s Hbase Hp) as (Hp1 & Hl1 & Hb1 & Hfix1). fold s1 in Hp1, Hl1, Hb1, Hfix1.
    subst s2. rewrite Hfix1. done.
Qed.

(** *** The zoom *)

(** The zoom [_lib_lighttable_set_layout] leaves in [d->current_zoom] *)
Lemma set_layout_zoom (s : lt_state VM) (l : Z) :
  l <> DT_LIGHTTABLE_LAYOUT_PREVIEW ->
  current_zoom (data (_lib_lighttable_set_layout s l))
  = if dt_conf_get_int s "plugins/lighttable/layout" =? l then current_zoom (data s)
    else if l =? DT_LIGHTTABLE_LAYOUT_CULLING_DYNAMIC then
      if Z.max 1 (Z.min 30 (selected_count s)) =? 1
      then dt_conf_get_int s "plugins/lighttable/culling_num_images"
      else Z.max 1 (Z.min 30 (selected_count s))
    else if l =? DT_LIGHTTABLE_LAYOUT_CULLING
      then dt_conf_get_int s "plugins/lighttable/culling_num_images"
      else dt_conf_get_int s "plugins/lighttable/images_in_row".
Proof.
  intros Hl%Z.eqb_neq. unfold _lib_lighttable_set_layout. rewrite Hl.
  set (s0 := if xorb false _ then _ else s).
  assert (Hs0 : data s0 = data s /\ conf s0 = conf s
                /\ selected_count s0 = selected_count s)
    by (subst s0; by destruct (xorb _ _)).
  destruct Hs0 as (Hd0 & Hc0 & Hn0). clearbody s0.
  unfold dt_conf_get_int, dt_collection_get_selected_count.
  rewrite !update_btn_data, <- Hc0, <- Hd0, <- Hn0.
  destruct s0 as [d vm c g n r].
  cbn [conf data with_data layout set_layout selected_count].
  destruct (default 0 (c !! "plugins/lighttable/layout") =? l); cbn [negb]; [done|].
  destruct (l =? DT_LIGHTTABLE_LAYOUT_CULLING_DYNAMIC);
    [cbn [data with_data current_zoom set_current_zoom selected_count];
     destruct (Z.max 1 _ =? 1)
    |destruct (l =? DT_LIGHTTABLE_LAYOUT_CULLING)];
    by destruct ((l =? DT_LIGHTTABLE_LAYOUT_FILEMANAGER)
                 || (l =? DT_LIGHTTABLE_LAYOUT_ZOOMABLE))%bool.
Qed.

(** What the handler of the spin button leaves behind *)
Lemma zoom_slider_changed_conf (s : lt_state VM) (i : Z) :
  let s1 := _lib_lighttable_zoom_slider_changed (gtk_spin_button_set_value i s) in
  layout (data s1) = layout (data s)
  /\ current_zoom (data s1) = i
  /\ dt_conf_get_int s1 "plugins/lighttable/layout"
     = dt_conf_get_int s "plugins/lighttable/layout"
  /\ (layout (data s) = DT_LIGHTTABLE_LAYOUT_CULLING ->
      dt_conf_get_int s1 "plugins/lighttable/culling_num_images" = i)
  /\ (is_base_layout (layout (data s)) ->
      dt_conf_get_int s1 "plugins/lighttable/images_in_row" = i).
Proof.
  cbv zeta. unfold _lib_lighttable_zoom_slider_changed, _set_zoom,
    gtk_spin_button_get_value_as_int, is_base_layout.
  destruct s as [d vm c g n r].
  cbn [data gtk gtk_spin_button_set_value with_gtk spin_value].
  destruct (Z.eqb_spec (layout d) DT_LIGHTTABLE_LAYOUT_CULLING) as [Hc|Hc];
    [|destruct (Z.eqb_spec (layout d) DT_LIGHTTABLE_LAYOUT_FILEMANAGER) as [Hf|Hf];
      [|destruct (Z.eqb_spec (layout d) DT_LIGHTTABLE_LAYOUT_ZOOMABLE) as [Hz|Hz]]];
    cbn [orb]; unfold dt_conf_get_int;
    cbn [data conf with_data with_conf dt_conf_set_int dt_control_queue_redraw_center
         request layout current_zoom set_current_zoom];
    rewrite ?lookup_insert;
    repeat (destruct (decide _) as [Hk|Hk]; try discriminate Hk; try (by destruct Hk));
    repeat split; try done;
    unfold DT_LIGHTTABLE_LAYOUT_CULLING, DT_LIGHTTABLE_LAYOUT_FILEMANAGER,
      DT_LIGHTTABLE_LAYOUT_ZOOMABLE in *; intros; lia.
Qed.

(** X17.  The zoom is remembered per kind of layout.  When the
    configuration holds the layout of the module and that layout is the
    fixed culling, the filemanager or the zoomable one, a value set with the
    spin button is found again in [d->current_zoom] after leaving for any other
    layout (not the preview) and coming back; and between filemanager and
    zoomable, which share the key "plugins/lighttable/images_in_row", it is
    carried over. *)
Theorem zoom_is_remembered (s : lt_state VM) (i l : Z) :
  persisted s ->
  layout (data s) = DT_LIGHTTABLE_LAYOUT_CULLING \/ is_base_layout (layout (data s)) ->
  l <> layout (data s) ->
  l <> DT_LIGHTTABLE_LAYOUT_PREVIEW ->
  let s1 := _lib_lighttable_zoom_slider_changed (gtk_spin_button_set_value i s) in
  let s2 := _lib_lighttable_set_layout s1 l in
  let s3 := _lib_lighttable_set_layout s2 (layout (data s)) in
  current_zoom (data s3) = i
  /\ (is_base_layout (layout (data s)) -> is_base_layout l ->
      current_zoom (data s2) = i).
Proof.
  intros [Hpers _] Hkind Hl Hlp s1 s2 s3.
  destruct (zoom_slider_changed_conf s i) as (Hl1 & Hz1 & Hk1 & Hc1 & Hb1).
  fold s1 in Hl1, Hz1, Hk1, Hc1, Hb1.
  destruct (set_layout_conf s1 l Hlp) as (Hk2 & _ & Hc2 & Hb2).
  fold s2 in Hk2, Hc2, Hb2.
  assert (Hnp : layout (data s) <> DT_LIGHTTABLE_LAYOUT_PREVIEW).
  { destruct Hkind as [->|Hb]; [done|by apply is_base_layout_not_preview]. }
  split.
  - subst s3. rewrite (set_layout_zoom s2 _ Hnp). rewrite Hk2.
    rewrite (proj2 (Z.eqb_neq _ _) Hl), Hc2, Hb2.
    destruct Hkind as [Hc|Hb].
    + rewrite Hc. cbn. by apply Hc1.
    + rewrite (Hb1 Hb). by destruct Hb as [-> | ->].
  - intros Hb Hlb. subst s2. rewrite (set_layout_zoom s1 _ Hlp).
    rewrite Hk1, Hpers.
    rewrite (proj2 (Z.eqb_neq _ _) (not_eq_sym Hl)), (Hb1 Hb).
    by destruct Hlb as [-> | ->].
Qed.

(** *** The restriction button *)

(** What [_lib_lighttable_update_btn] makes of the restriction button *)
Lemma update_btn_restricted (s : lt_state VM) :
  let s' := _lib_lighttable_update_btn s in
  let shown := ((layout (data s) =? DT_LIGHTTABLE_LAYOUT_CULLING)
                || dt_view_lighttable_preview_state (view_manager s))%bool in
  visible (gtk s') layout_culling_restricted = shown
  /\ toggle_active (gtk s') layout_culling_restricted
     = (shown && bool_decide (dt_view_lighttable_culling_restricted_state (view_manager s)
                              = DT_LIGHTTABLE_CULLING_RESTRICTION_SELECTION))%bool.
Proof.
  cbv zeta. unfold _lib_lighttable_update_btn.
  destruct (dt_view_lighttable_preview_state (view_manager s));
    destruct (layout (data s) =? DT_LIGHTTABLE_LAYOUT_CULLING_DYNAMIC);
    destruct (layout (data s) =? DT_LIGHTTABLE_LAYOUT_CULLING);
    destruct (layout (data s) =? DT_LIGHTTABLE_LAYOUT_ZOOMABLE);
    cbn; try (destruct (decide _) as [Hr|Hr]);
    rewrite ?(bool_decide_eq_true_2 _ Hr), ?(bool_decide_eq_false_2 _ Hr); done.
Qed.

(** X18.  The restriction button is a switch while it is shown: with a view
    manager that reports what it was told last, in the fixed culling layout or in full preview a release
    flips it and tells the view manager to restrict to the selection when it
    becomes active and to the collection when it becomes inactive; elsewhere
    the button is hidden and inactive, and the accelerator does nothing at
    all. *)
Theorem restricted_btn_is_a_switch (s : lt_state VM) :
  view_manager_law VM ->
  let s' := _lib_lighttable_restricted_btn_release layout_culling_restricted s in
  (layout (data s) = DT_LIGHTTABLE_LAYOUT_CULLING
   \/ dt_view_lighttable_preview_state (view_manager s) = true ->
   toggle_active (gtk s') layout_culling_restricted
   = negb (toggle_active (gtk s) layout_culling_restricted)
   /\ visible (gtk s') layout_culling_restricted = true
   /\ dt_view_lighttable_culling_restricted_state (view_manager s')
      = (if toggle_active (gtk s') layout_culling_restricted
         then DT_LIGHTTABLE_CULLING_RESTRICTION_SELECTION
         else DT_LIGHTTABLE_CULLING_RESTRICTION_COLLECTION)
   /\ _lib_lighttable_key_accel_toggle_restricted_mode s = s')
  /\ (layout (data s) <> DT_LIGHTTABLE_LAYOUT_CULLING ->
      dt_view_lighttable_preview_state (view_manager s) = false ->
      toggle_active (gtk s') layout_culling_restricted = false
      /\ visible (gtk s') layout_culling_restricted = false
      /\ _lib_lighttable_key_accel_toggle_restricted_mode s = s).
Proof.
  intros Hlaw s'.
  set (r := if gtk_toggle_button_get_active s layout_culling_restricted
            then DT_LIGHTTABLE_CULLING_RESTRICTION_COLLECTION
            else DT_LIGHTTABLE_CULLING_RESTRICTION_SELECTION).
  set (s0 := with_view_manager
               (fun vm => dt_view_lighttable_set_culling_restricted_state vm r) s).
  assert (Hs' : s' = _lib_lighttable_update_btn s0) by done.
  destruct (update_btn_restricted s0) as [Hvis Hact].
  rewrite <- Hs' in Hvis, Hact.
  assert (Hvm : view_manager s' = view_manager s0)
    by (rewrite Hs'; apply update_btn_view_manager).
  assert (Hp0 : dt_view_lighttable_preview_state (view_manager s0)
                = dt_view_lighttable_preview_state (view_manager s))
    by apply (preview_state_set_culling_restricted VM Hlaw).
  assert (Hr0 : dt_view_lighttable_culling_restricted_state (view_manager s0) = r)
    by apply (culling_restricted_state_set VM Hlaw).
  rewrite Hp0 in Hvis, Hact. rewrite Hr0 in Hact.
  change (data s0) with (data s) in Hvis, Hact.
  split.
  - intros Hshown.
    assert (Hb : ((layout (data s) =? DT_LIGHTTABLE_LAYOUT_CULLING)
                  || dt_view_lighttable_preview_state (view_manager s))%bool = true).
    { destruct Hshown as [-> | ->]; [done|by rewrite orb_true_r]. }
    rewrite Hb in Hvis, Hact. cbn [andb] in Hact.
    rewrite Hvm, Hr0, Hact, Hvis. subst r.
    unfold _lib_lighttable_key_accel_toggle_restricted_mode. rewrite Hb.
    unfold gtk_toggle_button_get_active.
    by destruct (toggle_active (gtk s) layout_culling_restricted).
  - intros Hl%Z.eqb_neq Hp. rewrite Hl, Hp in Hvis, Hact.
    unfold _lib_lighttable_key_accel_toggle_restricted_mode. by rewrite Hl, Hp.
Qed.

(** *** The shortcut actions *)

(** X19.  The culling action is a toggle between the fixed culling layout
    and the base layout: performed with an effect other than
    [DT_ACTION_EFFECT_ON] outside the culling layouts, it enters the fixed
    culling layout (noting the restriction its element asks for) and returns
    true; performed once more it returns to the base layout and returns
    false.  With [DT_ACTION_EFFECT_ON] it leaves the module data alone, and
    when it is not to be performed it changes nothing at all and reports
    whether the layout is the fixed culling one. *)
Theorem culling_action_toggles (s : lt_state VM) (element : Z)
    (effect : dt_action_effect_t) :
  is_base_layout (base_layout (data s)) ->
  let r1 := _action_process_culling element effect true s in
  let r2 := _action_process_culling element effect true r1.2 in
  (effect <> DT_ACTION_EFFECT_ON ->
   layout (data s) <> DT_LIGHTTABLE_LAYOUT_CULLING ->
   layout (data s) <> DT_LIGHTTABLE_LAYOUT_CULLING_DYNAMIC ->
   r1.1 = true
   /\ layout (data r1.2) = DT_LIGHTTABLE_LAYOUT_CULLING
   /\ culling_init_restriction (data r1.2)
      = (if element =? DT_ACTION_ELEMENT_CULLING_NO_RESTRICTION
         then DT_LIGHTTABLE_CULLING_RESTRICTION_COLLECTION
         else DT_LIGHTTABLE_CULLING_RESTRICTION_AUTO)
   /\ r2.1 = false
   /\ layout (data r2.2) = base_layout (data s))
  /\ (effect = DT_ACTION_EFFECT_ON -> data r1.2 = data s)
  /\ _action_process_culling element effect false s
     = (layout (data s) =? DT_LIGHTTABLE_LAYOUT_CULLING, s).
Proof.
  intros Hbase r1 r2. split; [|split]; [| |done].
  - intros Heff Hc%Z.eqb_neq Hcd%Z.eqb_neq.
    set (s0 := if element =? DT_ACTION_ELEMENT_CULLING_NO_RESTRICTION
               then with_data (set_culling_init_restriction
                                 DT_LIGHTTABLE_CULLING_RESTRICTION_COLLECTION) s
               else with_data (set_culling_init_restriction
                                 DT_LIGHTTABLE_CULLING_RESTRICTION_AUTO) s).
    set (s1 := _lib_lighttable_update_btn
                 (_lib_lighttable_set_layout s0 DT_LIGHTTABLE_LAYOUT_CULLING)).
    assert (Hr1 : r1 = (layout (data s1) =? DT_LIGHTTABLE_LAYOUT_CULLING, s1)).
    { subst r1 s1 s0. unfold _action_process_culling.
      rewrite Hc, Hcd, (bool_decide_eq_false_2 _ Heff). done. }
    destruct (set_layout_data s0 DT_LIGHTTABLE_LAYOUT_CULLING ltac:(done))
      as (Hl1 & Hb1 & _ & Hi1).
    assert (Hd1 : data s1 = data (_lib_lighttable_set_layout s0 DT_LIGHTTABLE_LAYOUT_CULLING))
      by apply update_btn_data.
    rewrite <- Hd1 in Hl1, Hb1, Hi1.
    assert (Hbb : base_layout (data s1) = base_layout (data s)).
    { destruct Hb1 as [->|[[Hb|Hb] _]]; [|done|done]. subst s0.
      by destruct (element =? _). }
    set (s2 := _lib_lighttable_update_btn
                 (_lib_lighttable_set_layout s1 (base_layout (data s1)))).
    assert (Hr2 : r2 = (layout (data s2) =? DT_LIGHTTABLE_LAYOUT_CULLING, s2)).
    { subst r2 s2. rewrite Hr1. cbn [snd]. unfold _action_process_culling.
      rewrite Hl1, (bool_decide_eq_false_2 _ Heff). done. }
    assert (Hl2 : layout (data s2) = base_layout (data s)).
    { subst s2. rewrite update_btn_data, Hbb.
      apply (set_layout_data s1 _ (is_base_layout_not_preview _ Hbase)). }
    rewrite Hr2, Hr1. cbn [fst snd]. rewrite Hl1, Hl2, Hi1.
    repeat split; try done.
    + subst s0. by destruct (element =? _).
    + by destruct Hbase as [-> | ->].
  - intros ->. subst r1. unfold _action_process_culling.
    rewrite andb_false_r. cbn [negb bool_decide decide_rel snd].
    by rewrite update_btn_data.
Qed.

(** X20.  The preview action ends in the state its effect names: with a
    view manager that reports the preview state it was told last and a layout other than the preview in [d->layout], it
    leaves the full preview on for [DT_ACTION_EFFECT_ON], off for
    [DT_ACTION_EFFECT_OFF], and flipped for any other effect; it returns the
    preview state it leaves, and [d->layout] is what it was. *)
Theorem preview_action_sets_preview (s : lt_state VM) (element : Z)
    (effect : dt_action_effect_t) :
  view_manager_law VM ->
  layout (data s) <> DT_LIGHTTABLE_LAYOUT_PREVIEW ->
  let r := _action_process_preview element effect true s in
  r.1 = match effect with
        | DT_ACTION_EFFECT_ON => true
        | DT_ACTION_EFFECT_OFF => false
        | _ => negb (dt_view_lighttable_preview_state (view_manager s))
        end
  /\ dt_view_lighttable_preview_state (view_manager r.2) = r.1
  /\ layout (data r.2) = layout (data s).
Proof.
  intros Hlaw Hl r. subst r. unfold _action_process_preview. cbn [fst snd].
  rewrite update_btn_view_manager, update_btn_data.
  pose proof (set_layout_preview_state s (layout (data s)) Hlaw) as Hp.
  rewrite (proj2 (Z.eqb_neq _ _) Hl) in Hp.
  destruct (set_layout_data s (layout (data s)) Hl) as (Hl' & _).
  destruct (dt_view_lighttable_preview_state (view_manager s)) eqn:Hs;
    destruct effect; repeat case_bool_decide; try done; cbn [negb];
    rewrite ?Hp, ?Hl', ?Hs;
    cbn [view_manager with_view_manager data];
    rewrite ?(preview_state_set VM Hlaw); done.
Qed.

End lighttable_runs.

(** *** [gui_init] *)

Section lighttable_init_properties.
Context {VM : Type} {VMA : view_manager_api VM} {LC : lighttable_constants}.

Lemma gui_init_ends_in_update_btn (vm : VM) (c : gmap string Z) (selected : Z) :
  exists s0,
    gui_init vm c selected = _lib_lighttable_update_btn s0
    /\ conf s0 = c
    /\ layout (data s0)
       = Z.min DT_LIGHTTABLE_LAYOUT_PREVIEW (default 0 (c !! "plugins/lighttable/layout"))
    /\ base_layout (data s0)
       = Z.min DT_LIGHTTABLE_LAYOUT_PREVIEW
               (default 0 (c !! "plugins/lighttable/base_layout")).
Proof.
  eexists. split; [reflexivity|].
  unfold dt_conf_get_int.
  cbn [conf data with_data layout base_layout set_layout set_base_layout
       current_zoom set_current_zoom].
  repeat match goal with
         | |- context [if ?c then _ else _] => destruct c
         end; done.
Qed.

(** X22.  Entering the dynamic culling layout from another persisted layout
    sets the zoom from the selection: [d->current_zoom] is the number of
    selected images when that is at least 2 and within both the limit of 30
    and the range of the spin button, and for a selection of at most one
    image the value of "plugins/lighttable/culling_num_images", when that
    value is within the range of the spin button. *)
Theorem culling_dynamic_zoom (s : lt_state VM) :
  dt_conf_get_int s "plugins/lighttable/layout" <> DT_LIGHTTABLE_LAYOUT_CULLING_DYNAMIC ->
  let s' := _lib_lighttable_set_layout s DT_LIGHTTABLE_LAYOUT_CULLING_DYNAMIC in
  let n := dt_collection_get_selected_count s in
  let culling_num_images := dt_conf_get_int s "plugins/lighttable/culling_num_images" in
  (2 <= n <= Z.min 30 DT_LIGHTTABLE_MAX_ZOOM -> current_zoom (data s') = n)
  /\ (n <= 1 -> 1 <= culling_num_images <= DT_LIGHTTABLE_MAX_ZOOM ->
      current_zoom (data s') = culling_num_images).
Proof.
  intros Hcur%Z.eqb_neq s' n culling_num_images. subst s' culling_num_images.
  rewrite (set_layout_zoom s DT_LIGHTTABLE_LAYOUT_CULLING_DYNAMIC ltac:(done)).
  rewrite Hcur. change (DT_LIGHTTABLE_LAYOUT_CULLING_DYNAMIC
                        =? DT_LIGHTTABLE_LAYOUT_CULLING_DYNAMIC) with true.
  cbv iota. fold (dt_collection_get_selected_count s). fold n.
  split; intros Hn; try intros _;
    destruct (Z.eqb_spec (Z.max 1 (Z.min 30 n)) 1); lia.
Qed.

(** X23.  [gui_init] sets the module up for what follows.  The layouts read
    from the configuration are capped at [DT_LIGHTTABLE_LAYOUT_PREVIEW].
    After [gui_init] and any sequence of operations, the one active layout
    button stands for what is shown; when the configured layout and base
    layout are no larger than [DT_LIGHTTABLE_LAYOUT_PREVIEW] the
    configuration holds the layout and the base layout of the module; and
    when the configured base layout is the filemanager or the zoomable one,
    so is [d->base_layout]. *)
Theorem gui_init_sets_up (vm : VM) (c : gmap string Z) (selected : Z)
    (ops : list operation) (l b : Z) :
  c !! "plugins/lighttable/layout" = Some l ->
  c !! "plugins/lighttable/base_layout" = Some b ->
  let s0 := gui_init vm c selected in
  let s := run ops s0 in
  layout (data s0) = Z.min DT_LIGHTTABLE_LAYOUT_PREVIEW l
  /\ base_layout (data s0) = Z.min DT_LIGHTTABLE_LAYOUT_PREVIEW b
  /\ active_buttons s = [button_shown s]
  /\ (l <= DT_LIGHTTABLE_LAYOUT_PREVIEW -> b <= DT_LIGHTTABLE_LAYOUT_PREVIEW ->
      persisted s)
  /\ (is_base_layout b -> is_base_layout (base_layout (data s))).
Proof.
  intros Hl Hb s0 s.
  destruct (gui_init_ends_in_update_btn vm c selected) as (t & Ht & Hc & Hlt & Hbt).
  fold s0 in Ht. rewrite Hl in Hlt. rewrite Hb in Hbt. cbn in Hlt, Hbt.
  assert (Hd0 : data s0 = data t) by (rewrite Ht; apply update_btn_data).
  assert (Hc0 : conf s0 = c) by (rewrite Ht, update_btn_conf; done).
  rewrite Hd0.
  split; [done|]. split; [done|].
  split; [apply run_keeps_mirrors; rewrite Ht; apply mirrors_update_btn|].
  split.
  - intros Hl4 Hb4. apply run_keeps_persisted.
    split; unfold dt_conf_get_int; rewrite Hc0, Hd0.
    + rewrite Hl, Hlt. cbn. lia.
    + rewrite Hb, Hbt. cbn. lia.
  - intros Hbase. apply run_keeps_base. rewrite Hd0, Hbt.
    destruct Hbase as [-> | ->]; [left|right]; reflexivity.
Qed.

End lighttable_init_properties.

(** *** The properties at work on the sample lighttable *)

Lemma simple_view_manager_law :
  @view_manager_law simple_view_manager simple_view_manager_api.
Proof. by split. Qed.

Lemma layout_is_persisted_witness :
  @persisted simple_view_manager
    (@run simple_view_manager simple_view_manager_api
       [op_layout_btn_release layout_culling_fix false; op_zoom_slider_changed 3;
        op_key_accel_exit_layout]
       sample_lighttable)
  /\ @dt_conf_get_int simple_view_manager
       (@_lib_lighttable_set_layout simple_view_manager simple_view_manager_api
          sample_lighttable DT_LIGHTTABLE_LAYOUT_CULLING)
       "plugins/lighttable/layout"
     = DT_LIGHTTABLE_LAYOUT_CULLING.
Proof.
  split.
  - apply (proj2 (@layout_is_persisted simple_view_manager simple_view_manager_api
                    sample_lighttable)).
    split; reflexivity.
  - apply (proj1 (@layout_is_persisted simple_view_manager simple_view_manager_api
                    sample_lighttable)).
    discriminate.
Defined.

Lemma buttons_follow_operations_witness :
  @active_buttons simple_view_manager
    (@run simple_view_manager simple_view_manager_api
       [op_key_accel_toggle_culling_dynamic_mode; op_set_zoom 7;
        op_action_process_preview 0 DT_ACTION_EFFECT_HOLD_TOGGLE true]
       sample_lighttable)
  = [layout_preview].
Proof.
  rewrite (@buttons_follow_operations simple_view_manager simple_view_manager_api
             sample_lighttable _ eq_refl).
  reflexivity.
Defined.

Lemma set_layout_shows_witness :
  @active_buttons simple_view_manager
    (@_lib_lighttable_set_layout simple_view_manager simple_view_manager_api
       sample_lighttable DT_LIGHTTABLE_LAYOUT_CULLING)
  = [layout_culling_fix].
Proof.
  apply (@set_layout_shows simple_view_manager simple_view_manager_api
           sample_lighttable DT_LIGHTTABLE_LAYOUT_CULLING simple_view_manager_law).
  reflexivity.
Defined.

Lemma layout_btn_release_activates_witness :
  @active_buttons simple_view_manager
    (@_lib_lighttable_layout_btn_release simple_view_manager simple_view_manager_api
       layout_zoomable false sample_lighttable)
  = [layout_zoomable]
  /\ @_lib_lighttable_layout_btn_release simple_view_manager simple_view_manager_api
       layout_filemanager false sample_lighttable
     = sample_lighttable.
Proof.
  split.
  - apply (@layout_btn_release_activates simple_view_manager simple_view_manager_api
             sample_lighttable layout_zoomable false simple_view_manager_law).
    + cbn. tauto.
    + reflexivity.
  - apply (@layout_btn_release_activates simple_view_manager simple_view_manager_api
             sample_lighttable layout_filemanager false simple_view_manager_law).
    + cbn. tauto.
    + reflexivity.
    + by left.
Defined.

Lemma culling_dynamic_accel_there_and_back_witness :
  layout
    (data (@_lib_lighttable_key_accel_toggle_culling_dynamic_mode simple_view_manager
             simple_view_manager_api
             (@_lib_lighttable_key_accel_toggle_culling_dynamic_mode simple_view_manager
                simple_view_manager_api sample_lighttable)))
  = DT_LIGHTTABLE_LAYOUT_FILEMANAGER.
Proof.
  apply (@culling_dynamic_accel_there_and_back simple_view_manager
           simple_view_manager_api sample_lighttable).
  - by left.
  - discriminate.
  - discriminate.
Defined.

Lemma culling_zoom_mode_accel_witness :
  layout
    (data (@_lib_lighttable_key_accel_toggle_culling_zoom_mode simple_view_manager
             simple_view_manager_api culling_lighttable))
  = DT_LIGHTTABLE_LAYOUT_CULLING_DYNAMIC
  /\ @_lib_lighttable_key_accel_toggle_culling_zoom_mode simple_view_manager
       simple_view_manager_api sample_lighttable
     = sample_lighttable.
Proof.
  split.
  - apply (@culling_zoom_mode_accel simple_view_manager simple_view_manager_api
             culling_lighttable).
    reflexivity.
  - apply (@culling_zoom_mode_accel simple_view_manager simple_view_manager_api
             sample_lighttable); discriminate.
Defined.

Lemma exit_layout_accel_leads_home_witness :
  @dt_view_lighttable_preview_state simple_view_manager simple_view_manager_api
    (view_manager
       (@_lib_lighttable_key_accel_exit_layout simple_view_manager
          simple_view_manager_api
          (@_lib_lighttable_key_accel_exit_layout simple_view_manager
             simple_view_manager_api culling_preview_lighttable)))
  = false.
Proof.
  assert (Hbase : is_base_layout (base_layout (data culling_preview_lighttable)))
    by (vm_compute; left; reflexivity).
  assert (Hlayout : layout (data culling_preview_lighttable)
                    <> DT_LIGHTTABLE_LAYOUT_PREVIEW)
    by (vm_compute; intros H; discriminate H).
  exact (proj1 (proj2 (@exit_layout_accel_leads_home simple_view_manager
                         simple_view_manager_api culling_preview_lighttable
                         simple_view_manager_law Hbase Hlayout))).
Defined.

Lemma zoom_is_remembered_witness :
  current_zoom
    (data (@run simple_view_manager simple_view_manager_api
             [op_zoom_slider_changed 7;
              op_set_layout DT_LIGHTTABLE_LAYOUT_CULLING;
              op_set_layout DT_LIGHTTABLE_LAYOUT_FILEMANAGER]
             sample_lighttable))
  = 7.
Proof.
  apply (@zoom_is_remembered simple_view_manager simple_view_manager_api
           sample_lighttable 7 DT_LIGHTTABLE_LAYOUT_CULLING).
  - split; reflexivity.
  - right. by left.
  - discriminate.
  - discriminate.
Defined.

Lemma restricted_btn_is_a_switch_witness :
  toggle_active
    (gtk (@_lib_lighttable_restricted_btn_release simple_view_manager
            simple_view_manager_api layout_culling_restricted culling_lighttable))
    layout_culling_restricted
  = true
  /\ visible
       (gtk (@_lib_lighttable_restricted_btn_release simple_view_manager
               simple_view_manager_api layout_culling_restricted sample_lighttable))
       layout_culling_restricted
     = false.
Proof.
  split.
  - rewrite (proj1 (proj1 (@restricted_btn_is_a_switch simple_view_manager
                             simple_view_manager_api culling_lighttable
                             simple_view_manager_law)
                      (or_introl eq_refl))).
    reflexivity.
  - apply (proj2 (@restricted_btn_is_a_switch simple_view_manager
                    simple_view_manager_api sample_lighttable
                    simple_view_manager_law));
      [discriminate|reflexivity].
Defined.

Lemma culling_action_toggles_witness :
  (@_action_process_culling simple_view_manager simple_view_manager_api
     DT_ACTION_ELEMENT_CULLING_NO_RESTRICTION DT_ACTION_EFFECT_HOLD_TOGGLE true
     sample_lighttable).1
  = true
  /\ culling_init_restriction
       (data (@_action_process_culling simple_view_manager simple_view_manager_api
                DT_ACTION_ELEMENT_CULLING_NO_RESTRICTION DT_ACTION_EFFECT_HOLD_TOGGLE
                true sample_lighttable).2)
     = DT_LIGHTTABLE_CULLING_RESTRICTION_COLLECTION.
Proof.
  destruct (proj1 (@culling_action_toggles simple_view_manager simple_view_manager_api
                     sample_lighttable DT_ACTION_ELEMENT_CULLING_NO_RESTRICTION
                     DT_ACTION_EFFECT_HOLD_TOGGLE (or_introl eq_refl))
              ltac:(discriminate) ltac:(discriminate) ltac:(discriminate))
    as (Hr & _ & Hi & _).
  split; [exact Hr|exact Hi].
Defined.

Lemma preview_action_sets_preview_witness :
  (@_action_process_preview simple_view_manager simple_view_manager_api
     DT_ACTION_ELEMENT_PREVIEW_FOCUS_DETECT DT_ACTION_EFFECT_HOLD_TOGGLE true
     sample_lighttable).1
  = true.
Proof.
  apply (@preview_action_sets_preview simple_view_manager simple_view_manager_api
           sample_lighttable DT_ACTION_ELEMENT_PREVIEW_FOCUS_DETECT
           DT_ACTION_EFFECT_HOLD_TOGGLE simple_view_manager_law).
  discriminate.
Defined.

Lemma culling_dynamic_zoom_witness :
  current_zoom
    (data (@_lib_lighttable_set_layout simple_view_manager simple_view_manager_api
             initial_lighttable DT_LIGHTTABLE_LAYOUT_CULLING_DYNAMIC))
  = @dt_collection_get_selected_count simple_view_manager initial_lighttable
  /\ current_zoom
       (data (@_lib_lighttable_set_layout simple_view_manager simple_view_manager_api
                sample_lighttable DT_LIGHTTABLE_LAYOUT_CULLING_DYNAMIC))
     = 2.
Proof.
  assert (Hcur : @dt_conf_get_int simple_view_manager initial_lighttable
                   "plugins/lighttable/layout"
                 <> DT_LIGHTTABLE_LAYOUT_CULLING_DYNAMIC)
    by (vm_compute; intros H; discriminate H).
  assert (Hn : 2 <= @dt_collection_get_selected_count simple_view_manager
                      initial_lighttable
               <= Z.min 30 (@DT_LIGHTTABLE_MAX_ZOOM darktable_lighttable_constants))
    by (vm_compute; split; intros H; discriminate H).
  assert (Hcur' : @dt_conf_get_int simple_view_manager sample_lighttable
                    "plugins/lighttable/layout"
                  <> DT_LIGHTTABLE_LAYOUT_CULLING_DYNAMIC)
    by (vm_compute; intros H; discriminate H).
  assert (Hn' : @dt_collection_get_selected_count simple_view_manager
                  sample_lighttable <= 1)
    by (vm_compute; intros H; discriminate H).
  assert (Hc' : 1 <= @dt_conf_get_int simple_view_manager sample_lighttable
                       "plugins/lighttable/culling_num_images"
                <= @DT_LIGHTTABLE_MAX_ZOOM darktable_lighttable_constants)
    by (vm_compute; split; intros H; discriminate H).
  split.
  - exact (proj1 (@culling_dynamic_zoom simple_view_manager simple_view_manager_api
                    darktable_lighttable_constants initial_lighttable Hcur) Hn).
  - exact (proj2 (@culling_dynamic_zoom simple_view_manager simple_view_manager_api
                    darktable_lighttable_constants sample_lighttable Hcur') Hn' Hc').
Defined.

Lemma gui_init_sets_up_witness :
  @persisted simple_view_manager
    (@run simple_view_manager simple_view_manager_api
       [op_key_accel_toggle_zoomable; op_layout_btn_release layout_preview true]
       initial_lighttable)
  /\ layout (data initial_lighttable) = DT_LIGHTTABLE_LAYOUT_FILEMANAGER.
Proof.
  destruct (@gui_init_sets_up simple_view_manager simple_view_manager_api
              darktable_lighttable_constants
              {| vm_preview := false; vm_sticky := false; vm_focus := false;
                 vm_restriction := DT_LIGHTTABLE_CULLING_RESTRICTION_AUTO;
                 vm_culling_restricted := DT_LIGHTTABLE_CULLING_RESTRICTION_AUTO |}
              sample_conf 4
              [op_key_accel_toggle_zoomable; op_layout_btn_release layout_preview true]
              1 1 eq_refl eq_refl)
    as (Hl & _ & _ & Hp & _).
  split; [apply Hp; discriminate|exact Hl].
Defined.

